(** * Dynamic sessions gateway: the execution tool and the session server

    A shallow embedding of [execute_in_dynamic_session] and [Chat.post]
    (main.py) and of [execute_code] (session-container/server.py), with
    the properties of the result classification, the session store, the
    tool-invocation tracker and the server's responses.

    Conventions.
    - A Python [str] is a [string] holding its UTF-8 bytes.  Emptiness and
      substring tests do not depend on this choice (UTF-8 is
      self-synchronising and all searched keywords are ASCII); slices
      and lengths count characters, that is, the bytes that are not
      continuation bytes.
    - A value obtained from [response.json()] is a [json]; JSON floats are
      left out.
    - Exceptions are values of [exn]; a computation that can raise after
      it has already updated the session store lives in the monad [Py]. *)

From Stdlib Require Import ZArith Ascii.
From stdpp Require Import base option list gmap strings pretty.

(** ** Python values *)

Set Warnings "-register-all".

Inductive json : Type :=
| JNull
| JBool (b : bool)
| JInt (n : Z)
| JStr (s : string)
| JArr (items : list json)
| JObj (fields : list (string * json)).

Inductive exn : Type :=
| TypeError
| AttributeError
| KeyError
| RequestException (is_timeout : bool) (msg : string)
| OtherException (msg : string).

(** [needle in hay] on two [str]. *)
Fixpoint substring_in (needle hay : string) : bool :=
  String.prefix needle hay ||
  match hay with
  | EmptyString => false
  | String _ rest => substring_in needle rest
  end.

(** [bool(v)]. *)
Definition truthy (v : json) : bool :=
  match v with
  | JNull => false
  | JBool b => b
  | JInt n => negb (n =? 0)%Z
  | JStr s => negb (String.eqb s "")
  | JArr items => match items with [] => false | _ => true end
  | JObj fields => match fields with [] => false | _ => true end
  end.

(** [v == s] for a [str] literal [s]. *)
Definition py_eq_str (v : json) (s : string) : bool :=
  match v with
  | JStr t => String.eqb t s
  | _ => false
  end.

(** [v != 0]: [bool] is a subclass of [int], so [False == 0]. *)
Definition py_ne_zero (v : json) : bool :=
  match v with
  | JInt n => negb (n =? 0)%Z
  | JBool b => b
  | _ => true
  end.

Fixpoint dict_lookup (k : string) (d : list (string * json)) : option json :=
  match d with
  | [] => None
  | (k', v) :: rest => if String.eqb k' k then Some v else dict_lookup k rest
  end.

(** [k in v] for a [str] literal [k]: substring of a [str], element of a
    [list], key of a [dict]; [TypeError] on [None], [bool] and [int]. *)
Definition py_contains (k : string) (v : json) : exn + bool :=
  match v with
  | JStr s => inr (substring_in k s)
  | JArr items => inr (existsb (fun x => py_eq_str x k) items)
  | JObj fields => inr (bool_decide (is_Some (dict_lookup k fields)))
  | _ => inl TypeError
  end.

(** [v[k]] for a [str] literal [k]. *)
Definition py_getitem (v : json) (k : string) : exn + json :=
  match v with
  | JObj fields =>
      match dict_lookup k fields with
      | Some x => inr x
      | None => inl KeyError
      end
  | _ => inl TypeError
  end.

(** [v.get(k, dflt)]: only a [dict] has [get]. *)
Definition py_get (v : json) (k : string) (dflt : json) : exn + json :=
  match v with
  | JObj fields => inr (default dflt (dict_lookup k fields))
  | _ => inl AttributeError
  end.

(** A UTF-8 continuation byte, [10xxxxxx]. *)
Definition is_continuation (c : ascii) : bool :=
  let n := nat_of_ascii c in (128 <=? n) && (n <? 192).

(** [s[:n]]: the first [n] characters, each with the continuation bytes
    that follow its leading byte. *)
Fixpoint py_prefix (n : nat) (s : string) : string :=
  match s with
  | EmptyString => EmptyString
  | String c rest =>
      if is_continuation c then String c (py_prefix n rest)
      else
        match n with
        | O => EmptyString
        | S m => String c (py_prefix m rest)
        end
  end.

(** [str(v)], as an f-string renders [{v}].  [repr] of a container is not
    modelled: [py_repr] stands for it. *)
Definition py_str (py_repr : json -> string) (v : json) : string :=
  match v with
  | JNull => "None"
  | JBool true => "True"
  | JBool false => "False"
  | JInt n => pretty n
  | JStr s => s
  | _ => py_repr v
  end.

(** ** The session store *)

(** [active_sessions] maps a session id to a dict of attributes.  Python
    dicts keep insertion order and [list(active_sessions.keys())[-1]]
    reads it, so the outer dict is an association list in insertion
    order; the inner dicts are only looked up by key. *)
Abbreviation session := (gmap string json).
Abbreviation store := (list (string * gmap string json)).

Fixpoint store_get (sid : string) (st : store) : option session :=
  match st with
  | [] => None
  | (k, s) :: rest => if decide (k = sid) then Some s else store_get sid rest
  end.

(** [active_sessions[sid] = s]: overwrites in place, or appends a new key. *)
Fixpoint store_put (sid : string) (s : session) (st : store) : store :=
  match st with
  | [] => [(sid, s)]
  | (k, s') :: rest =>
      if decide (k = sid) then (k, s) :: rest
      else (k, s') :: store_put sid s rest
  end.

Definition store_keys (st : store) : list string := st.*1.

(** ** Computations over the store that may raise *)

Definition Py (A : Type) : Type := store -> store * (exn + A).

#[export] Instance Py_ret : MRet Py := fun A a st => (st, inr a).

#[export] Instance Py_bind : MBind Py := fun A B k m st =>
  match m st with
  | (st', inr a) => k a st'
  | (st', inl e) => (st', inl e)
  end.

Definition py_lift {A : Type} (r : exn + A) : Py A := fun st => (st, r).

(** [active_sessions[sid][key]]. *)
Definition getitem (sid key : string) : Py json := fun st =>
  match store_get sid st with
  | Some s =>
      match s !! key with
      | Some v => (st, inr v)
      | None => (st, inl KeyError)
      end
  | None => (st, inl KeyError)
  end.

(** [active_sessions[sid][key] = v]. *)
Definition setitem (sid key : string) (v : json) : Py unit := fun st =>
  match store_get sid st with
  | Some s => (store_put sid (<[key := v]> s) st, inr ())
  | None => (st, inl KeyError)
  end.

(** [active_sessions[sid].get(key, dflt)]. *)
Definition getattr (sid key : string) (dflt : json) : Py json := fun st =>
  match store_get sid st with
  | Some s => (st, inr (default dflt (s !! key)))
  | None => (st, inl KeyError)
  end.

(** ** Globals, configuration and the outside world *)

Record tool_record : Type := ToolRecord {
  name : string;
  icon : string;
  description : string;
  session_id : option string
}.

Record world : Type := World {
  active_sessions : store;
  current_tools_used : list tool_record;
  current_request_sessions : gset string
}.

Record config : Type := Config {
  SESSION_POOL_ENDPOINT : option string;
  SESSION_POOL_AUDIENCE : string
}.

(** What a call does to the outside world, in order. *)
Inductive event : Type :=
| GetToken (audience : string)
| HttpPost (url : string) (payload : json) (bearer : string)
| Sleep (seconds : Z)
| HttpGet (url : string) (bearer : string).

Record http_response : Type := HttpResponse {
  status_code : Z;
  text : string;
  body_json : exn + json;          (* [response.json()] *)
  location : option string         (* [response.headers.get("Location")] *)
}.

(** What the outside world answers during one call of the tool. *)
Record env : Type := Env {
  uuid4_hex : string;              (* [uuid.uuid4().hex] *)
  now_created : string;            (* [datetime.now().isoformat()], first *)
  now_used : string;               (* [datetime.now().isoformat()], second *)
  token : string + string;         (* [str(auth_error)] or [token.token] *)
  post : exn + http_response;      (* [requests.post(...)] *)
  polls : nat -> exn + http_response   (* the i-th [requests.get(poll_url)] *)
}.

(** ** Result normalisation and failure classification (HTTP 200) *)

(** The keyword list of the two [any(... in stdout ...)] scans; the source
    spells the same list out in both branches. *)
Definition error_keywords : list string :=
  [ "Error:"; "Traceback"; "Exception:"; "ImportError:";
    "ModuleNotFoundError:"; "SyntaxError:"; "NameError:"; "TypeError:";
    "ValueError:"; "AttributeError:" ].

(** [any(kw in stdout for kw in kws)]: stops at the first hit, raises as
    soon as one membership test raises. *)
Fixpoint any_in (kws : list string) (stdout : json) : exn + bool :=
  match kws with
  | [] => inr false
  | kw :: rest =>
      match py_contains kw stdout with
      | inl e => inl e
      | inr true => inr true
      | inr false => any_in rest stdout
      end
  end.

Definition has_error_in_stdout (stdout : json) : exn + bool :=
  any_in error_keywords stdout.

(** Lines 258-269: allocate the session on first use, count the execution. *)
Definition track_session (sid : string) (e : env) : Py unit := fun st =>
  match store_get sid st with
  | Some _ => (st, inr ())
  | None =>
      (store_put sid
         (<["created_at" := JStr (now_created e)]>
          (<["execution_count" := JInt 0]>
           (<["last_stdout" := JStr ""]>
            (<["last_stderr" := JStr ""]> ∅)))) st, inr ())
  end.

(** [n + 1] for the execution counter. *)
Definition py_succ (v : json) : exn + json :=
  match v with
  | JInt n => inr (JInt (n + 1))
  | JBool b => inr (JInt (if b then 2 else 1))
  | _ => inl TypeError
  end.

Definition update_statistics (sid : string) (e : env) : Py unit :=
  n ← getitem sid "execution_count";
  n' ← py_lift (py_succ n);
  _ ← setitem sid "execution_count" n';
  setitem sid "last_used" (JStr (now_used e)).

(** Lines 278-317, the branch ["properties" in result]. *)
Definition classify_wrapped (sid : string) (result : json) : Py unit :=
  props ← py_lift (py_getitem result "properties");
  stdout ← py_lift (py_get props "stdout" (JStr ""));
  stderr ← py_lift (py_get props "stderr" (JStr ""));
  status ← py_lift (py_get props "status" (JStr ""));
  return_code ← py_lift (py_get props "returnCode" JNull);
  _ ← setitem sid "last_stdout" stdout;
  _ ← setitem sid "last_stderr" stderr;
  _ ← setitem sid "last_returnCode" return_code;
  has_error ← py_lift (has_error_in_stdout stdout);
  if truthy stderr || has_error || py_eq_str status "Failed"
     || (truthy return_code && py_ne_zero return_code)
  then
    _ ← setitem sid "last_status" (JStr "Failed");
    if has_error && negb (truthy stderr)
    then
      _ ← setitem sid "last_stderr" stdout;
      setitem sid "last_stdout" (JStr "")
    else mret ()
  else setitem sid "last_status" (JStr "Success").

(** Lines 319-357, the branch without a ["properties"] member. *)
Definition classify_direct (sid : string) (result : json) : Py unit :=
  stdout ← py_lift (py_get result "output" (JStr ""));
  stderr ← py_lift (py_get result "error" (JStr ""));
  return_code ← py_lift (py_get result "return_code" (JInt 0));
  success ← py_lift (py_get result "success" (JBool true));
  has_error ← py_lift (has_error_in_stdout stdout);
  if truthy stderr || has_error || negb (truthy success)
     || py_ne_zero return_code
  then
    _ ← (if has_error && negb (truthy stderr)
         then
           _ ← setitem sid "last_stderr" stdout;
           setitem sid "last_stdout" (JStr "")
         else
           _ ← setitem sid "last_stdout" stdout;
           setitem sid "last_stderr" stderr);
    _ ← setitem sid "last_status" (JStr "Failed");
    setitem sid "last_returnCode"
      (if py_ne_zero return_code then return_code else JInt 1)
  else
    _ ← setitem sid "last_stdout" stdout;
    _ ← setitem sid "last_stderr" stderr;
    _ ← setitem sid "last_status" (JStr "Success");
    setitem sid "last_returnCode" return_code.

(** The structured form of every string the tool can return. *)
Inductive report : Type :=
| ConfigurationError
| AuthenticationError (msg : string)
| NetworkError (msg : string)
| ExecutionFailed (sid : string) (return_code : json) (code : string)
    (error : json)
| ExecutionSuccessful (sid : string) (code : string) (output : json)
| AsyncCompleted (execution_result : json)
| AsyncCompletedRaw (result : json)
| PollTimedOut
| NoPollingUrl
| ExecutionError (status : Z) (error_detail : string)
| TimeoutError
| SystemError (e : exn).

(** Lines 359-402: the report is built from the values read back from the
    session record. *)
Definition format_output (sid code : string) : Py report :=
  return_code ← getattr sid "last_returnCode" (JInt 0);
  status ← getattr sid "last_status" (JStr "Success");
  stderr ← getattr sid "last_stderr" (JStr "");
  stdout ← getattr sid "last_stdout" (JStr "");
  if py_eq_str status "Failed" || py_ne_zero return_code || truthy stderr
  then mret (ExecutionFailed sid return_code code
               (if truthy stderr then stderr else stdout))
  else mret (ExecutionSuccessful sid code
               (if truthy stdout then stdout else JStr "(no output)")).

(** Lines 253-402: everything done with the parsed body of an HTTP 200. *)
Definition handle_200 (sid code : string) (e : env) (result : json)
  : Py report :=
  _ ← track_session sid e;
  _ ← update_statistics sid e;
  wrapped ← py_lift (py_contains "properties" result);
  _ ← (if wrapped : bool then classify_wrapped sid result
       else classify_direct sid result);
  format_output sid code.

(** ** Asynchronous execution (HTTP 202) *)

(** [result.get("properties", {}).get("status") == "Completed"]. *)
Definition poll_completed (result : json) : exn + bool :=
  match py_get result "properties" (JObj []) with
  | inl ex => inl ex
  | inr props =>
      match py_get props "status" JNull with
      | inl ex => inl ex
      | inr status => inr (py_eq_str status "Completed")
      end
  end.

(** [result.get("properties", {}).get("result", str(result))], kept
    unrendered: the fallback is the whole body. *)
Definition poll_result (result : json) : exn + report :=
  match py_get result "properties" (JObj []) with
  | inl ex => inl ex
  | inr props =>
      match props with
      | JObj fields =>
          inr (match dict_lookup "result" fields with
               | Some v => AsyncCompleted v
               | None => AsyncCompletedRaw result
               end)
      | _ => inl AttributeError
      end
  end.

(** The [for _ in range(10)] loop, [attempts] iterations left, the next
    one being the [i]-th poll of the call. *)
Fixpoint poll_loop (e : env) (poll_url bearer : string) (attempts i : nat)
  : list event * (exn + report) :=
  match attempts with
  | O => ([], inr PollTimedOut)
  | S n =>
      let evs := [Sleep 1; HttpGet poll_url bearer] in
      let continue :=
        let '(evs', r) := poll_loop e poll_url bearer n (S i) in
        (evs ++ evs', r) in
      match polls e i with
      | inl ex => (evs, inl ex)
      | inr poll_response =>
          if (status_code poll_response =? 200)%Z then
            match body_json poll_response with
            | inl ex => (evs, inl ex)
            | inr result =>
                match poll_completed result with
                | inl ex => (evs, inl ex)
                | inr true => (evs, poll_result result)
                | inr false => continue
                end
            end
          else continue
      end
  end.

(** ** The execution tool *)

(** Lines 156-162. *)
Definition pick_session (st : store) (e : env) : string :=
  match last (store_keys st) with
  | Some sid => sid
  | None => String.substring 0 12 (uuid4_hex e)
  end.

(** Lines 167-174. *)
Definition track_tool (sid : string) (w : world) : world :=
  if decide (sid ∈ current_request_sessions w) then w
  else
    {| active_sessions := active_sessions w;
       current_tools_used :=
         current_tools_used w ++
         [ToolRecord "execute_in_dynamic_session" "📦" "Python Execution"
            (Some sid)];
       current_request_sessions := {[sid]} ∪ current_request_sessions w |}.

Definition execution_payload (code : string) : json :=
  JObj [ ("properties",
          JObj [ ("codeInputType", JStr "inline");
                 ("executionType", JStr "synchronous");
                 ("timeoutInSeconds", JInt 60);
                 ("code", JStr code) ]);
         ("code", JStr code);
         ("language", JStr "python") ].

(** The two handlers that close the second [try]: [requests] timeouts
    first, then every other exception. *)
Definition outer_except (ex : exn) : report :=
  match ex with
  | RequestException true _ => TimeoutError
  | _ => SystemError ex
  end.

Definition with_sessions (w : world) (st : store) : world :=
  {| active_sessions := st;
     current_tools_used := current_tools_used w;
     current_request_sessions := current_request_sessions w |}.

(** [execute_in_dynamic_session], before the report is rendered.  The
    first [try] block cannot raise, so its handler is left out. *)
Definition execute (cfg : config) (e : env) (code : string) (w : world)
  : world * list event * report :=
  let sid := pick_session (active_sessions w) e in
  let w := track_tool sid w in
  match SESSION_POOL_ENDPOINT cfg with
  | None => (w, [], ConfigurationError)
  | Some endpoint =>
    if String.eqb endpoint "" then (w, [], ConfigurationError) else
    match token e with
    | inl auth_error =>
        (w, [GetToken (SESSION_POOL_AUDIENCE cfg)],
         AuthenticationError auth_error)
    | inr bearer =>
      let session_url := endpoint +:+ "/execute?identifier=" +:+ sid in
      let evs := [GetToken (SESSION_POOL_AUDIENCE cfg);
                  HttpPost session_url (execution_payload code) bearer] in
      match post e with
      | inl (RequestException _ req_error) => (w, evs, NetworkError req_error)
      | inl ex => (w, evs, outer_except ex)
      | inr response =>
        if (status_code response =? 200)%Z then
          match body_json response with
          | inl ex => (w, evs, outer_except ex)
          | inr result =>
              let '(st, r) := handle_200 sid code e result (active_sessions w) in
              (with_sessions w st, evs,
               match r with inl ex => outer_except ex | inr rep => rep end)
          end
        else if (status_code response =? 202)%Z then
          match location response with
          | Some poll_url =>
              if String.eqb poll_url "" then (w, evs, NoPollingUrl)
              else
                let '(evs', r) := poll_loop e poll_url bearer 10 0 in
                (w, evs ++ evs',
                 match r with inl ex => outer_except ex | inr rep => rep end)
          | None => (w, evs, NoPollingUrl)
          end
        else (w, evs, ExecutionError (status_code response) (text response))
      end
    end
  end.

(** [str(e)]: the message of an exception raised by a library is part of
    the exception; [interp_msg] stands for the interpreter's own wording. *)
Definition exn_str (interp_msg : exn -> string) (ex : exn) : string :=
  match ex with
  | RequestException _ msg => msg
  | OtherException msg => msg
  | _ => interp_msg ex
  end.

(** The f-strings. *)
Definition render (py_repr : json -> string) (interp_msg : exn -> string)
  (r : report) : string :=
  match r with
  | ConfigurationError =>
      "❌ Configuration Error: Azure Container Apps session pool not configured. Set AZURE_CONTAINER_APPS_SESSION_POOL_ENDPOINT environment variable."
  | AuthenticationError msg =>
      "Authentication error: Unable to get access token. Error: " +:+ msg
  | NetworkError msg =>
      "Network error: Unable to connect to session pool. Error: " +:+ msg
  | ExecutionFailed sid return_code code error =>
      "❌ **Code Execution Failed**

**Session ID:** " +:+ py_prefix 12 sid +:+ "...
**Return Code:** " +:+ py_str py_repr return_code +:+ "

**Code Executed:**
```python
" +:+ code +:+ "
```

**Error:**
```
" +:+ py_str py_repr error +:+ "
```
"
  | ExecutionSuccessful sid code output =>
      "✅ **Code Execution Successful**

**Session ID:** " +:+ py_prefix 12 sid +:+ "...

**Code Executed:**
```python
" +:+ code +:+ "
```

**Output:**
```
" +:+ py_str py_repr output +:+ "
```
"
  | AsyncCompleted execution_result =>
      "✅ Code executed successfully:

" +:+ py_str py_repr execution_result
  | AsyncCompletedRaw result =>
      "✅ Code executed successfully:

" +:+ py_repr result
  | PollTimedOut =>
      "⏳ Code execution initiated but timed out waiting for result. Check session pool status."
  | NoPollingUrl => "⏳ Code execution accepted but no polling URL provided."
  | ExecutionError status error_detail =>
      "❌ Execution Error: Session execution failed (HTTP " +:+ pretty status
      +:+ "): " +:+ error_detail
  | TimeoutError =>
      "⏰ Timeout Error: Session execution timed out after 30 seconds"
  | SystemError ex =>
      "❌ System Error: Unexpected error during session execution: "
      +:+ exn_str interp_msg ex
  end.

(** [execute_in_dynamic_session] as the agent sees it. *)
Definition execute_in_dynamic_session
  (py_repr : json -> string) (interp_msg : exn -> string)
  (cfg : config) (e : env) (code : string) (w : world)
  : world * list event * string :=
  let '(w', evs, r) := execute cfg e code w in
  (w', evs, render py_repr interp_msg r).

(** [search_tools_available]. *)
Definition search_tools_available (w : world) : world * string :=
  ({| active_sessions := active_sessions w;
      current_tools_used :=
        current_tools_used w ++
        [ToolRecord "search_tools_available" "🔧" "Tool discovery" None];
      current_request_sessions := current_request_sessions w |},
   "Available AI Tools:

🔍 search_tools_available(query) - Discover available tools and capabilities
📦 execute_in_dynamic_session(code) - Execute Python code in secure Azure Container Apps session

The AI agent automatically selects the appropriate tool(s) based on your request!").

(** ** The chat endpoint *)

(** The agent is an external collaborator: all that matters here is the
    sequence of tool calls it makes, with the world's answers to each. *)
Inductive tool_call : Type :=
| CallSearch
| CallExecute (code : string) (e : env).

Definition call_tool (cfg : config) (c : tool_call) (w : world)
  : world * list event :=
  match c with
  | CallSearch => ((search_tools_available w).1, [])
  | CallExecute code e => (execute cfg e code w).1
  end.

Fixpoint agent_run (cfg : config) (calls : list tool_call) (w : world)
  : world * list event :=
  match calls with
  | [] => (w, [])
  | c :: rest =>
      let '(w1, evs1) := call_tool cfg c w in
      let '(w2, evs2) := agent_run cfg rest w1 in
      (w2, evs1 ++ evs2)
  end.

Record agent_behaviour : Type := AgentBehaviour {
  new_thread : option string;      (* [agent.get_new_thread()] raising *)
  calls : list tool_call;          (* tool calls made by [agent.run] *)
  outcome : string + string        (* [agent.run] raising, or [result.text] *)
}.

Inductive chat_response : Type :=
| BadRequest (error : string)
| InternalError (error : string)
| ChatOk (response : string) (tools_used : list tool_record)
    (tools_available : list string) (sessions_copy : option store).

(** Lines 1019-1022. *)
Definition reset_tracking (w : world) : world :=
  {| active_sessions := active_sessions w;
     current_tools_used := [];
     current_request_sessions := ∅ |}.

(** [Chat.post]. *)
Definition chat_post (cfg : config) (agent : bool) (prompt : string)
  (a : agent_behaviour) (w : world) : world * list event * chat_response :=
  if String.eqb prompt "" then (w, [], BadRequest "No prompt provided")
  else if negb agent then
    (w, [], InternalError "Azure OpenAI configuration required. Please set AZURE_OPENAI_ENDPOINT environment variable and ensure proper authentication.")
  else
    match new_thread a with
    | Some msg => (w, [], InternalError msg)
    | None =>
        let w := reset_tracking w in
        let '(w, evs) := agent_run cfg (calls a) w in
        match outcome a with
        | inl msg => (w, evs, InternalError msg)
        | inr text =>
            let tools_used := current_tools_used w in
            let sessions_copy := active_sessions w in
            let tools_available :=
              ["search_tools_available"] ++
              (match SESSION_POOL_ENDPOINT cfg with
               | Some endpoint =>
                   if String.eqb endpoint "" then []
                   else ["execute_in_dynamic_session"]
               | None => []
               end) in
            (w, evs,
             ChatOk text tools_used tools_available
               (match sessions_copy with [] => None | _ => Some sessions_copy end))
        end
    end.

(** ** The session container's server *)

#[export] Instance sum_ret {E : Type} : MRet (sum E) := fun A a => inr a.

#[export] Instance sum_bind {E : Type} : MBind (sum E) := fun A B k m =>
  match m with
  | inl e => inl e
  | inr a => k a
  end.

Module SessionContainer.

Inductive http_method : Type := GET | POST.

Record request : Type := Request {
  method : http_method;
  get_json : exn + json            (* [request.get_json(force=True)] *)
}.

(** What is handed to [subprocess.run]. *)
Inductive command : Type :=
| Shell (shell_command : json)
| Argv (program : string) (code : json)
| NodeFile (code : json).

Inductive proc_outcome : Type :=
| Exited (stdout stderr : string) (returncode : Z)
| TimeoutExpired
| Raised (ex : exn).

Inductive response : Type :=
| Json (status : Z) (body : json)
| Unhandled (ex : exn)             (* an exception escapes the view *)
| ReturnedNone.                    (* the view falls off its end *)

(** The code points for which [str.isspace] holds, as UTF-8 bytes:
    U+0009-000D, U+001C-0020, U+0085, U+00A0, U+1680, U+2000-200A, U+2028,
    U+2029, U+202F, U+205F, U+3000.  [whitespace_only s] is
    [s.strip() == ""]. *)
Fixpoint whitespace_only (s : string) : bool :=
  match s with
  | EmptyString => true
  | String c rest =>
      let n := nat_of_ascii c in
      if ((9 <=? n) && (n <=? 13)) || ((28 <=? n) && (n <=? 32))
      then whitespace_only rest
      else
        match rest with
        | String c1 rest1 =>
            let n1 := nat_of_ascii c1 in
            if (n =? 194) && ((n1 =? 133) || (n1 =? 160))
            then whitespace_only rest1
            else
              match rest1 with
              | String c2 rest2 =>
                  let n2 := nat_of_ascii c2 in
                  if ((n =? 225) && (n1 =? 154) && (n2 =? 128))
                     || ((n =? 226) && (n1 =? 128)
                         && (((128 <=? n2) && (n2 <=? 138))
                             || (n2 =? 168) || (n2 =? 169) || (n2 =? 175)))
                     || ((n =? 226) && (n1 =? 129) && (n2 =? 159))
                     || ((n =? 227) && (n1 =? 128) && (n2 =? 128))
                  then whitespace_only rest2
                  else false
              | EmptyString => false
              end
        | EmptyString => false
        end
  end.

(** [bool(v and v.strip())]. *)
Definition has_content (v : json) : exn + bool :=
  if truthy v then
    match v with
    | JStr s => inr (negb (whitespace_only s))
    | _ => inl AttributeError
    end
  else inr false.

Definition ascii_lower (c : ascii) : ascii :=
  let n := nat_of_ascii c in
  if (65 <=? n) && (n <=? 90) then ascii_of_nat (n + 32) else c.

(** [s.lower()] on the ASCII letters.  No string with a non-ASCII letter
    lowers to one of the language names tested below, so the dispatch is
    the same as with Python's Unicode-aware [lower]. *)
Fixpoint lower (s : string) : string :=
  match s with
  | EmptyString => EmptyString
  | String c rest => String (ascii_lower c) (lower rest)
  end.

Definition py_lower (v : json) : exn + string :=
  match v with
  | JStr s => inr (lower s)
  | _ => inl AttributeError
  end.

(** [a or b]. *)
Definition py_or (a b : json) : json := if truthy a then a else b.

(** [{**properties, **({k: v} if v is not None else {}), ...}]. *)
Definition optional_field (k : string) (v : json) : list (string * json) :=
  match v with
  | JNull => []
  | _ => [(k, v)]
  end.

(** Lines 59-72. *)
Definition extract_properties (data : json) : exn + json :=
  properties ← py_get data "properties" (JObj []);
  if negb (truthy properties) then
    tl_code ← py_get data "code" JNull;
    tl_cmd1 ← py_get data "shellCommand" JNull;
    tl_cmd2 ← py_get data "command" JNull;
    tl_lang ← py_get data "language" JNull;
    tl_timeout1 ← py_get data "timeout" JNull;
    tl_timeout2 ← py_get data "timeoutInSeconds" JNull;
    match properties with
    | JObj fields =>
        inr (JObj (fields
                   ++ optional_field "code" tl_code
                   ++ optional_field "shellCommand" (py_or tl_cmd1 tl_cmd2)
                   ++ optional_field "language" tl_lang
                   ++ optional_field "timeoutInSeconds"
                        (py_or tl_timeout1 tl_timeout2)))
    | _ => inl TypeError
    end
  else inr properties.

(** [timeout * 1000]. *)
Definition times_1000 (timeout : json) : exn + json :=
  match timeout with
  | JInt n => inr (JInt (n * 1000))
  | JBool b => inr (JInt (if b then 1000 else 0))
  | JStr s => inr (JStr (Nat.iter 1000 (String.append s) ""))
  | JArr items => inr (JArr (Nat.iter 1000 (app items) []))
  | _ => inl TypeError
  end.

(** How the [try] body ends. *)
Inductive ending : Type :=
| Return (r : response)
| RaiseTimeout (timeout : json)
| Raise (ex : exn).

Definition ending_of (r : exn + response) : ending :=
  match r with
  | inl ex => Raise ex
  | inr resp => Return resp
  end.

(** The interpreter chosen at lines 113-160. *)
Definition select_command (language : string) (code : json)
  : option command :=
  if String.eqb language "python" then Some (Argv "python" code)
  else if String.eqb language "javascript" || String.eqb language "js"
  then Some (NodeFile code)
  else if String.eqb language "bash" || String.eqb language "sh"
  then Some (Argv "bash" code)
  else if String.eqb language "powershell" || String.eqb language "pwsh"
  then Some (Argv "pwsh" code)
  else None.

Definition status_of (return_code : Z) : json :=
  JStr (if (return_code =? 0)%Z then "Success" else "Failed").

(** Lines 74-175, once [properties] is known. *)
Definition run_properties (run : command -> json -> proc_outcome)
  (properties : json) : ending :=
  match
    (code ← py_get properties "code" (JStr "");
     shell_command ← py_get properties "shellCommand" (JStr "");
     language ← py_get properties "language" (JStr "python");
     timeout ← py_get properties "timeoutInSeconds" (JInt 30);
     has_code ← has_content code;
     has_shell_command ← has_content shell_command;
     mret (code, shell_command, language, timeout, has_code,
           has_shell_command))
  with
  | inl ex => Raise ex
  | inr (code, shell_command, language, timeout, has_code,
         has_shell_command) =>
      if negb has_code && negb has_shell_command then
        Return (Json 400 (JObj [("error", JStr "No code or command provided")]))
      else if truthy shell_command then
        match run (Shell shell_command) timeout with
        | Exited stdout stderr return_code =>
            Return (Json 200 (JObj [("properties", JObj [
              ("status", status_of return_code);
              ("stdout", JStr stdout);
              ("stderr", JStr stderr);
              ("returnCode", JInt return_code);
              ("executionTimeInMilliseconds", JInt 0)])]))
        | TimeoutExpired => RaiseTimeout timeout
        | Raised ex => Raise ex
        end
      else if truthy code then
        match py_lower language with
        | inl ex => Raise ex
        | inr lang =>
            match select_command lang code with
            | None =>
                match language with
                | JStr l =>
                    Return (Json 400 (JObj [("error",
                      JStr ("Unsupported language: " +:+ l))]))
                | _ => Raise AttributeError
                end
            | Some cmd =>
                match run cmd timeout with
                | Exited stdout stderr return_code =>
                    Return (Json 200 (JObj [("properties", JObj [
                      ("status", status_of return_code);
                      ("stdout", JStr stdout);
                      ("stderr", JStr stderr);
                      ("returnCode", JInt return_code);
                      ("executionResult",
                       JStr (if (return_code =? 0)%Z then stdout else stderr));
                      ("executionTimeInMilliseconds", JInt 0)])]))
                | TimeoutExpired => RaiseTimeout timeout
                | Raised ex => Raise ex
                end
            end
        end
      else Return ReturnedNone
  end.

(** [execute_code].  [format_exc] stands for [traceback.format_exc()]. *)
Definition execute_code (interp_msg format_exc : exn -> string)
  (run : command -> json -> proc_outcome) (req : request) : response :=
  match method req with
  | GET =>
      Json 200 (JObj [("message", JStr "Execute endpoint is working");
                      ("method", JStr "GET")])
  | POST =>
      match get_json req with
      | inl json_error =>
          Json 400 (JObj [("error",
            JStr ("JSON parsing failed: " +:+ exn_str interp_msg json_error))])
      | inr data =>
          if negb (truthy data) then
            Json 400 (JObj [("error", JStr "No JSON data provided")])
          else
            match
              match extract_properties data with
              | inl ex => Raise ex
              | inr properties => run_properties run properties
              end
            with
            | Return r => r
            | RaiseTimeout timeout =>
                match times_1000 timeout with
                | inl ex => Unhandled ex
                | inr ms =>
                    Json 408 (JObj [("properties", JObj [
                      ("status", JStr "Failed");
                      ("stderr", JStr "Execution timed out");
                      ("executionTimeInMilliseconds", ms)])])
                end
            | Raise ex =>
                Json 500 (JObj [("properties", JObj [
                  ("status", JStr "Failed");
                  ("stderr",
                   JStr ("Execution error: " +:+ exn_str interp_msg ex +:+ "
" +:+ format_exc ex));
                  ("executionTimeInMilliseconds", JInt 0)])])
            end
      end
  end.

End SessionContainer.

(** ** Vocabulary of the statements *)

Inductive shape : Type := Wrapped | Direct.

(** What the two branches of [handle_200] read from a body whose fields
    have their wire types, with the defaults of lines 284-287 and
    323-326. *)
Record canonical : Type := Canonical {
  n_shape : shape;
  n_stdout : string;
  n_stderr : string;
  n_return_code : option Z;        (* [None] is Python's [None] *)
  n_status : option string;        (* read in the wrapped shape only *)
  n_success : option bool          (* read in the direct shape only *)
}.

Definition as_text (o : option json) : option string :=
  match o with
  | None => Some ""
  | Some (JStr s) => Some s
  | Some _ => None
  end.

Definition as_code (absent : option Z) (o : option json)
  : option (option Z) :=
  match o with
  | None => Some absent
  | Some JNull => Some None
  | Some (JInt z) => Some (Some z)
  | Some _ => None
  end.

Definition as_flag (o : option json) : option bool :=
  match o with
  | None => Some true
  | Some (JBool b) => Some b
  | Some _ => None
  end.

Definition normalize (result : json) : option canonical :=
  match result with
  | JObj fields =>
      match dict_lookup "properties" fields with
      | Some (JObj props) =>
          stdout ← as_text (dict_lookup "stdout" props);
          stderr ← as_text (dict_lookup "stderr" props);
          status ← as_text (dict_lookup "status" props);
          return_code ← as_code None (dict_lookup "returnCode" props);
          Some (Canonical Wrapped stdout stderr return_code (Some status) None)
      | Some _ => None
      | None =>
          stdout ← as_text (dict_lookup "output" fields);
          stderr ← as_text (dict_lookup "error" fields);
          return_code ← as_code (Some 0%Z) (dict_lookup "return_code" fields);
          success ← as_flag (dict_lookup "success" fields);
          Some (Canonical Direct stdout stderr return_code None (Some success))
      end
  | _ => None
  end.

(** [stdout] contains one of the listed error substrings. *)
Definition mentions_error (stdout : string) : Prop :=
  ∃ kw before after,
    kw ∈ error_keywords ∧ stdout = before +:+ kw +:+ after.

(** The attribute [key] of session [sid], if both exist. *)
Definition session_attr (w : world) (sid key : string) : option json :=
  store_get sid (active_sessions w) ≫= (.!! key).

(** Every session of the store has an integer [execution_count], as every
    session made by [track_session] has. *)
Definition store_ok (st : store) : bool :=
  forallb (λ ks, match ks.2 !! "execution_count" with
                 | Some (JInt _) => true
                 | _ => false
                 end) st.

(** The configured endpoint, if any. *)
Definition configured (cfg : config) : option string :=
  match SESSION_POOL_ENDPOINT cfg with
  | Some endpoint => if String.eqb endpoint "" then None else Some endpoint
  | None => None
  end.

(** The call reaches the session pool and gets an HTTP 200 with this
    body. *)
Definition body_of_200 (cfg : config) (e : env) : option json :=
  match configured cfg, token e, post e with
  | Some _, inr _, inr response =>
      if (status_code response =? 200)%Z then
        match body_json response with
        | inr result => Some result
        | inl _ => None
        end
      else None
  | _, _, _ => None
  end.

(** The classification as a function of the canonical record; that
    [handle_200] computes it is lemma [handle_200_summary]. *)
Definition has_error (n : canonical) : bool :=
  existsb (λ kw, substring_in kw (n_stdout n)) error_keywords.

Definition nonzero (none_counts : bool) (rc : option Z) : bool :=
  match rc with
  | Some z => negb (z =? 0)%Z
  | None => none_counts
  end.

Definition is_direct (n : canonical) : bool :=
  match n_shape n with Direct => true | Wrapped => false end.

Definition failed (n : canonical) : bool :=
  negb (String.eqb (n_stderr n) "") || has_error n
  || from_option (λ status, String.eqb status "Failed") false (n_status n)
  || from_option negb false (n_success n)
  || nonzero (is_direct n) (n_return_code n).

Definition relocated (n : canonical) : bool :=
  has_error n && String.eqb (n_stderr n) "".

Definition final_status (n : canonical) : string :=
  if failed n then "Failed" else "Success".

Definition final_stdout (n : canonical) : string :=
  if relocated n then "" else n_stdout n.

Definition final_stderr (n : canonical) : string :=
  if relocated n then n_stdout n else n_stderr n.

Definition code_json (rc : option Z) : json :=
  match rc with
  | Some z => JInt z
  | None => JNull
  end.

Definition final_return_code (n : canonical) : json :=
  if is_direct n && failed n && negb (nonzero true (n_return_code n))
  then JInt 1
  else code_json (n_return_code n).

Definition final_report (sid code : string) (n : canonical) : report :=
  if failed n || py_ne_zero (final_return_code n)
     || negb (String.eqb (final_stderr n) "")
  then ExecutionFailed sid (final_return_code n) code
         (JStr (if String.eqb (final_stderr n) "" then final_stdout n
                else final_stderr n))
  else ExecutionSuccessful sid code
         (JStr (if String.eqb (final_stdout n) "" then "(no output)"
                else final_stdout n)).

(** The five signals of a failed execution: error text on stderr, an
    error substring in stdout, an explicit "Failed" status, a non-zero
    return code ([None] counting as zero), a false success flag. *)
Definition failure_signal (n : canonical) : Prop :=
  n_stderr n ≠ ""
  ∨ mentions_error (n_stdout n)
  ∨ n_status n = Some "Failed"
  ∨ (∃ z, n_return_code n = Some z ∧ z ≠ 0%Z)
  ∨ n_success n = Some false.

(** The return code is zero or the field is absent; an absent field reads
    as [None] in the wrapped shape and as zero in the direct shape. *)
Definition return_code_zero_or_absent (n : canonical) : Prop :=
  n_return_code n = Some 0%Z
  ∨ (n_shape n = Wrapped ∧ n_return_code n = None).

(** A [Py] computation that neither adds a session nor drops session
    [sid]. *)
Definition keeps {A : Type} (sid : string) (m : Py A) : Prop :=
  ∀ st, is_Some (store_get sid st) →
        is_Some (store_get sid (m st).1)
        ∧ store_keys (m st).1 = store_keys st.

(** A [Py] computation that keeps [store_ok]. *)
Definition counts {A : Type} (m : Py A) : Prop :=
  ∀ st, store_ok st = true → store_ok (m st).1 = true.

Definition is_hex_digit (c : ascii) : bool :=
  let n := nat_of_ascii c in
  ((48 <=? n) && (n <=? 57)) || ((97 <=? n) && (n <=? 102)).

(** [uuid.uuid4().hex] is 32 lowercase hexadecimal digits. *)
Definition hex_string (len : nat) (s : string) : bool :=
  (String.length s =? len) && forallb is_hex_digit (String.list_ascii_of_string s).

(** The tool-invocation records that carry session [sid]. *)
Definition records_for (sid : string) (tools : list tool_record)
  : list tool_record :=
  filter (λ r, session_id r = Some sid) tools.

(** The tracker's invariant: a session has at most one record, and none
    before it is in the seen set. *)
Definition tracker_ok (w : world) : Prop :=
  ∀ sid,
    (sid ∉ current_request_sessions w →
     records_for sid (current_tools_used w) = [])
    ∧ length (records_for sid (current_tools_used w)) ≤ 1.

(** A poll that answers without reporting completion. *)
Definition pending (p : exn + http_response) : Prop :=
  ∃ r, p = inr r
       ∧ (status_code r ≠ 200%Z
          ∨ ∃ fields, body_json r = inr (JObj fields)
              ∧ (dict_lookup "properties" fields = None
                 ∨ ∃ props, dict_lookup "properties" fields = Some (JObj props)
                     ∧ dict_lookup "status" props ≠ Some (JStr "Completed"))).

(** A poll answered with HTTP 200 and a body that reports "Completed";
    [rep] is its result, or the whole body when it names no result. *)
Definition completed_with (p : exn + http_response) (rep : report) : Prop :=
  ∃ r fields props,
    p = inr r ∧ status_code r = 200%Z
    ∧ body_json r = inr (JObj fields)
    ∧ dict_lookup "properties" fields = Some (JObj props)
    ∧ dict_lookup "status" props = Some (JStr "Completed")
    ∧ rep = match dict_lookup "result" props with
            | Some v => AsyncCompleted v
            | None => AsyncCompletedRaw (JObj fields)
            end.

(** The events of [k] polling attempts. *)
Definition poll_events (poll_url bearer : string) (k : nat) : list event :=
  concat (replicate k [Sleep 1; HttpGet poll_url bearer]).

(** [v] is an object with a member [k]. *)
Definition has_member (k : string) (v : json) : bool :=
  match v with
  | JObj fields => bool_decide (is_Some (dict_lookup k fields))
  | _ => false
  end.

(** Response shape A: [status], [stdout], [stderr] and [returnCode] under
    a [properties] object. *)
Definition shape_A (body : json) : bool :=
  match py_getitem body "properties" with
  | inr props =>
      has_member "status" props && has_member "stdout" props
      && has_member "stderr" props && has_member "returnCode" props
  | inl _ => false
  end.

(** The body of the server's 408 and 500 answers: a [properties] object
    with status "Failed" and a [stderr], without [stdout] or
    [returnCode]. *)
Definition failure_body (body : json) : bool :=
  match py_getitem body "properties" with
  | inr props =>
      match py_getitem props "status" with
      | inr status => py_eq_str status "Failed"
      | inl _ => false
      end
      && has_member "stderr" props
      && negb (has_member "stdout" props)
      && negb (has_member "returnCode" props)
  | inl _ => false
  end.

(** The body of the server's 400 answers: a lone [error] message. *)
Definition error_body (body : json) : Prop :=
  ∃ msg, body = JObj [("error", JStr msg)].

(** Member [k] is missing, or is a string of white space only. *)
Definition blank (k : string) (props : list (string * json)) : Prop :=
  dict_lookup k props = None
  ∨ ∃ s, dict_lookup k props = Some (JStr s)
         ∧ SessionContainer.whitespace_only s = true.

(** ** Concrete inputs *)

Definition pool : config :=
  {| SESSION_POOL_ENDPOINT := Some "https://pool.example";
     SESSION_POOL_AUDIENCE := "https://dynamicsessions.io/.default" |}.

Definition no_pool : config :=
  {| SESSION_POOL_ENDPOINT := None;
     SESSION_POOL_AUDIENCE := "https://dynamicsessions.io/.default" |}.

(** An environment whose session pool answers with [response]. *)
Definition answering (response : http_response)
  (polls : nat → exn + http_response) : env :=
  {| uuid4_hex := "3f2a9c0b7e1d4a5b8c6d0e1f2a3b4c5d";
     now_created := "2025-01-01T10:00:00";
     now_used := "2025-01-01T10:00:01";
     token := inr "secret";
     post := inr response;
     polls := polls |}.

Definition no_polls : nat → exn + http_response :=
  λ _, inl (RequestException false "unreachable").

Definition ok_200 (result : json) : env :=
  answering {| status_code := 200; text := ""; body_json := inr result;
               location := None |} no_polls.

(** Bodies of HTTP 200 answers. *)
Definition clean_output : json :=
  JObj [("output", JStr "4
"); ("error", JStr ""); ("return_code", JInt 0); ("success", JBool true)].

Definition traceback_in_stdout : json :=
  JObj [("output", JStr "Traceback (most recent call last):
ZeroDivisionError: division by zero
"); ("error", JStr ""); ("return_code", JInt 1); ("success", JBool false)].

Definition null_return_code : json :=
  JObj [("output", JStr "ok"); ("error", JStr "");
        ("return_code", JNull); ("success", JBool true)].


Definition stderr_with_zero_code : json :=
  JObj [("properties",
         JObj [("stdout", JStr ""); ("stderr", JStr "boom");
               ("returnCode", JInt 0)])].

Definition failed_status_only : json :=
  JObj [("properties",
         JObj [("status", JStr "Failed"); ("stdout", JStr "");
               ("stderr", JStr ""); ("returnCode", JInt 0)])].


Definition still_running : exn + http_response :=
  inr {| status_code := 200; text := "";
         body_json := inr (JObj [("properties",
                                  JObj [("status", JStr "Running")])]);
         location := None |}.

Definition completed_42 : exn + http_response :=
  inr {| status_code := 200; text := "";
         body_json := inr (JObj [("properties",
                                  JObj [("status", JStr "Completed");
                                        ("result", JStr "42")])]);
         location := None |}.

Definition accepted (polls : nat → exn + http_response) : env :=
  answering {| status_code := 202; text := ""; body_json := inr JNull;
               location := Some "https://pool.example/operations/7" |}
            polls.

(** The same answers with another [uuid4]. *)
Definition with_uuid (hex : string) (e : env) : env :=
  {| uuid4_hex := hex;
     now_created := now_created e;
     now_used := now_used e;
     token := token e;
     post := post e;
     polls := polls e |}.

(** An agent that calls the execution tool twice and answers "4". *)
Definition asks_twice : agent_behaviour :=
  {| new_thread := None;
     calls := [CallExecute "print(2+2)" (ok_200 clean_output);
               CallExecute "print(2+2)" (ok_200 clean_output)];
     outcome := inr "4" |}.

Definition fresh_world : world :=
  {| active_sessions := [];
     current_tools_used := [];
     current_request_sessions := ∅ |}.

(** A [Py] computation that touches no session but [sid], creates no
    session, and in session [sid] assigns to no attribute outside
    [keys]. *)
Definition writes_only {A : Type} (sid : string) (keys : list string)
  (m : Py A) : Prop :=
  ∀ st,
    (∀ sid', sid' ≠ sid → store_get sid' (m st).1 = store_get sid' st)
    ∧ (store_get sid st = None → store_get sid (m st).1 = None)
    ∧ (∀ s, store_get sid st = Some s →
         ∃ s', store_get sid (m st).1 = Some s'
               ∧ ∀ k, k ∉ keys → s' !! k = s !! k).

(** The attributes assigned at lines 289-349. *)
Definition result_keys : list string :=
  ["last_stdout"; "last_stderr"; "last_returnCode"; "last_status"].

(** The session record made at lines 259-264. *)
Definition new_session (e : env) : session :=
  <["created_at" := JStr (now_created e)]>
    (<["execution_count" := JInt 0]>
      (<["last_stdout" := JStr ""]>
        (<["last_stderr" := JStr ""]> ∅))).

(** The attributes assigned at lines 268-269. *)
Definition statistics_keys : list string := ["execution_count"; "last_used"].

(** How many executions session [sid] has counted; none when it does not
    exist. *)
Definition executions (w : world) (sid : string) : Z :=
  match session_attr w sid "execution_count" with
  | Some (JInt c) => c
  | _ => 0%Z
  end.

(** Two sessions, the second one the more recent. *)
Definition two_sessions : world :=
  {| active_sessions :=
       [("aaaaaaaaaaaa",
         <["created_at" := JStr "2024-12-31T09:00:00"]>
           (<["execution_count" := JInt 3]>
             (<["last_status" := JStr "Success"]> ∅)));
        ("bbbbbbbbbbbb",
         <["created_at" := JStr "2024-12-31T09:30:00"]>
           (<["execution_count" := JInt 7]>
             (<["last_status" := JStr "Success"]> ∅)))];
     current_tools_used := [];
     current_request_sessions := ∅ |}.

(** An environment whose session pool answers with status [status] and
    text [text], not JSON. *)
Definition refusing (status : Z) (text : string) : env :=
  answering {| status_code := status; text := text;
               body_json := inl (OtherException "Expecting value");
               location := None |} no_polls.

(** A poll at which the call raises [ex]: the GET itself, the JSON
    parsing of a 200 answer, or the inspection of its body. *)
Definition poll_raises (p : exn + http_response) (ex : exn) : Prop :=
  p = inl ex
  ∨ ∃ r, p = inr r ∧ status_code r = 200%Z
         ∧ (body_json r = inl ex
            ∨ ∃ result, body_json r = inr result
                        ∧ poll_completed result = inl ex).

(** A value on which [kw in v] raises. *)
Definition not_iterable (v : json) : bool :=
  match v with
  | JNull | JBool _ | JInt _ => true
  | _ => false
  end.

Definition timing_out : exn + http_response :=
  inl (RequestException true "Read timed out.").

Definition null_stdout : json :=
  JObj [("properties",
         JObj [("stdout", JNull); ("stderr", JStr "lost");
               ("status", JStr "Failed"); ("returnCode", JInt 2)])].

(** The call is an execution that the session pool answers with HTTP 200
    and a JSON body. *)
Definition answered_200 (cfg : config) (c : tool_call) : bool :=
  match c with
  | CallSearch => false
  | CallExecute _ e => bool_decide (is_Some (body_of_200 cfg e))
  end.

(** The record appended by [search_tools_available]. *)
Definition search_record : tool_record :=
  ToolRecord "search_tools_available" "🔧" "Tool discovery" None.

(** After a reset, the seen set holds exactly the session ids that have
    a record, and each has one. *)
Definition tracker_exact (w : world) : Prop :=
  ∀ sid,
    (sid ∈ current_request_sessions w →
     length (records_for sid (current_tools_used w)) = 1)
    ∧ ((sid ∉ current_request_sessions w) →
       records_for sid (current_tools_used w) = []).

(** A run in which the first call is refused and two later ones are
    answered. *)
Definition mixed_calls : list tool_call :=
  [CallExecute "print(0)" (refusing 503 "Service Unavailable");
   CallSearch;
   CallExecute "print(1)"
     (with_uuid "0123456789abcdef0123456789abcdef" (ok_200 clean_output));
   CallExecute "1/0" (ok_200 traceback_in_stdout)].

(** The language names [select_command] knows. *)
Definition supported_languages : list string :=
  ["python"; "javascript"; "js"; "bash"; "sh"; "powershell"; "pwsh"].

(** The body of the server's HTTP 200 answer to a shell command. *)
Definition shell_answer (stdout stderr : string) (return_code : Z) : json :=
  JObj [("properties", JObj [
    ("status", SessionContainer.status_of return_code);
    ("stdout", JStr stdout);
    ("stderr", JStr stderr);
    ("returnCode", JInt return_code);
    ("executionTimeInMilliseconds", JInt 0)])].

(** The body of the server's HTTP 200 answer to code. *)
Definition code_answer (stdout stderr : string) (return_code : Z) : json :=
  JObj [("properties", JObj [
    ("status", SessionContainer.status_of return_code);
    ("stdout", JStr stdout);
    ("stderr", JStr stderr);
    ("returnCode", JInt return_code);
    ("executionResult",
     JStr (if (return_code =? 0)%Z then stdout else stderr));
    ("executionTimeInMilliseconds", JInt 0)])].

(** The body of the server's HTTP 408 answer. *)
Definition timeout_answer (ms : json) : json :=
  JObj [("properties", JObj [
    ("status", JStr "Failed");
    ("stderr", JStr "Execution timed out");
    ("executionTimeInMilliseconds", ms)])].

Definition is_object (v : json) : bool :=
  match v with
  | JObj _ => true
  | _ => false
  end.

(** A request whose JSON is not an object, or whose [properties] member
    is not an object. *)
Definition malformed (data : json) : Prop :=
  is_object data = false
  ∨ ∃ fields properties,
      data = JObj fields
      ∧ dict_lookup "properties" fields = Some properties
      ∧ is_object properties = false.

(** Two members agree: they are equal or, when both hold an object,
    these objects have the same members, in whatever order. *)
Definition same_member (a b : option json) : Prop :=
  match a, b with
  | Some (JObj inner_a), Some (JObj inner_b) =>
      ∀ k, dict_lookup k inner_a = dict_lookup k inner_b
  | _, _ => a = b
  end.

(** Two bodies agree up to the order of their members and of the members
    of the objects these hold.  A body of the server and what [jsonify],
    which sorts the keys, sends for it agree in this sense. *)
Definition same_members (a b : json) : Prop :=
  match a, b with
  | JObj fields_a, JObj fields_b =>
      ∀ k, same_member (dict_lookup k fields_a) (dict_lookup k fields_b)
  | _, _ => a = b
  end.

(** The session pool hands the tool's POST to the session container's
    server and passes the server's status and JSON answer back, the
    members of the answer in whatever order. *)
Definition relays (interp_msg format_exc : exn → string)
  (run : SessionContainer.command → json → SessionContainer.proc_outcome)
  (e : env) (code : string) : Prop :=
  ∃ r body answer,
    post e = inr r ∧ body_json r = inr body
    ∧ SessionContainer.execute_code interp_msg format_exc run
        (SessionContainer.Request SessionContainer.POST
           (inr (execution_payload code)))
      = SessionContainer.Json (status_code r) answer
    ∧ same_members answer body.

(** The answer of the server to a run that prints 4, as [jsonify] sends
    it: the keys sorted. *)
Definition sorted_answer : json :=
  JObj [("properties",
         JObj [("executionResult", JStr "4
");
               ("executionTimeInMilliseconds", JInt 0);
               ("returnCode", JInt 0);
               ("status", JStr "Success");
               ("stderr", JStr "");
               ("stdout", JStr "4
")])].

(** The subprocess exits with code zero, an empty stderr and no error
    substring in its stdout. *)
Definition clean_exit (stdout stderr : string) (return_code : Z) : Prop :=
  return_code = 0%Z ∧ stderr = "" ∧ ¬ mentions_error stdout.

(** A request with a shell command of white space and some code. *)
Definition blank_command_with_code : json :=
  JObj [("properties",
         JObj [("shellCommand", JStr " "); ("code", JStr "print(1)");
               ("language", JStr "ruby")])].

(** A request in the top-level shape. *)
Definition top_level_request : json :=
  JObj [("code", JStr "print(1)"); ("timeout", JInt 5)].

Definition ruby_request : json :=
  JObj [("properties",
         JObj [("code", JStr "puts 1"); ("language", JStr "Ruby")])].

Definition null_properties : json :=
  JObj [("properties", JNull); ("code", JStr "print(1)")].

(** ** The streaming chat endpoint *)

(** What [agent.run_stream] does: the tool calls it makes, and the texts
    of the chunks it yields ([None] for a chunk without text) or the
    message of the exception it raises. *)
Record stream_behaviour : Type := StreamBehaviour {
  stream_new_thread : option string;  (* [agent.get_new_thread()] raising *)
  stream_calls : list tool_call;
  stream_outcome : string + list (option string)
}.

Inductive stream_response : Type :=
| StreamBadRequest (error : string)
| StreamInternalError (error : string)
| StreamOk (response : string) (chunks_received : nat).

(** [if chunk.text: responses.append(chunk.text)]. *)
Definition collect_stream (chunks : list (option string)) : list string :=
  omap (λ chunk,
          match chunk with
          | Some text => if String.eqb text "" then None else Some text
          | None => None
          end) chunks.

(** [ChatStream.post].  Without an agent, [agent.get_new_thread] or
    [agent.run_stream] raises [AttributeError] inside the [try]. *)
Definition chat_stream_post (interp_msg : exn → string) (cfg : config)
  (agent : bool) (prompt : string) (a : stream_behaviour) (w : world)
  : world * list event * stream_response :=
  if String.eqb prompt "" then (w, [], StreamBadRequest "No prompt provided")
  else if negb agent then
    (w, [], StreamInternalError (exn_str interp_msg AttributeError))
  else
    match stream_new_thread a with
    | Some msg => (w, [], StreamInternalError msg)
    | None =>
        let '(w, evs) := agent_run cfg (stream_calls a) w in
        match stream_outcome a with
        | inl msg => (w, evs, StreamInternalError msg)
        | inr chunks =>
            let responses := collect_stream chunks in
            (w, evs, StreamOk (String.concat "" responses) (length responses))
        end
    end.

(** ** The payload test endpoint *)

(** The code points of a UTF-8 string: the bytes that are not
    continuation bytes. *)
Definition code_points (s : string) : nat :=
  length (filter (λ c, let n := nat_of_ascii c in
                       ((n <? 128) || (192 <=? n)) = true)
            (String.list_ascii_of_string s)).

(** [len(v)]. *)
Definition py_len (v : json) : exn + nat :=
  match v with
  | JStr s => inr (code_points s)
  | JArr items => inr (length items)
  | JObj fields => inr (length fields)
  | _ => inl TypeError
  end.

(** [TestSessionPayload.post]: the status and the body of the answer.
    The length of the code is taken for the debugging output before the
    code is tested. *)
Definition test_session_payload (interp_msg : exn → string)
  (get_json : exn + json) : Z * json :=
  match
    (data ← get_json;
     if negb (truthy data) then
       mret (400%Z, JObj [("error", JStr "No JSON data provided")])
     else
       properties ← py_get data "properties" (JObj []);
       code ← py_get properties "code" (JStr "");
       len ← py_len code;
       has_code ← SessionContainer.has_content code;
       if negb has_code then
         mret (400%Z, JObj [("error", JStr "No code provided")])
       else
         mret (200%Z, JObj [("success", JBool true);
                            ("code_received", code);
                            ("length", JInt (Z.of_nat len))]))
  with
  | inl ex => (500%Z, JObj [("error", JStr (exn_str interp_msg ex))])
  | inr answer => answer
  end.

(** A value without a length. *)
Definition no_length (v : json) : bool :=
  match v with
  | JNull | JBool _ | JInt _ => true
  | _ => false
  end.

(** A stream that calls the execution tool once and yields three chunks,
    one of them empty. *)
Definition streams_4 : stream_behaviour :=
  {| stream_new_thread := None;
     stream_calls := [CallExecute "print(2+2)" (ok_200 clean_output)];
     stream_outcome := inr [Some "The answer "; Some ""; None; Some "is 4"] |}.

(** The world after a [/chat] request that used the session of
    [ok_200]. *)
Definition after_chat : world :=
  (chat_post pool true "what is 2+2?" asks_twice fresh_world).1.1.

(** ** Members as they stand in a body *)

(** Member [k] is absent or holds the empty string. *)
Definition empty_or_absent (k : string) (d : list (string * json)) : Prop :=
  dict_lookup k d = None ∨ dict_lookup k d = Some (JStr "").

(** Member [k] is absent or holds the integer zero. *)
Definition zero_or_absent (k : string) (d : list (string * json)) : Prop :=
  dict_lookup k d = None ∨ dict_lookup k d = Some (JInt 0).

(** Member [k] is absent or holds [true]. *)
Definition true_or_absent (k : string) (d : list (string * json)) : Prop :=
  dict_lookup k d = None ∨ dict_lookup k d = Some (JBool true).

(** The wrapped body with the content of [null_return_code]. *)
Definition wrapped_null_return_code : json :=
  JObj [("properties",
         JObj [("stdout", JStr "ok"); ("stderr", JStr "");
               ("returnCode", JNull)])].

(** A world in which an earlier request has left a record. *)
Definition one_record : world :=
  {| active_sessions := [];
     current_tools_used :=
       [ToolRecord "search_tools_available" "🔧" "Tool discovery" None];
     current_request_sessions := {["3f2a9c0b7e1d"]} |}.

(** An agent that calls no tool. *)
Definition calls_nothing : agent_behaviour :=
  {| new_thread := None; calls := []; outcome := inr "" |}.

(** How the answer follows the subprocess: HTTP 200 with the body
    [exited] makes of its output when it exits, HTTP 408 when it times
    out (unless [timeout * 1000] raises, the exception then leaving the
    handler), HTTP 500 with the failure body when it cannot be run. *)
Definition follows (exited : string → string → Z → json) (timeout : json)
  (outcome : SessionContainer.proc_outcome)
  (answer : SessionContainer.response) : Prop :=
  match outcome with
  | SessionContainer.Exited stdout stderr return_code =>
      answer = SessionContainer.Json 200 (exited stdout stderr return_code)
  | SessionContainer.TimeoutExpired =>
      match SessionContainer.times_1000 timeout with
      | inr ms => answer = SessionContainer.Json 408 (timeout_answer ms)
      | inl ex => answer = SessionContainer.Unhandled ex
      end
  | SessionContainer.Raised _ =>
      ∃ body, answer = SessionContainer.Json 500 body
              ∧ failure_body body = true
  end.

(** A shell command that outlives its timeout of one second. *)
Definition sleeping_command : json :=
  JObj [("properties",
         JObj [("shellCommand", JStr "sleep 100");
               ("timeoutInSeconds", JInt 1)])].

(** The chunk has a text, and it is not empty. *)
Definition has_text (chunk : option string) : bool :=
  match chunk with
  | Some text => negb (String.eqb text "")
  | None => false
  end.

(** * Properties *)

(** ** Strings *)

Lemma prefix_spec (p s : string) :
  String.prefix p s = true ↔ ∃ rest, s = p +:+ rest.
Proof.
  revert s. induction p as [|a p IH]; intros s.
  - destruct s; simpl; split; eauto.
  - destruct s as [|b s]; simpl.
    + split; [done | intros [rest Hrest]; discriminate].
    + destruct (Ascii.ascii_dec a b) as [->|Hab].
      * rewrite IH. split.
        -- intros [rest ->]. by exists rest.
        -- intros [rest Hrest]. injection Hrest as ->. by exists rest.
      * split; [done | intros [rest Hrest]; injection Hrest as ? ?; done].
Qed.

(** [substring_in] is the substring relation. *)
Lemma substring_in_spec (needle hay : string) :
  substring_in needle hay = true ↔
  ∃ before after, hay = before +:+ needle +:+ after.
Proof.
  induction hay as [|c hay IH]; cbn [substring_in].
  - rewrite orb_false_r, prefix_spec. split.
    + intros [rest Hrest]. by exists "", rest.
    + intros [[|??] [after Heq]]; [by exists after | discriminate].
  - rewrite orb_true_iff, IH. split.
    + intros [Hp | (before & after & ->)].
      * apply prefix_spec in Hp as [rest Hrest]. by exists "", rest.
      * by exists (String c before), after.
    + intros ([|c' before] & after & Heq).
      * left. apply prefix_spec. by exists after.
      * right. injection Heq as -> ->. by exists before, after.
Qed.

Lemma eqb_empty_false (s : string) : negb (String.eqb s "") = true ↔ s ≠ "".
Proof.
  rewrite negb_true_iff. destruct (String.eqb_spec s ""); split; congruence.
Qed.

(** ** The session store *)

Lemma store_get_put_eq (sid : string) (s : session) (st : store) :
  store_get sid (store_put sid s st) = Some s.
Proof.
  induction st as [|[k s'] st IH]; simpl.
  - by rewrite decide_True.
  - destruct (decide (k = sid)) as [->|Hne]; simpl.
    + by rewrite decide_True.
    + by rewrite decide_False.
Qed.

Lemma store_get_put_ne (sid sid' : string) (s : session) (st : store) :
  sid ≠ sid' → store_get sid' (store_put sid s st) = store_get sid' st.
Proof.
  intros Hne. induction st as [|[k s'] st IH]; simpl.
  - by rewrite decide_False.
  - destruct (decide (k = sid)) as [->|Hk]; simpl.
    + by rewrite !decide_False.
    + by rewrite IH.
Qed.

Lemma store_put_put (sid : string) (s1 s2 : session) (st : store) :
  store_put sid s2 (store_put sid s1 st) = store_put sid s2 st.
Proof.
  induction st as [|[k s'] st IH]; simpl.
  - by rewrite decide_True.
  - destruct (decide (k = sid)) as [->|Hk]; simpl.
    + by rewrite decide_True.
    + by rewrite decide_False, IH.
Qed.

Lemma store_keys_put_present (sid : string) (s : session) (st : store) :
  is_Some (store_get sid st) →
  store_keys (store_put sid s st) = store_keys st.
Proof.
  unfold store_keys. induction st as [|[k s'] st IH]; simpl.
  - by intros [? ?].
  - destruct (decide (k = sid)) as [->|Hk]; simpl; [done|].
    intros H. f_equal. by apply IH.
Qed.

Lemma store_keys_put_absent (sid : string) (s : session) (st : store) :
  store_get sid st = None →
  store_keys (store_put sid s st) = store_keys st ++ [sid].
Proof.
  unfold store_keys. induction st as [|[k s'] st IH]; simpl; [done|].
  destruct (decide (k = sid)) as [->|Hk]; simpl; [done|].
  intros H. f_equal. by apply IH.
Qed.

Lemma store_get_elem_of (sid : string) (st : store) :
  is_Some (store_get sid st) ↔ sid ∈ store_keys st.
Proof.
  unfold store_keys. induction st as [|[k s'] st IH]; simpl.
  - split; [by intros [? ?] | by intros ?%elem_of_nil].
  - rewrite elem_of_cons. destruct (decide (k = sid)) as [->|Hk].
    + split; eauto.
    + rewrite IH. split; [by right | intros [Heq|?]; [by subst | done]].
Qed.

(** ** Running [Py] computations on a store whose session is known *)

Lemma setitem_put (sid key : string) (v : json) (s : session) (st : store) :
  setitem sid key v (store_put sid s st)
  = (store_put sid (<[key := v]> s) st, inr ()).
Proof.
  unfold setitem. by rewrite store_get_put_eq, store_put_put.
Qed.

Lemma getattr_put (sid key : string) (dflt : json) (s : session) (st : store) :
  getattr sid key dflt (store_put sid s st)
  = (store_put sid s st, inr (default dflt (s !! key))).
Proof. unfold getattr. by rewrite store_get_put_eq. Qed.

Lemma getitem_put (sid key : string) (v : json) (s : session) (st : store) :
  s !! key = Some v →
  getitem sid key (store_put sid s st) = (store_put sid s st, inr v).
Proof. intros Hv. unfold getitem. by rewrite store_get_put_eq, Hv. Qed.

Lemma store_put_same (sid : string) (s : session) (st : store) :
  store_get sid st = Some s → store_put sid s st = st.
Proof.
  induction st as [|[k s'] st IH]; simpl; [done|].
  destruct (decide (k = sid)) as [->|Hk].
  - by intros [= ->].
  - intros H. by rewrite IH.
Qed.

Lemma store_ok_get (sid : string) (s : session) (st : store) :
  store_ok st = true → store_get sid st = Some s →
  ∃ c, s !! "execution_count" = Some (JInt c).
Proof.
  unfold store_ok. induction st as [|[k s'] st IH]; simpl; [done|].
  rewrite andb_true_iff. intros [Hs Hst].
  destruct (decide (k = sid)) as [->|Hk]; [|by auto].
  intros [= ->]. destruct (s !! "execution_count") as [[]|]; try done. eauto.
Qed.

Lemma update_statistics_put (sid : string) (e : env) (s : session)
  (st : store) (c : Z) :
  s !! "execution_count" = Some (JInt c) →
  update_statistics sid e (store_put sid s st)
  = (store_put sid
       (<["last_used" := JStr (now_used e)]>
        (<["execution_count" := JInt (c + 1)]> s)) st, inr ()).
Proof.
  intros Hc. unfold update_statistics, mbind, Py_bind.
  rewrite (getitem_put _ _ _ _ _ Hc). simpl.
  by rewrite !setitem_put.
Qed.

(** Lines 258-269 leave the session in place with its counter advanced. *)
Lemma bookkeeping (sid : string) (e : env) (st : store) :
  store_ok st = true →
  ∃ s1, (track_session sid e ≫= λ _, update_statistics sid e) st
        = (store_put sid s1 st, inr ()).
Proof.
  intros Hok. unfold mbind, Py_bind, track_session.
  destruct (store_get sid st) as [s|] eqn:Hget.
  - destruct (store_ok_get _ _ _ Hok Hget) as [c Hc].
    eexists.
    transitivity (update_statistics sid e (store_put sid s st)).
    + by rewrite store_put_same.
    + by apply update_statistics_put.
  - eexists. by erewrite update_statistics_put.
Qed.

(** ** The classification, summarised *)

Lemma any_in_str (kws : list string) (s : string) :
  any_in kws (JStr s) = inr (existsb (λ kw, substring_in kw s) kws).
Proof.
  induction kws as [|kw kws IH]; simpl; [done|].
  destruct (substring_in kw s); [done | by rewrite IH].
Qed.

Lemma as_text_get (d : list (string * json)) (k s : string) :
  as_text (dict_lookup k d) = Some s →
  default (JStr "") (dict_lookup k d) = JStr s.
Proof. destruct (dict_lookup k d) as [[]|]; simpl; congruence. Qed.

Lemma classify_wrapped_put (sid : string) (fields props : list (string * json))
  (n : canonical) (s : session) (st : store) :
  dict_lookup "properties" fields = Some (JObj props) →
  normalize (JObj fields) = Some n →
  ∃ s', classify_wrapped sid (JObj fields) (store_put sid s st)
        = (store_put sid s' st, inr ())
      ∧ s' !! "last_status" = Some (JStr (final_status n))
      ∧ s' !! "last_stdout" = Some (JStr (final_stdout n))
      ∧ s' !! "last_stderr" = Some (JStr (final_stderr n))
      ∧ s' !! "last_returnCode" = Some (final_return_code n).
Proof.
  intros Hprops. unfold normalize. rewrite Hprops. intros Hn.
  destruct (as_text (dict_lookup "stdout" props)) as [stdout|] eqn:Hout; [|done].
  destruct (as_text (dict_lookup "stderr" props)) as [stderr|] eqn:Herr; [|done].
  destruct (as_text (dict_lookup "status" props)) as [status|] eqn:Hstatus; [|done].
  destruct (as_code None (dict_lookup "returnCode" props)) as [rc|] eqn:Hrc; [|done].
  simpl in Hn. injection Hn as <-.
  unfold classify_wrapped, mbind, Py_bind, py_lift, py_getitem, py_get.
  rewrite Hprops.
  rewrite (as_text_get _ _ _ Hout), (as_text_get _ _ _ Herr), (as_text_get _ _ _ Hstatus).
  rewrite !setitem_put.
  unfold has_error_in_stdout. rewrite any_in_str.
  assert (Hrcj : default JNull (dict_lookup "returnCode" props) = code_json rc).
  { destruct (dict_lookup "returnCode" props) as [[]|]; by simplify_eq/=. }
  rewrite Hrcj. clear Hout Herr Hstatus Hrc Hrcj Hprops.
  unfold final_status, final_stdout, final_stderr, final_return_code,
    relocated, failed, has_error, is_direct. cbn [n_shape n_stdout n_stderr n_return_code n_status n_success truthy py_eq_str from_option].
  destruct (existsb _ error_keywords) eqn:Herrs;
  destruct (String.eqb_spec stderr "") as [->|Hne];
  destruct (String.eqb_spec status "Failed") as [->|Hst];
  destruct rc as [z|]; cbn [code_json truthy py_ne_zero nonzero];
  try destruct (Z.eqb_spec z 0) as [->|Hz].
  all: cbn -[insert lookup].
  all: rewrite ?setitem_put.
  all: eexists; split; [reflexivity|].
  all: by simplify_map_eq.
Qed.

Lemma classify_direct_put (sid : string) (fields : list (string * json))
  (n : canonical) (s : session) (st : store) :
  dict_lookup "properties" fields = None →
  normalize (JObj fields) = Some n →
  ∃ s', classify_direct sid (JObj fields) (store_put sid s st)
        = (store_put sid s' st, inr ())
      ∧ s' !! "last_status" = Some (JStr (final_status n))
      ∧ s' !! "last_stdout" = Some (JStr (final_stdout n))
      ∧ s' !! "last_stderr" = Some (JStr (final_stderr n))
      ∧ s' !! "last_returnCode" = Some (final_return_code n).
Proof.
  intros Hprops. unfold normalize. rewrite Hprops. intros Hn.
  destruct (as_text (dict_lookup "output" fields)) as [stdout|] eqn:Hout; [|done].
  destruct (as_text (dict_lookup "error" fields)) as [stderr|] eqn:Herr; [|done].
  destruct (as_code (Some 0%Z) (dict_lookup "return_code" fields)) as [rc|] eqn:Hrc; [|done].
  destruct (as_flag (dict_lookup "success" fields)) as [success|] eqn:Hsucc; [|done].
  simpl in Hn. injection Hn as <-.
  unfold classify_direct, mbind, Py_bind, py_lift, py_get.
  rewrite (as_text_get _ _ _ Hout), (as_text_get _ _ _ Herr).
  unfold has_error_in_stdout. rewrite any_in_str.
  assert (Hrcj : default (JInt 0) (dict_lookup "return_code" fields) = code_json rc).
  { destruct (dict_lookup "return_code" fields) as [[]|]; by simplify_eq/=. }
  assert (Hsj : default (JBool true) (dict_lookup "success" fields) = JBool success).
  { destruct (dict_lookup "success" fields) as [[]|]; by simplify_eq/=. }
  rewrite Hrcj, Hsj. clear Hout Herr Hsucc Hrc Hrcj Hsj Hprops.
  unfold final_status, final_stdout, final_stderr, final_return_code,
    relocated, failed, has_error, is_direct.
  cbn [n_shape n_stdout n_stderr n_return_code n_status n_success truthy py_eq_str from_option].
  destruct (existsb _ error_keywords) eqn:Herrs;
  destruct (String.eqb_spec stderr "") as [->|Hne];
  destruct success;
  destruct rc as [z|]; cbn [code_json truthy py_ne_zero nonzero];
  try destruct (Z.eqb_spec z 0) as [->|Hz].
  all: cbn -[insert lookup].
  all: rewrite ?setitem_put.
  all: eexists; split; [reflexivity|].
  all: by simplify_map_eq.
Qed.


Lemma bookkeeping_then {B : Type} (sid : string) (e : env) (st : store) :
  store_ok st = true →
  ∃ s1, ∀ k : unit → Py B,
    (track_session sid e ≫= λ _, update_statistics sid e ≫= k) st
    = k () (store_put sid s1 st).
Proof.
  intros Hok. destruct (bookkeeping sid e st Hok) as [s1 Hs1].
  exists s1. intros k. revert Hs1. unfold mbind, Py_bind.
  destruct (track_session sid e st) as [st1 [ex|[]]]; [done|].
  by intros ->.
Qed.

Lemma format_output_put (sid code : string) (n : canonical) (s : session)
  (st : store) :
  s !! "last_status" = Some (JStr (final_status n)) →
  s !! "last_stdout" = Some (JStr (final_stdout n)) →
  s !! "last_stderr" = Some (JStr (final_stderr n)) →
  s !! "last_returnCode" = Some (final_return_code n) →
  format_output sid code (store_put sid s st)
  = (store_put sid s st, inr (final_report sid code n)).
Proof.
  intros Hstatus Hout Herr Hrc.
  unfold format_output, mbind, Py_bind.
  rewrite !getattr_put, Hstatus, Hout, Herr, Hrc. simpl.
  unfold final_report, final_status.
  destruct (failed n), (py_ne_zero (final_return_code n)),
    (String.eqb (final_stderr n) ""), (String.eqb (final_stdout n) "");
    reflexivity.
Qed.

Lemma handle_200_summary (sid code : string) (e : env) (result : json)
  (n : canonical) (st : store) :
  store_ok st = true →
  normalize result = Some n →
  ∃ s', handle_200 sid code e result st
        = (store_put sid s' st, inr (final_report sid code n))
      ∧ s' !! "last_status" = Some (JStr (final_status n))
      ∧ s' !! "last_stdout" = Some (JStr (final_stdout n))
      ∧ s' !! "last_stderr" = Some (JStr (final_stderr n))
      ∧ s' !! "last_returnCode" = Some (final_return_code n).
Proof.
  intros Hok Hn. destruct result as [| | | | |fields]; try done.
  destruct (bookkeeping_then (B := report) sid e st Hok) as [s1 Hs1].
  unfold handle_200. rewrite Hs1. clear Hs1.
  unfold mbind at 1. unfold Py_bind at 1. unfold py_lift, py_contains.
  destruct (dict_lookup "properties" fields) as [props|] eqn:Hprops.
  - assert (∃ p, props = JObj p) as [p ->].
    { revert Hn. unfold normalize. rewrite Hprops. destruct props; eauto; done. }
    destruct (classify_wrapped_put sid fields p n s1 st Hprops Hn)
      as (s' & Hrun & Hstatus & Hout & Herr & Hrc).
    exists s'. split_and!; try done.
    rewrite bool_decide_true by eauto.
    unfold mbind, Py_bind. rewrite Hrun.
    by apply format_output_put.
  - destruct (classify_direct_put sid fields n s1 st Hprops Hn)
      as (s' & Hrun & Hstatus & Hout & Herr & Hrc).
    exists s'. split_and!; try done.
    rewrite bool_decide_false by (by intros [? ?]).
    unfold mbind, Py_bind. rewrite Hrun.
    by apply format_output_put.
Qed.

(** ** From [handle_200] to the tool *)

Lemma active_sessions_track_tool (sid : string) (w : world) :
  active_sessions (track_tool sid w) = active_sessions w.
Proof. unfold track_tool. by case_decide. Qed.

Lemma execute_200 (cfg : config) (e : env) (code : string) (w : world)
  (result : json) :
  body_of_200 cfg e = Some result →
  let sid := pick_session (active_sessions w) e in
  let run := handle_200 sid code e result (active_sessions w) in
  (execute cfg e code w).1.1 = with_sessions (track_tool sid w) run.1
  ∧ (execute cfg e code w).2
    = match run.2 with inl ex => outer_except ex | inr rep => rep end.
Proof.
  unfold body_of_200, configured, execute.
  destruct (SESSION_POOL_ENDPOINT cfg) as [endpoint|]; [|done].
  destruct (String.eqb endpoint ""); [done|].
  destruct (token e) as [|bearer]; [done|].
  destruct (post e) as [|response]; [done|].
  destruct (status_code response =? 200)%Z; [|done].
  destruct (body_json response) as [|result']; [done|].
  intros [= ->]. cbn zeta. rewrite active_sessions_track_tool.
  by destruct (handle_200 _ _ _ _ _) as [st r].
Qed.

Lemma execute_200_summary (cfg : config) (e : env) (code : string)
  (w : world) (result : json) (n : canonical) :
  store_ok (active_sessions w) = true →
  body_of_200 cfg e = Some result →
  normalize result = Some n →
  let sid := pick_session (active_sessions w) e in
  let w' := (execute cfg e code w).1.1 in
  session_attr w' sid "last_status" = Some (JStr (final_status n))
  ∧ session_attr w' sid "last_stdout" = Some (JStr (final_stdout n))
  ∧ session_attr w' sid "last_stderr" = Some (JStr (final_stderr n))
  ∧ session_attr w' sid "last_returnCode" = Some (final_return_code n)
  ∧ (execute cfg e code w).2 = final_report sid code n.
Proof.
  intros Hok H200 Hn sid w'.
  destruct (execute_200 cfg e code w result H200) as [Hw Hr].
  destruct (handle_200_summary sid code e result n _ Hok Hn)
    as (s' & Hrun & Hstatus & Hout & Herr & Hrc).
  fold sid in Hw, Hr. rewrite Hrun in Hw, Hr. simpl in Hw, Hr.
  subst w'. rewrite Hw. unfold session_attr. simpl.
  rewrite store_get_put_eq. simpl. by split_and!.
Qed.

Lemma mentions_error_spec (s : string) :
  existsb (λ kw, substring_in kw s) error_keywords = true ↔ mentions_error s.
Proof.
  rewrite existsb_exists. unfold mentions_error. split.
  - intros (kw & Hin & Hsub). apply substring_in_spec in Hsub as (b & a & ->).
    exists kw, b, a. by rewrite list_elem_of_In.
  - intros (kw & b & a & Hin & ->). exists kw. rewrite <- list_elem_of_In.
    split; [done|]. apply substring_in_spec. eauto.
Qed.

Lemma failed_spec (n : canonical) :
  (n_shape n = Direct → n_return_code n ≠ None) →
  failed n = true ↔ failure_signal n.
Proof.
  intros Hrc. unfold failed, failure_signal.
  rewrite !orb_true_iff, eqb_empty_false.
  fold (has_error n). unfold has_error. rewrite mentions_error_spec.
  assert (from_option (λ status, String.eqb status "Failed") false (n_status n) = true
          ↔ n_status n = Some "Failed") as ->.
  { destruct (n_status n) as [status|]; simpl; [|done].
    destruct (String.eqb_spec status "Failed"); split; congruence. }
  assert (from_option negb false (n_success n) = true
          ↔ n_success n = Some false) as ->.
  { by destruct (n_success n) as [[]|]. }
  assert (nonzero (is_direct n) (n_return_code n) = true
          ↔ ∃ z, n_return_code n = Some z ∧ z ≠ 0%Z) as ->.
  { unfold is_direct. destruct (n_return_code n) as [z|]; simpl.
    - destruct (Z.eqb_spec z 0); split; try done.
      + intros (z' & [= <-] & ?). done.
      + eauto.
    - destruct (n_shape n); simpl.
      + split; [done | by intros (? & ? & ?)].
      + by destruct Hrc. }
  tauto.
Qed.

(** ** The failure classifier *)

(** X27.  After an HTTP 200 whose body has either shape and whose
    members have their wire types (stdout, stderr and status strings, the
    return code an integer or null, the success flag a boolean, each
    possibly absent), and unless a direct-shape body carries an explicit
    null [return_code], the session's [last_status] is "Failed" exactly
    when one of the five failure signals holds, and is "Success"
    otherwise; such a body with non-empty stderr is marked "Failed"
    whatever its return code. *)
Theorem failed_iff_signal (cfg : config) (e : env) (code : string)
  (w : world) (result : json) (n : canonical) :
  store_ok (active_sessions w) = true →
  body_of_200 cfg e = Some result →
  normalize result = Some n →
  let sid := pick_session (active_sessions w) e in
  let w' := (execute cfg e code w).1.1 in
  ((n_shape n = Direct → n_return_code n ≠ None) →
   (session_attr w' sid "last_status" = Some (JStr "Failed")
    ↔ failure_signal n)
   ∧ (session_attr w' sid "last_status" = Some (JStr "Success")
      ↔ ¬ failure_signal n))
  ∧ (n_stderr n ≠ "" →
     session_attr w' sid "last_status" = Some (JStr "Failed")).
Proof.
  intros Hok H200 Hn sid w'.
  destruct (execute_200_summary cfg e code w result n Hok H200 Hn)
    as (Hstatus & _).
  fold sid w' in Hstatus. rewrite Hstatus. unfold final_status. split.
  - intros Hrc. rewrite <- (failed_spec n Hrc).
    destruct (failed n); split; split; congruence.
  - intros Hne. unfold failed.
    apply eqb_empty_false in Hne as ->. done.
Qed.

Lemma failed_iff_signal_witness :
  let n := Canonical Wrapped "" "boom" (Some 0%Z) (Some "") None in
  let w' := (execute pool (ok_200 stderr_with_zero_code) "raise"
               fresh_world).1.1 in
  (session_attr w' "3f2a9c0b7e1d" "last_status" = Some (JStr "Failed")
   ↔ failure_signal n)
  ∧ session_attr w' "3f2a9c0b7e1d" "last_status" = Some (JStr "Failed").
Proof.
  intros n w'.
  destruct (failed_iff_signal pool (ok_200 stderr_with_zero_code) "raise"
              fresh_world stderr_with_zero_code n
              eq_refl eq_refl eq_refl) as [Hiff Hstderr].
  split.
  - apply Hiff. simpl. discriminate.
  - apply Hstderr. simpl. discriminate.
Defined.

(** Without the exception for a null [return_code] in the direct shape
    the equivalence fails. *)
Lemma failed_iff_signal_counterexample :
  ¬ (∀ cfg e code w result n,
       store_ok (active_sessions w) = true →
       body_of_200 cfg e = Some result →
       normalize result = Some n →
       session_attr (execute cfg e code w).1.1
         (pick_session (active_sessions w) e) "last_status"
       = Some (JStr "Failed")
       ↔ failure_signal n).
Proof.
  intros H.
  specialize (H pool (ok_200 null_return_code) "print('ok')" fresh_world
                null_return_code
                (Canonical Direct "ok" "" None None (Some true))
                eq_refl eq_refl eq_refl).
  destruct H as [H _]. specialize (H eq_refl).
  destruct H as [H | [H | [H | [H | H]]]]; simpl in H.
  - done.
  - apply mentions_error_spec in H. vm_compute in H. done.
  - done.
  - by destruct H as (z & ? & _).
  - done.
Qed.

(** C1.  The claim counts a null return code as zero.  The wrapped
    branch does ([return_code and return_code != 0]); the direct branch
    tests [return_code != 0] alone, which holds of [None].  So the
    direct-shape body with output "ok", an empty error, a null
    [return_code] and [success] true, which shows none of the five
    failure signals, leaves the session marked "Failed" with [None] as
    its return code, while the wrapped body with the same content leaves
    it marked "Success". *)
Theorem null_return_code_marked_failed :
  let n := Canonical Direct "ok" "" None None (Some true) in
  let direct :=
    (execute pool (ok_200 null_return_code) "print('ok')" fresh_world).1.1 in
  let wrapped :=
    (execute pool (ok_200 wrapped_null_return_code) "print('ok')"
       fresh_world).1.1 in
  normalize null_return_code = Some n
  ∧ ¬ failure_signal n
  ∧ session_attr direct "3f2a9c0b7e1d" "last_status" = Some (JStr "Failed")
  ∧ session_attr direct "3f2a9c0b7e1d" "last_returnCode" = Some JNull
  ∧ session_attr wrapped "3f2a9c0b7e1d" "last_status"
    = Some (JStr "Success").
Proof.
  split_and!; try reflexivity.
  intros [H | [H | [H | [H | H]]]]; simpl in H.
  - done.
  - apply mentions_error_spec in H. vm_compute in H. done.
  - done.
  - by destruct H as (z & ? & _).
  - done.
Qed.

Lemma has_error_true (n : canonical) :
  has_error n = true ↔ mentions_error (n_stdout n).
Proof. apply mentions_error_spec. Qed.

Lemma has_error_false (n : canonical) :
  has_error n = false ↔ ¬ mentions_error (n_stdout n).
Proof. rewrite <- has_error_true. by destruct (has_error n). Qed.


Lemma format_output_store (sid code : string) (s : session) (st : store) :
  (format_output sid code (store_put sid s st)).1 = store_put sid s st.
Proof.
  unfold format_output, mbind, Py_bind. rewrite !getattr_put.
  by destruct (_ || _).
Qed.

(** The wrapped branch on a body that shows no failure: the status may
    be any value but the string "Failed". *)
Lemma classify_wrapped_clean (sid : string)
  (fields props : list (string * json)) (stdout : string) (s : session)
  (st : store) :
  dict_lookup "properties" fields = Some (JObj props) →
  as_text (dict_lookup "stdout" props) = Some stdout →
  ¬ mentions_error stdout →
  empty_or_absent "stderr" props →
  zero_or_absent "returnCode" props
  ∨ dict_lookup "returnCode" props = Some JNull →
  dict_lookup "status" props ≠ Some (JStr "Failed") →
  ∃ s', classify_wrapped sid (JObj fields) (store_put sid s st)
        = (store_put sid s' st, inr ())
      ∧ s' !! "last_status" = Some (JStr "Success")
      ∧ s' !! "last_stdout" = Some (JStr stdout)
      ∧ s' !! "last_stderr" = Some (JStr "").
Proof.
  intros Hprops Hout Hclean Herr Hrc Hstatus.
  rewrite <- mentions_error_spec in Hclean.
  apply not_true_is_false in Hclean.
  unfold classify_wrapped, mbind, Py_bind, py_lift, py_getitem, py_get.
  rewrite Hprops, (as_text_get _ _ _ Hout).
  assert (default (JStr "") (dict_lookup "stderr" props) = JStr "") as ->.
  { by destruct Herr as [-> | ->]. }
  assert (py_eq_str (default (JStr "") (dict_lookup "status" props)) "Failed"
          = false) as Hnot.
  { destruct (dict_lookup "status" props) as [[| | |status| |]|]; try done.
    simpl. destruct (String.eqb_spec status "Failed") as [-> |]; [|done].
    by destruct Hstatus. }
  assert (truthy (default JNull (dict_lookup "returnCode" props)) = false)
    as Hzero.
  { by destruct Hrc as [[-> | ->] | ->]. }
  rewrite !setitem_put. unfold has_error_in_stdout.
  rewrite any_in_str, Hclean, Hnot, Hzero. cbn -[insert lookup].
  rewrite setitem_put. eexists. split; [reflexivity|]. by simplify_map_eq.
Qed.

(** C3 (amended).  A body of either shape whose stdout is a string (or
    absent) with no listed error substring, whose stderr is the empty
    string or absent, whose return code is zero or absent (or null, in
    the wrapped shape), whose status, in the wrapped shape, is any value
    but "Failed", and whose success flag, in the direct shape, is true or
    absent, leaves the session with [last_status] "Success", with the
    stdout as [last_stdout] and with the empty string as [last_stderr]. *)
Theorem clean_run_is_success (cfg : config) (e : env) (code : string)
  (w : world) (fields : list (string * json)) (stdout : string) :
  store_ok (active_sessions w) = true →
  body_of_200 cfg e = Some (JObj fields) →
  ¬ mentions_error stdout →
  match dict_lookup "properties" fields with
  | Some properties =>
      ∃ props,
        properties = JObj props
        ∧ as_text (dict_lookup "stdout" props) = Some stdout
        ∧ empty_or_absent "stderr" props
        ∧ (zero_or_absent "returnCode" props
           ∨ dict_lookup "returnCode" props = Some JNull)
        ∧ dict_lookup "status" props ≠ Some (JStr "Failed")
  | None =>
      as_text (dict_lookup "output" fields) = Some stdout
      ∧ empty_or_absent "error" fields
      ∧ zero_or_absent "return_code" fields
      ∧ true_or_absent "success" fields
  end →
  let sid := pick_session (active_sessions w) e in
  let w' := (execute cfg e code w).1.1 in
  session_attr w' sid "last_status" = Some (JStr "Success")
  ∧ session_attr w' sid "last_stdout" = Some (JStr stdout)
  ∧ session_attr w' sid "last_stderr" = Some (JStr "").
Proof.
  intros Hok H200 Hclean Hbody sid w'.
  destruct (dict_lookup "properties" fields) as [properties|] eqn:Hprops.
  - destruct Hbody as (props & -> & Hout & Herr & Hrc & Hstatus).
    destruct (execute_200 cfg e code w _ H200) as [Hw _].
    fold sid w' in Hw. rewrite Hw. unfold session_attr. simpl.
    destruct (bookkeeping_then (B := report) sid e _ Hok) as [s1 Hs1].
    unfold handle_200. rewrite Hs1.
    unfold mbind at 1. unfold Py_bind at 1. unfold py_lift, py_contains.
    rewrite Hprops, bool_decide_true by eauto.
    destruct (classify_wrapped_clean sid fields props stdout s1
                (active_sessions w) Hprops Hout Hclean Herr Hrc Hstatus)
      as (s' & Hrun & Hs & Hso & Hse).
    unfold mbind, Py_bind. rewrite Hrun, format_output_store.
    rewrite store_get_put_eq. simpl. by split_and!.
  - destruct Hbody as (Hout & Herr & Hrc & Hsuccess).
    set (n := Canonical Direct stdout "" (Some 0%Z) None (Some true)).
    assert (normalize (JObj fields) = Some n) as Hn.
    { unfold normalize. rewrite Hprops, Hout.
      by destruct Herr as [-> | ->], Hrc as [-> | ->],
           Hsuccess as [-> | ->]. }
    destruct (execute_200_summary cfg e code w _ n Hok H200 Hn)
      as (Hs & Hso & Hse & _).
    fold sid w' in Hs, Hso, Hse. rewrite Hs, Hso, Hse.
    assert (has_error n = false) as Hnone by (by apply has_error_false).
    unfold final_status, final_stdout, final_stderr, relocated, failed.
    by rewrite Hnone.
Qed.




(** Scenario 1 of the specification. *)
Lemma clean_run_is_success_witness :
  let w' := (execute pool (ok_200 clean_output) "print(2+2)"
               fresh_world).1.1 in
  session_attr w' "3f2a9c0b7e1d" "last_status" = Some (JStr "Success")
  ∧ session_attr w' "3f2a9c0b7e1d" "last_stdout" = Some (JStr "4
")
  ∧ session_attr w' "3f2a9c0b7e1d" "last_stderr" = Some (JStr "").
Proof.
  apply (clean_run_is_success pool (ok_200 clean_output) "print(2+2)"
           fresh_world
           [("output", JStr "4
"); ("error", JStr ""); ("return_code", JInt 0); ("success", JBool true)]
           "4
").
  - reflexivity.
  - reflexivity.
  - intros H%mentions_error_spec. vm_compute in H. discriminate.
  - simpl. split_and!; [reflexivity | by right | by right | by right].
Defined.

(** C3 as stated fails: an explicit "Failed" status alone marks the
    session "Failed". *)
Lemma clean_run_is_success_counterexample :
  ¬ (∀ cfg e code w result n,
       store_ok (active_sessions w) = true →
       body_of_200 cfg e = Some result →
       normalize result = Some n →
       n_stderr n = "" →
       ¬ mentions_error (n_stdout n) →
       return_code_zero_or_absent n →
       let sid := pick_session (active_sessions w) e in
       let w' := (execute cfg e code w).1.1 in
       session_attr w' sid "last_status" = Some (JStr "Success")
       ∧ session_attr w' sid "last_stdout" = Some (JStr (n_stdout n))
       ∧ session_attr w' sid "last_stderr" = Some (JStr (n_stderr n))).
Proof.
  intros H.
  assert (¬ mentions_error "") as Hclean.
  { intros Hm%mentions_error_spec. vm_compute in Hm. discriminate. }
  specialize (H pool (ok_200 failed_status_only) "pass" fresh_world
                failed_status_only
                (Canonical Wrapped "" "" (Some 0%Z) (Some "Failed") None)
                eq_refl eq_refl eq_refl eq_refl Hclean
                (or_introl eq_refl)).
  destruct H as [H _]. vm_compute in H. discriminate.
Qed.



(** ** Computations that keep the set of sessions *)

Lemma keeps_ret {A : Type} (sid : string) (a : A) : keeps sid (mret a : Py A).
Proof. by intros st Hsid. Qed.

Lemma keeps_lift {A : Type} (sid : string) (r : exn + A) :
  keeps sid (py_lift r).
Proof. by intros st Hsid. Qed.

Lemma keeps_bind {A B : Type} (sid : string) (m : Py A) (k : A → Py B) :
  keeps sid m → (∀ a, keeps sid (k a)) → keeps sid (m ≫= k).
Proof.
  intros Hm Hk st Hsid. destruct (Hm st Hsid) as [Hsid1 Hkeys1].
  unfold mbind, Py_bind. destruct (m st) as [st1 [ex|a]]; simpl in *.
  - done.
  - destruct (Hk a st1 Hsid1) as [Hsid2 Hkeys2]. by rewrite Hkeys2.
Qed.

Lemma keeps_getitem (sid key : string) : keeps sid (getitem sid key).
Proof.
  intros st Hsid. unfold getitem.
  destruct (store_get sid st) as [s|] eqn:Hget; [|by destruct Hsid].
  destruct (s !! key); simpl; rewrite Hget; eauto.
Qed.

Lemma keeps_getattr (sid key : string) (dflt : json) :
  keeps sid (getattr sid key dflt).
Proof.
  intros st Hsid. unfold getattr.
  destruct (store_get sid st) as [s|] eqn:Hget; [|by destruct Hsid].
  simpl. rewrite Hget. eauto.
Qed.

Lemma keeps_setitem (sid key : string) (v : json) :
  keeps sid (setitem sid key v).
Proof.
  intros st Hsid. unfold setitem.
  destruct (store_get sid st) as [s|] eqn:Hget; [|by destruct Hsid]. simpl.
  rewrite store_get_put_eq. split; [done|].
  apply store_keys_put_present. by rewrite Hget.
Qed.

Create HintDb keeps.
#[export] Hint Resolve keeps_ret keeps_lift keeps_getitem keeps_getattr
  keeps_setitem : keeps.

Ltac keeps_step :=
  match goal with
  | |- keeps _ (_ ≫= _) => apply keeps_bind; [|intros ?]
  | |- keeps _ (if ?b then _ else _) => destruct b
  | |- keeps _ _ => solve [auto with keeps]
  end.

Lemma keeps_update_statistics (sid : string) (e : env) :
  keeps sid (update_statistics sid e).
Proof. unfold update_statistics. repeat keeps_step. Qed.

Lemma keeps_classify_wrapped (sid : string) (result : json) :
  keeps sid (classify_wrapped sid result).
Proof. unfold classify_wrapped. repeat keeps_step. Qed.

Lemma keeps_classify_direct (sid : string) (result : json) :
  keeps sid (classify_direct sid result).
Proof. unfold classify_direct. repeat keeps_step. Qed.

Lemma keeps_format_output (sid code : string) :
  keeps sid (format_output sid code).
Proof. unfold format_output. repeat keeps_step. Qed.

#[export] Hint Resolve keeps_update_statistics keeps_classify_wrapped
  keeps_classify_direct keeps_format_output : keeps.

(** [handle_200] adds the session when it is new and adds nothing else,
    whatever the body and however the processing ends. *)
Lemma handle_200_keys (sid code : string) (e : env) (result : json)
  (st : store) :
  store_keys (handle_200 sid code e result st).1
  = if decide (sid ∈ store_keys st) then store_keys st
    else store_keys st ++ [sid].
Proof.
  assert (keeps sid
            (_ ← update_statistics sid e;
             wrapped ← py_lift (py_contains "properties" result);
             _ ← (if wrapped : bool then classify_wrapped sid result
                  else classify_direct sid result);
             format_output sid code)) as Hrest.
  { repeat keeps_step. }
  unfold handle_200.
  unfold mbind at 1. unfold Py_bind at 1. unfold track_session.
  destruct (store_get sid st) as [s|] eqn:Hget.
  - rewrite decide_True by (apply store_get_elem_of; by rewrite Hget).
    apply Hrest. by rewrite Hget.
  - rewrite decide_False
      by (rewrite <- store_get_elem_of, Hget; by intros [? ?]).
    etrans; [apply Hrest; by rewrite store_get_put_eq|].
    by apply store_keys_put_absent.
Qed.

(** ** Polling *)

Lemma poll_events_S (poll_url bearer : string) (k : nat) :
  poll_events poll_url bearer (S k)
  = [Sleep 1; HttpGet poll_url bearer] ++ poll_events poll_url bearer k.
Proof. reflexivity. Qed.

Lemma pending_step (e : env) (poll_url bearer : string) (n i : nat) :
  pending (polls e i) →
  poll_loop e poll_url bearer (S n) i
  = ([Sleep 1; HttpGet poll_url bearer]
       ++ (poll_loop e poll_url bearer n (S i)).1,
     (poll_loop e poll_url bearer n (S i)).2).
Proof.
  intros (r & Hr & Hpending). cbn [poll_loop]. rewrite Hr.
  destruct (poll_loop e poll_url bearer n (S i)) as [evs' rep] eqn:Hrest.
  destruct (Z.eqb_spec (status_code r) 200) as [H200|H200]; [|done].
  destruct Hpending as [? | (fields & -> & Hfields)]; [done|].
  unfold poll_completed, py_get.
  destruct Hfields as [-> | (props & -> & Hstatus)]; simpl.
  - done.
  - destruct (dict_lookup "status" props) as [[| | |s| |]|]; try done.
    simpl. destruct (String.eqb_spec s "Completed") as [->|]; done.
Qed.

Lemma completed_step (e : env) (poll_url bearer : string) (n i : nat)
  (rep : report) :
  completed_with (polls e i) rep →
  poll_loop e poll_url bearer (S n) i
  = ([Sleep 1; HttpGet poll_url bearer], inr rep).
Proof.
  intros (r & fields & props & Hr & H200 & Hbody & Hprops & Hstatus & ->).
  cbn [poll_loop]. rewrite Hr, H200, Hbody. simpl.
  destruct (poll_loop e poll_url bearer n (S i)) as [evs' rep'].
  unfold poll_completed, poll_result, py_get. rewrite Hprops. simpl.
  by rewrite Hstatus.
Qed.

(** The loop polls at most [attempts] times, sleeping one second before
    each poll. *)
Lemma poll_loop_bounded (e : env) (poll_url bearer : string)
  (attempts i : nat) :
  ∃ k, k ≤ attempts
       ∧ (poll_loop e poll_url bearer attempts i).1
         = poll_events poll_url bearer k.
Proof.
  revert i. induction attempts as [|n IH]; intros i.
  - exists 0. by split.
  - destruct (IH (S i)) as (k & Hk & Hevs).
    assert (∀ r : exn + report,
              ∃ k', k' ≤ S n
                ∧ ([Sleep 1; HttpGet poll_url bearer], r).1
                  = poll_events poll_url bearer k') as Hstop.
    { intros r. exists 1. split; [lia | done]. }
    assert (∃ k', k' ≤ S n
              ∧ (let '(evs', r) := poll_loop e poll_url bearer n (S i) in
                 ([Sleep 1; HttpGet poll_url bearer] ++ evs', r)).1
                = poll_events poll_url bearer k') as Hcontinue.
    { exists (S k). split; [lia|].
      destruct (poll_loop e poll_url bearer n (S i)) as [evs' r].
      simpl in *. by rewrite Hevs. }
    cbn [poll_loop].
    destruct (polls e i) as [ex|r]; [apply Hstop|].
    destruct (status_code r =? 200)%Z; [|apply Hcontinue].
    destruct (body_json r) as [ex|result]; [apply Hstop|].
    destruct (poll_completed result) as [ex|[]];
      [apply Hstop | apply Hstop | apply Hcontinue].
Qed.

Lemma poll_loop_pending (e : env) (poll_url bearer : string)
  (attempts i : nat) :
  (∀ j, i ≤ j < i + attempts → pending (polls e j)) →
  poll_loop e poll_url bearer attempts i
  = (poll_events poll_url bearer attempts, inr PollTimedOut).
Proof.
  revert i. induction attempts as [|n IH]; intros i Hpending; [done|].
  rewrite pending_step by (apply Hpending; lia).
  rewrite IH by (intros j Hj; apply Hpending; lia). done.
Qed.

Lemma poll_loop_completed (e : env) (poll_url bearer : string)
  (attempts i k : nat) (rep : report) :
  k < attempts →
  (∀ j, i ≤ j < i + k → pending (polls e j)) →
  completed_with (polls e (i + k)) rep →
  poll_loop e poll_url bearer attempts i
  = (poll_events poll_url bearer (S k), inr rep).
Proof.
  revert attempts i. induction k as [|k IH]; intros attempts i Hk Hpending Hv.
  - destruct attempts as [|n]; [lia|].
    rewrite Nat.add_0_r in Hv. by rewrite (completed_step _ _ _ _ _ rep).
  - destruct attempts as [|n]; [lia|].
    rewrite pending_step by (apply Hpending; lia).
    rewrite (IH n (S i)).
    + done.
    + lia.
    + intros j Hj. apply Hpending. lia.
    + by replace (S i + k) with (i + S k) by lia.
Qed.

(** ** What one call of the tool can change *)

(** Only an HTTP 200 with a JSON body reaches the session store. *)
Lemma execute_cases (cfg : config) (e : env) (code : string) (w : world) :
  let sid := pick_session (active_sessions w) e in
  (execute cfg e code w).1.1 = track_tool sid w
  ∨ ∃ result,
      body_of_200 cfg e = Some result
      ∧ (execute cfg e code w).1.1
        = with_sessions (track_tool sid w)
            (handle_200 sid code e result (active_sessions w)).1.
Proof.
  intros sid.
  destruct (body_of_200 cfg e) as [result|] eqn:H200.
  - right. exists result. split; [done|].
    by destruct (execute_200 cfg e code w result H200) as [-> _].
  - left. revert H200. unfold body_of_200, configured, execute. fold sid.
    destruct (SESSION_POOL_ENDPOINT cfg) as [endpoint|]; [|done].
    destruct (String.eqb endpoint ""); [done|].
    destruct (token e) as [|bearer]; [done|].
    destruct (post e) as [[]|response]; try done.
    destruct (status_code response =? 200)%Z.
    { by destruct (body_json response). }
    intros _. destruct (status_code response =? 202)%Z; [|done].
    destruct (location response) as [poll_url|]; [|done].
    destruct (String.eqb poll_url ""); [done|].
    by destruct (poll_loop e poll_url bearer 10 0).
Qed.

Lemma execute_tracking (cfg : config) (e : env) (code : string) (w : world) :
  let sid := pick_session (active_sessions w) e in
  let w' := (execute cfg e code w).1.1 in
  current_tools_used w' = current_tools_used (track_tool sid w)
  ∧ current_request_sessions w'
    = current_request_sessions (track_tool sid w).
Proof.
  intros sid w'. subst w'.
  by destruct (execute_cases cfg e code w) as [-> | (result & _ & ->)].
Qed.

Lemma execute_keys (cfg : config) (e : env) (code : string) (w : world) :
  let sid := pick_session (active_sessions w) e in
  let keys := store_keys (active_sessions w) in
  let keys' := store_keys (active_sessions (execute cfg e code w).1.1) in
  (keys' = keys ∨ ((sid ∉ keys) ∧ keys' = keys ++ [sid])).
Proof.
  intros sid keys keys'. subst keys'.
  destruct (execute_cases cfg e code w) as [-> | (result & _ & ->)].
  - left. unfold keys. by rewrite active_sessions_track_tool.
  - simpl. rewrite handle_200_keys. fold sid keys.
    destruct (decide (sid ∈ keys)); auto.
Qed.

Lemma pick_session_last (st : store) (e : env) (sid : string) :
  last (store_keys st) = Some sid → pick_session st e = sid.
Proof. unfold pick_session. by intros ->. Qed.

(** Once the store has a session, a call of the tool adds none. *)
Lemma execute_keys_nonempty (cfg : config) (e : env) (code : string)
  (w : world) (sid : string) :
  last (store_keys (active_sessions w)) = Some sid →
  store_keys (active_sessions (execute cfg e code w).1.1)
  = store_keys (active_sessions w).
Proof.
  intros Hlast.
  destruct (execute_keys cfg e code w) as [Hkeys | [Hfresh _]]; [done|].
  rewrite (pick_session_last _ e sid Hlast) in Hfresh.
  destruct Hfresh. by apply last_Some_elem_of.
Qed.

Lemma poll_events_no_post (poll_url bearer : string) (k : nat)
  (url : string) (payload : json) (b : string) :
  HttpPost url payload b ∉ poll_events poll_url bearer k.
Proof.
  induction k as [|k IH]; [by apply not_elem_of_nil|].
  rewrite poll_events_S. rewrite elem_of_app, !elem_of_cons, elem_of_nil.
  intros [[?|[?|[]]]|?]; done.
Qed.

(** Every POST of a call goes to the configured endpoint with the picked
    session as identifier. *)
Lemma execute_posts (cfg : config) (e : env) (code : string) (w : world)
  (url : string) (payload : json) (b : string) :
  HttpPost url payload b ∈ (execute cfg e code w).1.2 →
  ∃ endpoint,
    configured cfg = Some endpoint
    ∧ url = endpoint +:+ "/execute?identifier="
            +:+ pick_session (active_sessions w) e.
Proof.
  unfold execute, configured.
  destruct (SESSION_POOL_ENDPOINT cfg) as [endpoint|];
    [|by intros ?%elem_of_nil].
  destruct (String.eqb endpoint ""); [by intros ?%elem_of_nil|].
  set (sid := pick_session (active_sessions w) e).
  destruct (token e) as [auth_error|bearer].
  { simpl. rewrite list_elem_of_singleton. done. }
  assert (∀ evs',
            HttpPost url payload b
              ∈ [GetToken (SESSION_POOL_AUDIENCE cfg);
                 HttpPost (endpoint +:+ "/execute?identifier=" +:+ sid)
                   (execution_payload code) bearer] ++ evs' →
            HttpPost url payload b ∉ evs' →
            ∃ endpoint0, Some endpoint = Some endpoint0
              ∧ url = endpoint0 +:+ "/execute?identifier=" +:+ sid) as Hposts.
  { intros evs'. rewrite elem_of_app, !elem_of_cons, elem_of_nil.
    intros [[?|[Heq|[]]]|?] ?; try done.
    injection Heq as -> _ _. eauto. }
  assert (∀ (w' : world) (r : report),
            HttpPost url payload b
              ∈ (w', [GetToken (SESSION_POOL_AUDIENCE cfg);
                      HttpPost (endpoint +:+ "/execute?identifier=" +:+ sid)
                        (execution_payload code) bearer], r).1.2 →
            ∃ endpoint0, Some endpoint = Some endpoint0
              ∧ url = endpoint0 +:+ "/execute?identifier=" +:+ sid) as Hplain.
  { intros w' r Hin. apply (Hposts []); [by rewrite app_nil_r|].
    apply not_elem_of_nil. }
  destruct (post e) as [[]|response]; try apply Hplain.
  destruct (status_code response =? 200)%Z.
  { destruct (body_json response); [apply Hplain|].
    destruct (handle_200 _ _ _ _ _). apply Hplain. }
  destruct (status_code response =? 202)%Z; [|apply Hplain].
  destruct (location response) as [poll_url|]; [|apply Hplain].
  destruct (String.eqb poll_url ""); [apply Hplain|].
  destruct (poll_loop_bounded e poll_url bearer 10 0) as (k & _ & Hk).
  destruct (poll_loop e poll_url bearer 10 0) as [evs' r]. simpl in *.
  intros Hin. apply (Hposts evs' Hin). rewrite Hk.
  apply poll_events_no_post.
Qed.

(** ** Session reuse *)

Lemma agent_run_keys (cfg : config) (calls : list tool_call) (w : world)
  (sid : string) :
  last (store_keys (active_sessions w)) = Some sid →
  store_keys (active_sessions (agent_run cfg calls w).1)
  = store_keys (active_sessions w).
Proof.
  revert w. induction calls as [|c calls IH]; intros w Hlast; [done|].
  cbn [agent_run].
  destruct (call_tool cfg c w) as [w1 evs1] eqn:Hcall.
  assert (store_keys (active_sessions w1) = store_keys (active_sessions w))
    as Hkeys.
  { destruct c as [|code e]; simpl in Hcall.
    - by injection Hcall as <- _.
    - rewrite <- (execute_keys_nonempty cfg e code w sid Hlast).
      by destruct (execute cfg e code w) as [[] ?]; simplify_eq/=. }
  specialize (IH w1). rewrite Hkeys in IH. specialize (IH Hlast).
  by destruct (agent_run cfg calls w1).
Qed.

Lemma agent_run_posts (cfg : config) (calls : list tool_call) (w : world)
  (sid url : string) (payload : json) (b : string) :
  last (store_keys (active_sessions w)) = Some sid →
  HttpPost url payload b ∈ (agent_run cfg calls w).2 →
  ∃ endpoint,
    configured cfg = Some endpoint
    ∧ url = endpoint +:+ "/execute?identifier=" +:+ sid.
Proof.
  revert w. induction calls as [|c calls IH]; intros w Hlast.
  { by intros ?%elem_of_nil. }
  cbn [agent_run].
  pose proof (agent_run_keys cfg [c] w sid Hlast) as Hkeys.
  cbn [agent_run] in Hkeys.
  destruct (call_tool cfg c w) as [w1 evs1] eqn:Hcall. simpl in Hkeys.
  specialize (IH w1). rewrite Hkeys in IH. specialize (IH Hlast).
  destruct (agent_run cfg calls w1) as [w2 evs2]. simpl in *.
  rewrite elem_of_app. intros [Hin | Hin]; [|by apply IH].
  destruct c as [|code e]; simpl in Hcall.
  - injection Hcall as _ <-. by apply elem_of_nil in Hin.
  - rewrite <- (pick_session_last (active_sessions w) e sid Hlast).
    apply (execute_posts cfg e code w url payload b).
    by destruct (execute cfg e code w) as [[] ?]; simplify_eq/=.
Qed.

Lemma substring_hex (s : string) (n len : nat) :
  n ≤ len → hex_string len s = true →
  hex_string n (String.substring 0 n s) = true.
Proof.
  unfold hex_string. rewrite !andb_true_iff, !Nat.eqb_eq.
  intros Hn [Hlen Hhex]. revert n len Hn Hlen Hhex.
  induction s as [|c s IH]; intros n len Hn Hlen Hhex.
  - simpl in Hlen. subst len. assert (n = 0) as -> by lia. done.
  - destruct n as [|n]; [done|]. simpl in *.
    apply andb_true_iff in Hhex as [Hc Hs]. rewrite Hc. simpl.
    destruct len as [|len]; [lia|].
    destruct (IH n len) as [-> ->]; [lia | lia | done | done].
Qed.

(** C4.  The tool uses the last key of the session store when the store
    has one, and the first twelve characters of a fresh [uuid4] hex
    string, twelve hexadecimal digits, only when the store is empty.  So
    once the store has last key [sid], no run of the agent adds a session
    and every POST it makes to the session pool carries [sid]; and a call made
    on an empty store can create no session but the minted one. *)
Theorem session_reuse (cfg : config) (e : env) :
  (∀ st sid, last (store_keys st) = Some sid → pick_session st e = sid)
  ∧ pick_session [] e = String.substring 0 12 (uuid4_hex e)
  ∧ (hex_string 32 (uuid4_hex e) = true →
     hex_string 12 (pick_session [] e) = true)
  ∧ (∀ code w,
       active_sessions w = [] →
       let keys' := store_keys (active_sessions (execute cfg e code w).1.1) in
       (keys' = [] ∨ keys' = [String.substring 0 12 (uuid4_hex e)]))
  ∧ (∀ calls w sid,
       last (store_keys (active_sessions w)) = Some sid →
       store_keys (active_sessions (agent_run cfg calls w).1)
       = store_keys (active_sessions w)
       ∧ ∀ url payload b,
           HttpPost url payload b ∈ (agent_run cfg calls w).2 →
           ∃ endpoint,
             configured cfg = Some endpoint
             ∧ url = endpoint +:+ "/execute?identifier=" +:+ sid).
Proof.
  split_and!.
  - intros st sid. apply pick_session_last.
  - done.
  - intros Hhex. by apply (substring_hex _ 12 32); [lia|].
  - intros code w Hempty keys'. subst keys'.
    destruct (execute_keys cfg e code w) as [-> | [_ ->]];
      rewrite Hempty; [by left | by right].
  - intros calls w sid Hlast. split.
    + by apply (agent_run_keys cfg calls w sid).
    + intros url payload b. by apply agent_run_posts.
Qed.

Lemma session_reuse_witness :
  let e := ok_200 clean_output in
  let w1 := (execute pool e "print(2+2)" fresh_world).1.1 in
  let later := [CallExecute "print(1)"
                  (with_uuid "00000000000000000000000000000000" e);
                CallSearch;
                CallExecute "print(2)"
                  (with_uuid "ffffffffffffffffffffffffffffffff" e)] in
  hex_string 12 (pick_session [] e) = true
  ∧ store_keys (active_sessions w1) = ["3f2a9c0b7e1d"]
  ∧ store_keys (active_sessions (agent_run pool later w1).1)
    = ["3f2a9c0b7e1d"]
  ∧ pick_session (active_sessions w1)
      (with_uuid "00000000000000000000000000000000" e) = "3f2a9c0b7e1d".
Proof.
  intros e w1 later.
  destruct (session_reuse pool e) as (Hlast & _ & Hhex & Hfirst & _).
  destruct (session_reuse pool
              (with_uuid "00000000000000000000000000000000" e))
    as (Hpick & _ & _ & _ & Hlater).
  split_and!.
  - apply Hhex. reflexivity.
  - destruct (Hfirst "print(2+2)" fresh_world eq_refl) as [Hnone | Hone].
    + vm_compute in Hnone. discriminate.
    + exact Hone.
  - destruct (Hlater later w1 "3f2a9c0b7e1d" eq_refl) as [Hkeys _].
    exact Hkeys.
  - apply Hpick. reflexivity.
Defined.

(** ** The tool-invocation tracker *)

Lemma records_for_app (sid : string) (l1 l2 : list tool_record) :
  records_for sid (l1 ++ l2) = records_for sid l1 ++ records_for sid l2.
Proof. unfold records_for. apply filter_app. Qed.

Lemma tracker_ok_reset (w : world) : tracker_ok (reset_tracking w).
Proof. intros sid. simpl. split; [done | simpl; lia]. Qed.

Lemma tracker_ok_track_tool (sid : string) (w : world) :
  tracker_ok w → tracker_ok (track_tool sid w).
Proof.
  intros Hok sid'. unfold track_tool.
  destruct (decide (sid ∈ current_request_sessions w)) as [Hseen|Hnew];
    [apply Hok|]. simpl.
  destruct (Hok sid') as [Hunseen Hcount].
  rewrite records_for_app. unfold records_for at 2 4.
  rewrite filter_cons, filter_nil. simpl.
  destruct (decide (Some sid = Some sid')) as [[= <-]|Hne].
  - rewrite (proj1 (Hok sid) Hnew). split; [set_solver | simpl; lia].
  - rewrite app_nil_r. split; [|done].
    intros Hnot. apply Hunseen. set_solver.
Qed.

Lemma tracker_ok_with_sessions (w : world) (st : store) :
  tracker_ok w → tracker_ok (with_sessions w st).
Proof. done. Qed.

Lemma tracker_ok_call (cfg : config) (c : tool_call) (w : world) :
  tracker_ok w → tracker_ok (call_tool cfg c w).1.
Proof.
  intros Hok. destruct c as [|code e]; simpl.
  - intros sid. simpl. rewrite records_for_app. unfold records_for at 2 4.
    rewrite filter_cons_False, filter_nil by done.
    rewrite app_nil_r. apply Hok.
  - destruct (execute_cases cfg e code w) as [-> | (result & _ & ->)].
    + by apply tracker_ok_track_tool.
    + by apply tracker_ok_with_sessions, tracker_ok_track_tool.
Qed.

(** Between two resets the tracker's invariant is kept by every tool
    call, so by every run of the agent. *)
Lemma tracker_ok_agent_run (cfg : config) (calls : list tool_call)
  (w : world) :
  tracker_ok w → tracker_ok (agent_run cfg calls w).1.
Proof.
  revert w. induction calls as [|c calls IH]; intros w Hok; [done|].
  cbn [agent_run].
  pose proof (tracker_ok_call cfg c w Hok) as Hcall.
  destruct (call_tool cfg c w) as [w1 evs1].
  specialize (IH w1 Hcall). by destruct (agent_run cfg calls w1).
Qed.

(** C5 (amended).  [Chat.post] runs the agent on the world whose
    tools-used list and seen set are empty and whose session store is as
    it was, on every request that has a prompt, an agent and a
    conversation thread, and reports the tools-used list of that run.  A
    run that starts so leaves at most one record for each session id in
    the list, however many times the execution tool is called with it.
    A request rejected before that point (no prompt, no agent, no thread)
    calls no tool and leaves the list and the seen set as they were: it
    does not reset them. *)
Theorem tracker_dedup (cfg : config) (w : world) (sid : string) :
  let emptied :=
    {| active_sessions := active_sessions w;
       current_tools_used := [];
       current_request_sessions := ∅ |} in
  (∀ agent prompt a,
     prompt ≠ "" → agent = true → new_thread a = None →
     (chat_post cfg agent prompt a w).1 = agent_run cfg (calls a) emptied
     ∧ ∀ response tools avail copy,
         (chat_post cfg agent prompt a w).2
         = ChatOk response tools avail copy →
         tools = current_tools_used (agent_run cfg (calls a) emptied).1
         ∧ length (records_for sid tools) ≤ 1)
  ∧ (∀ calls,
       length (records_for sid
                 (current_tools_used (agent_run cfg calls emptied).1)) ≤ 1)
  ∧ (∀ agent prompt a,
       prompt = "" ∨ agent = false ∨ new_thread a ≠ None →
       (chat_post cfg agent prompt a w).1 = (w, [])
       ∧ ∀ response tools avail copy,
           (chat_post cfg agent prompt a w).2
           ≠ ChatOk response tools avail copy).
Proof.
  intros emptied.
  assert (∀ calls,
            length (records_for sid
                      (current_tools_used (agent_run cfg calls emptied).1))
            ≤ 1) as Hcount.
  { intros calls.
    apply (tracker_ok_agent_run cfg calls (reset_tracking w)
             (tracker_ok_reset w) sid). }
  split_and!; [|done|].
  - intros agent prompt a Hprompt -> Hthread. unfold chat_post.
    destruct (String.eqb_spec prompt ""); [done|]. rewrite Hthread. simpl.
    specialize (Hcount (calls a)).
    change (reset_tracking w) with emptied.
    destruct (agent_run cfg (calls a) emptied) as [w' evs].
    destruct (outcome a); simpl; split; try done.
    by intros response tools avail copy [= _ <- _ _].
  - intros agent prompt a Hrejected. unfold chat_post.
    destruct (String.eqb_spec prompt ""); [done|].
    destruct agent; [|done]. simpl.
    destruct (new_thread a); [done|].
    by destruct Hrejected as [?|[?|?]].
Qed.

(** Two calls in one request leave one record for the session. *)
Lemma tracker_dedup_witness :
  let run := chat_post pool true "what is 2+2?" asks_twice fresh_world in
  run.1
  = agent_run pool (calls asks_twice)
      {| active_sessions := [];
         current_tools_used := [];
         current_request_sessions := ∅ |}
  ∧ run.2
    = ChatOk "4"
        [ToolRecord "execute_in_dynamic_session" "📦" "Python Execution"
           (Some "3f2a9c0b7e1d")]
        ["search_tools_available"; "execute_in_dynamic_session"]
        (Some (active_sessions run.1.1)).
Proof.
  destruct (tracker_dedup pool fresh_world "3f2a9c0b7e1d")
    as (Hrun & _ & _).
  destruct (Hrun true "what is 2+2?" asks_twice) as [Hworld _].
  - discriminate.
  - reflexivity.
  - reflexivity.
  - split; [exact Hworld | reflexivity].
Defined.

(** C5 as stated fails: if the list and the seen set were reset at the
    start of every chat request, a request during which no tool is called
    would leave both empty; a request without a prompt leaves them as
    they were. *)
Lemma tracker_dedup_counterexample :
  ¬ (∀ cfg agent prompt a w,
       calls a = [] →
       current_tools_used (chat_post cfg agent prompt a w).1.1 = []
       ∧ current_request_sessions (chat_post cfg agent prompt a w).1.1 = ∅).
Proof.
  intros H.
  destruct (H pool true "" calls_nothing one_record eq_refl) as [Hlist _].
  discriminate Hlist.
Qed.

(** ** The unconfigured endpoint *)

(** C6 (amended).  With no endpoint configured the tool makes no network
    call, leaves the session store unchanged and answers with the
    configuration-error report, whose text contains "Configuration
    Error"; but it has resolved a session id before that check, so the
    tracker gains a record and the seen set the id unless the id was
    already seen in this request. *)
Theorem configuration_error (cfg : config) (e : env) (code : string)
  (w : world) :
  configured cfg = None →
  let sid := pick_session (active_sessions w) e in
  execute cfg e code w = (track_tool sid w, [], ConfigurationError)
  ∧ active_sessions (execute cfg e code w).1.1 = active_sessions w
  ∧ (sid ∈ current_request_sessions w → (execute cfg e code w).1.1 = w)
  ∧ (sid ∉ current_request_sessions w →
     current_tools_used (execute cfg e code w).1.1
     = current_tools_used w
       ++ [ToolRecord "execute_in_dynamic_session" "📦" "Python Execution"
             (Some sid)]
     ∧ current_request_sessions (execute cfg e code w).1.1
       = {[sid]} ∪ current_request_sessions w)
  ∧ ∀ py_repr interp_msg,
      substring_in "Configuration Error"
        (execute_in_dynamic_session py_repr interp_msg cfg e code w).2
      = true.
Proof.
  intros Hcfg sid.
  assert (execute cfg e code w = (track_tool sid w, [], ConfigurationError))
    as Hrun.
  { revert Hcfg. unfold configured, execute. fold sid.
    destruct (SESSION_POOL_ENDPOINT cfg) as [endpoint|]; [|done].
    by destruct (String.eqb endpoint ""). }
  unfold execute_in_dynamic_session. rewrite Hrun. simpl.
  split_and!; try done.
  - apply active_sessions_track_tool.
  - intros Hseen. unfold track_tool. by rewrite decide_True.
  - intros Hnew. unfold track_tool. by rewrite decide_False.
Qed.

Lemma configuration_error_witness :
  execute no_pool (ok_200 clean_output) "print(2+2)" fresh_world
  = (track_tool "3f2a9c0b7e1d" fresh_world, [], ConfigurationError).
Proof.
  destruct (configuration_error no_pool (ok_200 clean_output) "print(2+2)"
              fresh_world) as [Hrun _].
  - reflexivity.
  - exact Hrun.
Defined.

(** C6 as stated fails: the call changes the tracker and the seen set. *)
Lemma configuration_error_counterexample :
  ¬ (∀ cfg e code w,
       configured cfg = None →
       (execute cfg e code w).2 = ConfigurationError
       ∧ (execute cfg e code w).1.2 = []
       ∧ (execute cfg e code w).1.1 = w).
Proof.
  intros H.
  destruct (H no_pool (ok_200 clean_output) "print(2+2)" fresh_world eq_refl)
    as (_ & _ & Hworld).
  apply (f_equal current_tools_used) in Hworld.
  vm_compute in Hworld. discriminate.
Qed.

Import SessionContainer.

(** ** The answers of the session container's server *)

Lemma has_content_truthy (v : json) :
  has_content v = inr true → truthy v = true.
Proof. unfold has_content. by destruct (truthy v). Qed.

Lemma has_content_blank (k : string) (props : list (string * json)) :
  blank k props →
  has_content (default (JStr "") (dict_lookup k props)) = inr false.
Proof.
  intros [-> | (s & -> & Hs)]; [done|]. simpl. unfold has_content. simpl.
  destruct (String.eqb s ""); simpl; [done|]. by rewrite Hs.
Qed.

Lemma has_content_str (s : string) :
  has_content (JStr s) = inr (negb (whitespace_only s)).
Proof.
  unfold has_content. simpl. by destruct (String.eqb_spec s "") as [-> |].
Qed.

(** How the body of the [try] can end. *)
Lemma run_properties_cases (run : command → json → proc_outcome)
  (properties : json) :
  match run_properties run properties with
  | Return (Json status body) =>
      (status = 200%Z ∧ shape_A body = true
       ∧ ∃ cmd timeout stdout stderr return_code,
           run cmd timeout = Exited stdout stderr return_code)
      ∨ (status = 400%Z ∧ error_body body)
  | Return (Unhandled _) => False
  | Return ReturnedNone => False
  | RaiseTimeout timeout => ∃ cmd, run cmd timeout = TimeoutExpired
  | Raise _ => True
  end.
Proof.
  unfold run_properties.
  destruct properties as [| | | | |props]; try done.
  cbn [py_get mbind sum_bind mret sum_ret].
  set (code := default (JStr "") (dict_lookup "code" props)).
  set (shell_command := default (JStr "") (dict_lookup "shellCommand" props)).
  set (language := default (JStr "python") (dict_lookup "language" props)).
  set (timeout := default (JInt 30) (dict_lookup "timeoutInSeconds" props)).
  destruct (has_content code) as [|has_code] eqn:Hcode; [done|].
  destruct (has_content shell_command) as [|has_shell] eqn:Hshell; [done|].
  cbn [mbind sum_bind mret sum_ret].
  destruct (negb has_code && negb has_shell) eqn:Hnone.
  { right. split; [done|]. by eexists. }
  destruct (truthy shell_command) eqn:Htshell.
  { destruct (run (Shell shell_command) timeout) as [out err rc| |ex] eqn:Hrun;
      [|by eauto|done].
    left. split_and!; [done|done|]. by do 5 eexists. }
  destruct (truthy code) eqn:Htcode.
  - destruct (py_lower language) as [|lang] eqn:Hlang; [done|].
    destruct (select_command lang code) as [cmd|].
    + destruct (run cmd timeout) as [out err rc| |ex] eqn:Hrun;
        [|by eauto|done].
      left. split_and!; [done|done|]. by do 5 eexists.
    + destruct language; try done. right. split; [done|]. by eexists.
  - destruct has_code.
    { apply has_content_truthy in Hcode. congruence. }
    destruct has_shell; [|done].
    apply has_content_truthy in Hshell. congruence.
Qed.

(** C8 (amended).  Every answer of [/execute] to a POST is one of: HTTP
    200 with a shape-A body, after a subprocess has exited; HTTP 400 with
    a lone [error] message and no [properties]; HTTP 408, only after a
    subprocess has timed out, or HTTP 500, both with a [properties] object
    holding status "Failed" and a [stderr] but neither [stdout] nor
    [returnCode].  The answer is 400 for a body that does not parse, for
    empty JSON, for properties that hold neither code nor a shell
    command, and for code in an unsupported language; it is 500 when
    the JSON or its properties are no object; and when a shell command,
    or code in a supported language, is run, it follows the subprocess:
    200 with shape A when it exits, 408 when it times out (as long as
    the timeout can be multiplied by 1000), 500 when it cannot be
    run. *)
Theorem execute_code_responses (interp_msg format_exc : exn → string)
  (run : command → json → proc_outcome) (req : request) :
  method req = POST →
  let answer := execute_code interp_msg format_exc run req in
  match answer with
  | Json status body =>
      (status = 200%Z ∧ shape_A body = true
       ∧ ∃ cmd timeout stdout stderr return_code,
           run cmd timeout = Exited stdout stderr return_code)
      ∨ (status = 400%Z ∧ error_body body)
      ∨ (status = 408%Z ∧ failure_body body = true
         ∧ ∃ cmd timeout, run cmd timeout = TimeoutExpired)
      ∨ (status = 500%Z ∧ failure_body body = true)
  | Unhandled _ => ∃ cmd timeout, run cmd timeout = TimeoutExpired
  | ReturnedNone => False
  end
  ∧ (∀ json_error,
       get_json req = inl json_error →
       answer
       = Json 400 (JObj [("error",
           JStr ("JSON parsing failed: "
                 +:+ exn_str interp_msg json_error))]))
  ∧ (∀ data,
       get_json req = inr data → truthy data = false →
       answer = Json 400 (JObj [("error", JStr "No JSON data provided")]))
  ∧ (∀ data,
       get_json req = inr data → truthy data = true → malformed data →
       ∃ body, answer = Json 500 body ∧ failure_body body = true)
  ∧ (∀ data props,
       get_json req = inr data → truthy data = true →
       extract_properties data = inr (JObj props) →
       let timeout :=
         default (JInt 30) (dict_lookup "timeoutInSeconds" props) in
       (blank "code" props → blank "shellCommand" props →
        answer
        = Json 400 (JObj [("error", JStr "No code or command provided")]))
       ∧ (∀ cmd code,
            dict_lookup "shellCommand" props = Some (JStr cmd) →
            cmd ≠ "" →
            as_text (dict_lookup "code" props) = Some code →
            whitespace_only cmd = false ∨ whitespace_only code = false →
            follows shell_answer timeout (run (Shell (JStr cmd)) timeout)
              answer)
       ∧ (∀ code language,
            dict_lookup "code" props = Some (JStr code) →
            whitespace_only code = false →
            truthy (default (JStr "") (dict_lookup "shellCommand" props))
            = false →
            default (JStr "python") (dict_lookup "language" props)
            = JStr language →
            match select_command (lower language) (JStr code) with
            | Some cmd => follows code_answer timeout (run cmd timeout) answer
            | None =>
                answer
                = Json 400 (JObj [("error",
                    JStr ("Unsupported language: " +:+ language))])
            end))
  ∧ (∀ stdout stderr return_code ms,
       shape_A (shell_answer stdout stderr return_code) = true
       ∧ shape_A (code_answer stdout stderr return_code) = true
       ∧ failure_body (timeout_answer ms) = true).
Proof.
  intros Hpost answer. subst answer. unfold execute_code. rewrite Hpost.
  split_and!.
  - destruct (get_json req) as [json_error|data].
    { right. left. split; [done|]. by eexists. }
    destruct (truthy data); simpl.
    2:{ right. left. split; [done|]. by eexists. }
    destruct (extract_properties data) as [ex|properties].
    { by repeat right. }
    pose proof (run_properties_cases run properties) as Hcases.
    destruct (run_properties run properties) as [[status body| |]|timeout|ex].
    + destruct Hcases as [?|?]; [by left | by right; left].
    + done.
    + done.
    + destruct Hcases as [cmd Hcmd].
      destruct (times_1000 timeout) as [ex|ms]; [by eauto|].
      right. right. left. split_and!; [done|done|by eauto].
    + by repeat right.
  - by intros json_error ->.
  - by intros data -> ->.
  - intros data -> -> Hbad. cbn [negb].
    assert ((∃ ex, extract_properties data = inl ex)
            ∨ (∃ properties, extract_properties data = inr properties
                             ∧ is_object properties = false))
      as [[ex ->] | (properties & -> & Hobj)].
    { destruct Hbad as [Hobj | (fields & properties & -> & Hprops & Hobj)].
      - left. exists AttributeError. by destruct data.
      - unfold extract_properties. cbn [py_get mbind sum_bind].
        rewrite Hprops. cbn [default from_option id].
        destruct (truthy properties); cbn [negb].
        + right. by exists properties.
        + left. exists TypeError. by destruct properties. }
    + eexists. split; reflexivity.
    + assert (run_properties run properties = Raise AttributeError) as ->
        by (by destruct properties).
      eexists. split; reflexivity.
  - intros data props -> -> ->. cbn zeta. cbn [negb].
    unfold run_properties. cbn [py_get mbind sum_bind mret sum_ret].
    set (timeout := default (JInt 30) (dict_lookup "timeoutInSeconds" props)).
    split_and!.
    + intros Hcode Hshell.
      by rewrite (has_content_blank _ _ Hcode), (has_content_blank _ _ Hshell).
    + intros cmd code Hcmd Hne Hcode Hcontent. rewrite Hcmd.
      rewrite (as_text_get _ _ _ Hcode). cbn [default from_option id].
      assert (truthy (JStr cmd) = true) as Htcmd.
      { simpl. by destruct (String.eqb_spec cmd ""). }
      rewrite !has_content_str. cbn [mbind sum_bind mret sum_ret].
      rewrite Htcmd.
      assert (negb (negb (whitespace_only code))
              && negb (negb (whitespace_only cmd)) = false) as ->.
      { by destruct Hcontent as [-> | ->];
          [destruct (whitespace_only code) | destruct (whitespace_only cmd)]. }
      unfold follows.
      destruct (run (Shell (JStr cmd)) timeout) as [out err rc| |ex].
      * done.
      * by destruct (times_1000 timeout).
      * eexists. split; reflexivity.
    + intros code language Hcode Hblank Hshell Hlang.
      rewrite Hcode, Hlang. cbn [default from_option id].
      rewrite has_content_str, Hblank.
      assert (has_content (default (JStr "") (dict_lookup "shellCommand" props))
              = inr false) as ->.
      { unfold has_content. by rewrite Hshell. }
      cbn [mbind sum_bind mret sum_ret negb andb]. rewrite Hshell.
      assert (truthy (JStr code) = true) as ->.
      { simpl. by destruct code. }
      cbn [py_lower].
      destruct (select_command (lower language) (JStr code)) as [cmd|];
        [|done].
      unfold follows.
      destruct (run cmd timeout) as [out err rc| |ex].
      * done.
      * by destruct (times_1000 timeout).
      * eexists. split; reflexivity.
  - intros stdout stderr return_code ms. by split_and!.
Qed.

Lemma execute_code_responses_witness :
  execute_code (λ _, "") (λ _, "") (λ _ _, TimeoutExpired)
    (Request POST (inr sleeping_command))
  = Json 408 (timeout_answer (JInt 1000))
  ∧ execute_code (λ _, "") (λ _, "") (λ _ _, TimeoutExpired)
      (Request POST (inr (execution_payload "while True: pass")))
    = Json 408 (timeout_answer (JInt 60000))
  ∧ execute_code (λ _, "") (λ _, "") (λ _ _, TimeoutExpired)
      (Request POST (inr (JObj [("properties",
                                 JObj [("language", JStr "python")])])))
    = Json 400 (JObj [("error", JStr "No code or command provided")]).
Proof.
  split_and!.
  - destruct (execute_code_responses (λ _, "") (λ _, "")
                (λ _ _, TimeoutExpired)
                (Request POST (inr sleeping_command)) eq_refl)
      as (_ & _ & _ & _ & Hrun & _).
    destruct (Hrun sleeping_command
                [("shellCommand", JStr "sleep 100");
                 ("timeoutInSeconds", JInt 1)]
                eq_refl eq_refl eq_refl) as (_ & Hshell & _).
    apply (Hshell "sleep 100" "" ltac:(reflexivity) ltac:(discriminate)
             ltac:(reflexivity) (or_introl eq_refl)).
  - destruct (execute_code_responses (λ _, "") (λ _, "")
                (λ _ _, TimeoutExpired)
                (Request POST (inr (execution_payload "while True: pass")))
                eq_refl) as (_ & _ & _ & _ & Hrun & _).
    destruct (Hrun (execution_payload "while True: pass")
                [("codeInputType", JStr "inline");
                 ("executionType", JStr "synchronous");
                 ("timeoutInSeconds", JInt 60);
                 ("code", JStr "while True: pass")]
                eq_refl eq_refl eq_refl) as (_ & _ & Hcode).
    apply (Hcode "while True: pass" "python" ltac:(reflexivity)
             ltac:(reflexivity) ltac:(reflexivity) ltac:(reflexivity)).
  - destruct (execute_code_responses (λ _, "") (λ _, "")
                (λ _ _, TimeoutExpired)
                (Request POST (inr (JObj [("properties",
                                           JObj [("language",
                                                  JStr "python")])])))
                eq_refl) as (_ & _ & _ & _ & Hrun & _).
    destruct (Hrun _ [("language", JStr "python")] eq_refl eq_refl eq_refl)
      as (Hnone & _).
    apply Hnone; left; reflexivity.
Defined.

(** C8 as stated fails: a request without code or command is answered
    with HTTP 400 and a body that has no [properties]. *)
Lemma execute_code_responses_counterexample :
  ¬ (∀ interp_msg format_exc run req,
       ∃ status body,
         execute_code interp_msg format_exc run req = Json status body
         ∧ shape_A body = true).
Proof.
  intros H.
  destruct (H (λ _, "") (λ _, "") (λ _ _, TimeoutExpired)
              (Request POST (inr (JObj [("properties",
                                         JObj [("language",
                                                JStr "python")])]))))
    as (status & body & Hanswer & Hshape).
  vm_compute in Hanswer. injection Hanswer as <- <-.
  vm_compute in Hshape. discriminate.
Qed.

(** ** [store_ok] is an invariant *)

Lemma store_ok_put (sid : string) (s : session) (st : store) (c : Z) :
  store_ok st = true → s !! "execution_count" = Some (JInt c) →
  store_ok (store_put sid s st) = true.
Proof.
  intros Hok Hc. unfold store_ok in *.
  induction st as [|[k s'] st IH]; simpl in *.
  - by rewrite Hc.
  - apply andb_true_iff in Hok as [Hs' Hst].
    destruct (decide (k = sid)); simpl.
    + by rewrite Hc, Hst.
    + by rewrite Hs', IH.
Qed.

Lemma counts_ret {A : Type} (a : A) : counts (mret a : Py A).
Proof. by intros st Hok. Qed.

Lemma counts_lift {A : Type} (r : exn + A) : counts (py_lift r).
Proof. by intros st Hok. Qed.

Lemma counts_bind {A B : Type} (m : Py A) (k : A → Py B) :
  counts m → (∀ a, counts (k a)) → counts (m ≫= k).
Proof.
  intros Hm Hk st Hok. specialize (Hm st Hok).
  unfold mbind, Py_bind. destruct (m st) as [st1 [ex|a]]; [done|].
  by apply Hk.
Qed.

Lemma counts_getitem (sid key : string) : counts (getitem sid key).
Proof.
  intros st Hok. unfold getitem.
  destruct (store_get sid st) as [s|]; [|done]. by destruct (s !! key).
Qed.

Lemma counts_getattr (sid key : string) (dflt : json) :
  counts (getattr sid key dflt).
Proof. intros st Hok. unfold getattr. by destruct (store_get sid st). Qed.

Lemma counts_setitem (sid key : string) (v : json) :
  key ≠ "execution_count" → counts (setitem sid key v).
Proof.
  intros Hkey st Hok. unfold setitem.
  destruct (store_get sid st) as [s|] eqn:Hget; [|done]. simpl.
  destruct (store_ok_get sid s st Hok Hget) as [c Hc].
  apply (store_ok_put _ _ _ c); [done|]. by rewrite lookup_insert_ne.
Qed.

Lemma counts_setitem_count (sid : string) (c : Z) :
  counts (setitem sid "execution_count" (JInt c)).
Proof.
  intros st Hok. unfold setitem.
  destruct (store_get sid st) as [s|] eqn:Hget; [|done]. simpl.
  apply (store_ok_put _ _ _ c); [done|]. by rewrite lookup_insert_eq.
Qed.

Lemma counts_track_session (sid : string) (e : env) :
  counts (track_session sid e).
Proof.
  intros st Hok. unfold track_session.
  destruct (store_get sid st); [done|]. simpl.
  by apply (store_ok_put _ _ _ 0).
Qed.

Create HintDb counts.
#[export] Hint Resolve counts_ret counts_lift counts_getitem counts_getattr
  counts_setitem_count counts_track_session : counts.
#[export] Hint Extern 1 (counts (setitem _ _ _)) =>
  apply counts_setitem; discriminate : counts.

Ltac counts_step :=
  match goal with
  | |- counts (_ ≫= _) => apply counts_bind; [|intros ?]
  | |- counts (if ?b then _ else _) => destruct b
  | |- counts _ => solve [auto with counts]
  end.

Lemma counts_update_statistics (sid : string) (e : env) :
  counts (update_statistics sid e).
Proof.
  unfold update_statistics. apply counts_bind; [auto with counts|].
  intros n. destruct (py_succ n) as [ex|n'] eqn:Hsucc.
  - intros st Hok. by unfold mbind, Py_bind, py_lift.
  - assert (∃ c, n' = JInt c) as [c ->].
    { destruct n; simplify_eq/=; eauto. }
    assert (counts (_ ← setitem sid "execution_count" (JInt c);
                    setitem sid "last_used" (JStr (now_used e)))) as Hrest.
    { repeat counts_step. }
    intros st Hok. by apply Hrest.
Qed.

Lemma counts_handle_200 (sid code : string) (e : env) (result : json) :
  counts (handle_200 sid code e result).
Proof.
  unfold handle_200, classify_wrapped, classify_direct, format_output.
  apply counts_bind; [auto with counts | intros _].
  apply counts_bind; [apply counts_update_statistics | intros _].
  repeat counts_step.
Qed.

(** Every call of the tool keeps [store_ok], so every store reached from
    the empty one satisfies it. *)
Lemma store_ok_execute (cfg : config) (e : env) (code : string) (w : world) :
  store_ok (active_sessions w) = true →
  store_ok (active_sessions (execute cfg e code w).1.1) = true.
Proof.
  intros Hok.
  destruct (execute_cases cfg e code w) as [-> | (result & _ & ->)].
  - by rewrite active_sessions_track_tool.
  - simpl. by apply counts_handle_200.
Qed.

Lemma store_ok_agent_run (cfg : config) (calls : list tool_call) (w : world) :
  store_ok (active_sessions w) = true →
  store_ok (active_sessions (agent_run cfg calls w).1) = true.
Proof.
  revert w. induction calls as [|c calls IH]; intros w Hok; [done|].
  cbn [agent_run].
  assert (store_ok (active_sessions (call_tool cfg c w).1) = true) as Hcall.
  { destruct c as [|code e]; simpl; [done|]. by apply store_ok_execute. }
  destruct (call_tool cfg c w) as [w1 evs1].
  specialize (IH w1 Hcall). by destruct (agent_run cfg calls w1).
Qed.

(** Scenario 3 of the specification. *)
Example wrapped_success :
  let run := execute pool
               (ok_200 (JObj [("properties",
                               JObj [("status", JStr "Success");
                                     ("stdout", JStr "ok");
                                     ("stderr", JStr "");
                                     ("returnCode", JInt 0)])]))
               "print('ok')" fresh_world in
  session_attr run.1.1 "3f2a9c0b7e1d" "last_status" = Some (JStr "Success")
  ∧ session_attr run.1.1 "3f2a9c0b7e1d" "last_stdout" = Some (JStr "ok")
  ∧ session_attr run.1.1 "3f2a9c0b7e1d" "execution_count" = Some (JInt 1)
  ∧ run.2 = ExecutionSuccessful "3f2a9c0b7e1d" "print('ok')" (JStr "ok").
Proof. vm_compute. done. Qed.

(** ** The footprint of the HTTP 200 branch *)

Lemma writes_only_pure {A : Type} (sid : string) (keys : list string)
  (m : Py A) :
  (∀ st, (m st).1 = st) → writes_only sid keys m.
Proof. intros Hpure st. rewrite Hpure. split_and!; eauto. Qed.

Lemma writes_only_ret {A : Type} (sid : string) (keys : list string) (a : A) :
  writes_only sid keys (mret a : Py A).
Proof. by apply writes_only_pure. Qed.

Lemma writes_only_lift {A : Type} (sid : string) (keys : list string)
  (r : exn + A) :
  writes_only sid keys (py_lift r).
Proof. by apply writes_only_pure. Qed.

Lemma writes_only_bind {A B : Type} (sid : string) (keys : list string)
  (m : Py A) (k : A → Py B) :
  writes_only sid keys m → (∀ a, writes_only sid keys (k a)) →
  writes_only sid keys (m ≫= k).
Proof.
  intros Hm Hk st. destruct (Hm st) as (Hother & Hnone & Hsome).
  unfold mbind, Py_bind. destruct (m st) as [st1 [ex|a]]; simpl in *.
  { by split_and!. }
  destruct (Hk a st1) as (Hother' & Hnone' & Hsome'). split_and!.
  - intros sid' Hne. by rewrite Hother', Hother.
  - intros Hget. apply Hnone'. by apply Hnone.
  - intros s Hget. destruct (Hsome s Hget) as (s1 & Hget1 & Hs1).
    destruct (Hsome' s1 Hget1) as (s2 & Hget2 & Hs2).
    exists s2. split; [done|]. intros key Hkey. by rewrite Hs2, Hs1.
Qed.

Lemma writes_only_getitem (sid key : string) (keys : list string) :
  writes_only sid keys (getitem sid key).
Proof.
  apply writes_only_pure. intros st. unfold getitem.
  destruct (store_get sid st) as [s|]; [|done]. by destruct (s !! key).
Qed.

Lemma writes_only_getattr (sid key : string) (dflt : json)
  (keys : list string) :
  writes_only sid keys (getattr sid key dflt).
Proof.
  apply writes_only_pure. intros st. unfold getattr.
  by destruct (store_get sid st).
Qed.

Lemma writes_only_setitem (sid key : string) (v : json)
  (keys : list string) :
  key ∈ keys → writes_only sid keys (setitem sid key v).
Proof.
  intros Hkey st. unfold setitem.
  destruct (store_get sid st) as [s|] eqn:Hget; simpl; [|by split_and!].
  split_and!.
  - intros sid' Hne. by apply store_get_put_ne.
  - done.
  - intros s0 [= <-]. rewrite store_get_put_eq. eexists. split; [done|].
    intros k Hk. apply lookup_insert_ne. by intros ->.
Qed.

Create HintDb footprint.
#[export] Hint Resolve writes_only_ret writes_only_lift writes_only_getitem
  writes_only_getattr : footprint.
#[export] Hint Extern 1 (writes_only _ _ (setitem _ _ _)) =>
  apply writes_only_setitem; compute_done : footprint.

Ltac footprint_step :=
  match goal with
  | |- writes_only _ _ (_ ≫= _) => apply writes_only_bind; [|intros ?]
  | |- writes_only _ _ (if ?b then _ else _) => destruct b
  | |- writes_only _ _ _ => solve [auto with footprint]
  end.

(** Classifying and formatting assign only the four result attributes. *)
Lemma writes_only_results (sid code : string) (result : json) :
  writes_only sid result_keys
    (wrapped ← py_lift (py_contains "properties" result);
     _ ← (if wrapped : bool then classify_wrapped sid result
          else classify_direct sid result);
     format_output sid code).
Proof.
  unfold classify_wrapped, classify_direct, format_output, result_keys.
  repeat footprint_step.
Qed.

Lemma bookkeeping_explicit {B : Type} (sid : string) (e : env) (st : store) :
  store_ok st = true →
  let s0 := default (new_session e) (store_get sid st) in
  ∃ c, s0 !! "execution_count" = Some (JInt c)
       ∧ ∀ k : unit → Py B,
           (track_session sid e ≫= λ _, update_statistics sid e ≫= k) st
           = k () (store_put sid
                     (<["last_used" := JStr (now_used e)]>
                        (<["execution_count" := JInt (c + 1)]> s0)) st).
Proof.
  intros Hok s0. subst s0.
  destruct (store_get sid st) as [s|] eqn:Hget; simpl.
  - destruct (store_ok_get _ _ _ Hok Hget) as [c Hc]. exists c.
    split; [done|]. intros k.
    unfold mbind at 1 2. unfold Py_bind at 1 2. unfold track_session.
    rewrite Hget.
    rewrite <- (store_put_same sid s st Hget) at 1.
    by rewrite (update_statistics_put sid e s st c Hc).
  - exists 0%Z. split; [done|]. intros k.
    unfold mbind at 1 2. unfold Py_bind at 1 2. unfold track_session.
    rewrite Hget. fold (new_session e).
    by rewrite (update_statistics_put sid e (new_session e) st 0).
Qed.

(** What [handle_200] does to the store, whatever the body and however
    the classification ends. *)
Lemma handle_200_effect (sid code : string) (e : env) (result : json)
  (st : store) :
  store_ok st = true →
  let s0 := default (new_session e) (store_get sid st) in
  let st' := (handle_200 sid code e result st).1 in
  (∀ sid', sid' ≠ sid → store_get sid' st' = store_get sid' st)
  ∧ ∃ c s',
      s0 !! "execution_count" = Some (JInt c)
      ∧ store_get sid st' = Some s'
      ∧ s' !! "execution_count" = Some (JInt (c + 1))
      ∧ s' !! "last_used" = Some (JStr (now_used e))
      ∧ ∀ k, k ∉ result_keys → k ≠ "execution_count" → k ≠ "last_used" →
             s' !! k = s0 !! k.
Proof.
  intros Hok s0 st'. subst st'.
  destruct (bookkeeping_explicit (B := report) sid e st Hok)
    as (c & Hc & Hrun).
  fold s0 in Hc, Hrun. unfold handle_200. rewrite Hrun.
  set (s1 := <["last_used" := JStr (now_used e)]>
               (<["execution_count" := JInt (c + 1)]> s0)).
  destruct (writes_only_results sid code result (store_put sid s1 st))
    as (Hother & _ & Hsome).
  split.
  - intros sid' Hne. rewrite Hother by done. by apply store_get_put_ne.
  - destruct (Hsome s1 (store_get_put_eq _ _ _)) as (s' & Hget & Hs').
    exists c, s'. split_and!; try done.
    + rewrite Hs' by compute_done. subst s1. by simplify_map_eq.
    + rewrite Hs' by compute_done. subst s1. by simplify_map_eq.
    + intros k Hk Hcount Hused. rewrite Hs' by done. subst s1.
      by rewrite !lookup_insert_ne.
Qed.

(** The whole of [handle_200] touches no session but its own. *)
Lemma handle_200_others (sid code : string) (e : env) (result : json)
  (st : store) (sid' : string) :
  sid' ≠ sid →
  store_get sid' (handle_200 sid code e result st).1 = store_get sid' st.
Proof.
  intros Hne.
  assert (writes_only sid (statistics_keys ++ result_keys)
            (_ ← update_statistics sid e;
             wrapped ← py_lift (py_contains "properties" result);
             _ ← (if wrapped : bool then classify_wrapped sid result
                  else classify_direct sid result);
             format_output sid code)) as Hrest.
  { unfold update_statistics, classify_wrapped, classify_direct,
      format_output, statistics_keys, result_keys.
    repeat footprint_step. }
  unfold handle_200. unfold mbind at 1. unfold Py_bind at 1.
  unfold track_session.
  destruct (store_get sid st) eqn:Hget.
  - by apply Hrest.
  - etrans; [by apply Hrest|]. by apply store_get_put_ne.
Qed.

(** ** Bookkeeping of the session store *)

Lemma executions_default (w : world) (sid : string) (e : env) (c : Z) :
  default (new_session e) (store_get sid (active_sessions w))
    !! "execution_count" = Some (JInt c) →
  executions w sid = c.
Proof.
  unfold executions, session_attr.
  destruct (store_get sid (active_sessions w)) as [s|]; simpl.
  - by intros ->.
  - by intros [= <-].
Qed.

(** X1.  Every HTTP 200 with a JSON body, whatever the body holds and
    however its classification ends, advances the execution count of the
    session used by exactly one; a session created by the call counts
    one. *)
Theorem execution_counted (cfg : config) (e : env) (code : string)
  (w : world) (result : json) :
  store_ok (active_sessions w) = true →
  body_of_200 cfg e = Some result →
  let sid := pick_session (active_sessions w) e in
  session_attr (execute cfg e code w).1.1 sid "execution_count"
  = Some (JInt (executions w sid + 1)).
Proof.
  intros Hok H200 sid.
  destruct (execute_200 cfg e code w result H200) as [-> _].
  destruct (handle_200_effect sid code e result (active_sessions w) Hok)
    as (_ & c & s' & Hc & Hget & Hcount & _).
  apply executions_default in Hc. fold sid in Hget.
  unfold session_attr. simpl. fold sid. rewrite Hget. simpl.
  by rewrite Hcount, Hc.
Qed.

Lemma execution_counted_witness :
  session_attr (execute pool (ok_200 JNull) "print(1)" two_sessions).1.1
    "bbbbbbbbbbbb" "execution_count" = Some (JInt 8)
  ∧ session_attr (execute pool (ok_200 clean_output) "print(2+2)"
                    fresh_world).1.1
      "3f2a9c0b7e1d" "execution_count" = Some (JInt 1).
Proof.
  split.
  - apply (execution_counted pool (ok_200 JNull) "print(1)" two_sessions
             JNull); reflexivity.
  - apply (execution_counted pool (ok_200 clean_output) "print(2+2)"
             fresh_world clean_output); reflexivity.
Defined.

(** X2.  On an HTTP 200 with a JSON body the session used gets
    [last_used] set to the time of the call; [created_at] is the time of
    the call for a session the call creates and is left as it was for a
    session that existed. *)
Theorem timestamps_kept (cfg : config) (e : env) (code : string)
  (w : world) (result : json) :
  store_ok (active_sessions w) = true →
  body_of_200 cfg e = Some result →
  let sid := pick_session (active_sessions w) e in
  let w' := (execute cfg e code w).1.1 in
  session_attr w' sid "last_used" = Some (JStr (now_used e))
  ∧ (store_get sid (active_sessions w) = None →
     session_attr w' sid "created_at" = Some (JStr (now_created e)))
  ∧ (is_Some (store_get sid (active_sessions w)) →
     session_attr w' sid "created_at" = session_attr w sid "created_at").
Proof.
  intros Hok H200 sid w'. subst w'.
  destruct (execute_200 cfg e code w result H200) as [-> _].
  destruct (handle_200_effect sid code e result (active_sessions w) Hok)
    as (_ & c & s' & _ & Hget & _ & Hused & Hrest).
  fold sid in Hget, Hrest.
  unfold session_attr. simpl. fold sid. rewrite Hget. simpl.
  specialize (Hrest "created_at").
  rewrite Hrest by (done || compute_done).
  split_and!; [done|..].
  - by intros ->.
  - by intros [s ->].
Qed.

Lemma timestamps_kept_witness :
  let w' := (execute pool (ok_200 clean_output) "print(2+2)"
               two_sessions).1.1 in
  session_attr w' "bbbbbbbbbbbb" "last_used"
  = Some (JStr "2025-01-01T10:00:01")
  ∧ session_attr w' "bbbbbbbbbbbb" "created_at"
    = Some (JStr "2024-12-31T09:30:00").
Proof.
  destruct (timestamps_kept pool (ok_200 clean_output) "print(2+2)"
              two_sessions clean_output eq_refl eq_refl)
    as (Hused & _ & Hcreated).
  split; [exact Hused|]. apply Hcreated. by eexists.
Defined.

(** X3.  A call of the tool, whatever its outcome, leaves every session
    other than the one it picked exactly as it was. *)
Theorem other_sessions_untouched (cfg : config) (e : env) (code : string)
  (w : world) (sid' : string) :
  sid' ≠ pick_session (active_sessions w) e →
  store_get sid' (active_sessions (execute cfg e code w).1.1)
  = store_get sid' (active_sessions w).
Proof.
  intros Hne.
  destruct (execute_cases cfg e code w) as [-> | (result & _ & ->)].
  - by rewrite active_sessions_track_tool.
  - simpl. by apply handle_200_others.
Qed.

Lemma other_sessions_untouched_witness :
  store_get "aaaaaaaaaaaa"
    (active_sessions
       (execute pool (ok_200 traceback_in_stdout) "1/0" two_sessions).1.1)
  = store_get "aaaaaaaaaaaa" (active_sessions two_sessions).
Proof.
  apply (other_sessions_untouched pool (ok_200 traceback_in_stdout) "1/0"
           two_sessions "aaaaaaaaaaaa").
  discriminate.
Defined.

(** X4.  Unless the session pool answers the POST with HTTP 200 and a
    body that parses as JSON, the call leaves the session store exactly
    as it was and only tracks the tool invocation: so for a missing
    endpoint, a failed token acquisition, a transport failure, any other
    HTTP status, and an HTTP 200 whose body is not JSON. *)
Theorem store_changes_only_on_200 (cfg : config) (e : env) (code : string)
  (w : world) :
  body_of_200 cfg e = None →
  (execute cfg e code w).1.1
  = track_tool (pick_session (active_sessions w) e) w
  ∧ active_sessions (execute cfg e code w).1.1 = active_sessions w.
Proof.
  intros Hnone.
  destruct (execute_cases cfg e code w) as [Hrun | (result & H200 & _)].
  - rewrite Hrun. split; [done|]. apply active_sessions_track_tool.
  - congruence.
Qed.

Lemma store_changes_only_on_200_witness :
  active_sessions
    (execute pool (refusing 503 "Service Unavailable") "print(1)"
       two_sessions).1.1
  = active_sessions two_sessions
  ∧ active_sessions
      (execute pool (refusing 200 "<html>") "print(1)" two_sessions).1.1
    = active_sessions two_sessions.
Proof.
  split.
  - apply (store_changes_only_on_200 pool
             (refusing 503 "Service Unavailable") "print(1)" two_sessions).
    reflexivity.
  - apply (store_changes_only_on_200 pool (refusing 200 "<html>")
             "print(1)" two_sessions).
    reflexivity.
Defined.

(** ** Failures of the request *)

(** X5.  A call makes at most one POST, never before a token has been
    acquired, always with the payload built from the code; every GET and
    every sleep comes after it, in at most ten sleep-then-GET rounds that
    carry the token of the POST. *)
Theorem one_post_per_call (cfg : config) (e : env) (code : string)
  (w : world) :
  let evs := (execute cfg e code w).1.2 in
  evs = []
  ∨ evs = [GetToken (SESSION_POOL_AUDIENCE cfg)]
  ∨ ∃ endpoint bearer poll_url k,
      configured cfg = Some endpoint ∧ token e = inr bearer ∧ k ≤ 10
      ∧ evs = [GetToken (SESSION_POOL_AUDIENCE cfg);
               HttpPost (endpoint +:+ "/execute?identifier="
                         +:+ pick_session (active_sessions w) e)
                 (execution_payload code) bearer]
              ++ poll_events poll_url bearer k.
Proof.
  unfold execute, configured.
  destruct (SESSION_POOL_ENDPOINT cfg) as [endpoint|]; [|by left].
  destruct (String.eqb endpoint ""); [by left|].
  destruct (token e) as [auth_error|bearer]; [by right; left|].
  right. right. exists endpoint, bearer.
  assert (∀ (w' : world) (r : report),
            ∃ poll_url k,
              Some endpoint = Some endpoint
              ∧ @inr string string bearer = inr bearer
              ∧ k ≤ 10
              ∧ (w', [GetToken (SESSION_POOL_AUDIENCE cfg);
                      HttpPost (endpoint +:+ "/execute?identifier="
                                +:+ pick_session (active_sessions w) e)
                        (execution_payload code) bearer], r).1.2
                = [GetToken (SESSION_POOL_AUDIENCE cfg);
                   HttpPost (endpoint +:+ "/execute?identifier="
                             +:+ pick_session (active_sessions w) e)
                     (execution_payload code) bearer]
                  ++ poll_events poll_url bearer k) as Hplain.
  { intros w' r. exists "", 0. split_and!; try done; lia. }
  destruct (post e) as [[]|response]; try apply Hplain.
  destruct (status_code response =? 200)%Z.
  { destruct (body_json response); [apply Hplain|].
    destruct (handle_200 _ _ _ _ _). apply Hplain. }
  destruct (status_code response =? 202)%Z; [|apply Hplain].
  destruct (location response) as [poll_url|]; [|apply Hplain].
  destruct (String.eqb poll_url ""); [apply Hplain|].
  destruct (poll_loop_bounded e poll_url bearer 10 0) as (k & Hk & Hevs).
  destruct (poll_loop e poll_url bearer 10 0) as [evs' r]. simpl in *.
  exists poll_url, k. by rewrite Hevs.
Qed.

(** X6.  With an endpoint configured, a failed token acquisition ends
    the call before any POST, with the authentication report carrying
    the error text; a POST that raises any [requests] exception, a
    timeout included, ends it with the network report carrying the error
    text, so the "Timeout Error" report is never the answer to a failed
    POST. *)
Theorem failures_before_response (cfg : config) (e : env) (code : string)
  (w : world) (endpoint : string) :
  configured cfg = Some endpoint →
  let sid := pick_session (active_sessions w) e in
  (∀ auth_error,
     token e = inl auth_error →
     execute cfg e code w
     = (track_tool sid w, [GetToken (SESSION_POOL_AUDIENCE cfg)],
        AuthenticationError auth_error))
  ∧ (∀ bearer is_timeout req_error,
       token e = inr bearer →
       post e = inl (RequestException is_timeout req_error) →
       execute cfg e code w
       = (track_tool sid w,
          [GetToken (SESSION_POOL_AUDIENCE cfg);
           HttpPost (endpoint +:+ "/execute?identifier=" +:+ sid)
             (execution_payload code) bearer],
          NetworkError req_error)).
Proof.
  unfold configured, execute.
  destruct (SESSION_POOL_ENDPOINT cfg) as [endpoint'|]; [|done].
  destruct (String.eqb endpoint' ""); [done|]. intros [= ->]. split.
  - by intros auth_error ->.
  - by intros bearer is_timeout req_error -> ->.
Qed.

Lemma failures_before_response_witness :
  execute pool
    {| uuid4_hex := "3f2a9c0b7e1d4a5b8c6d0e1f2a3b4c5d";
       now_created := ""; now_used := "";
       token := inr "secret";
       post := inl (RequestException true "Read timed out.");
       polls := no_polls |}
    "print(1)" fresh_world
  = (track_tool "3f2a9c0b7e1d" fresh_world,
     [GetToken "https://dynamicsessions.io/.default";
      HttpPost "https://pool.example/execute?identifier=3f2a9c0b7e1d"
        (execution_payload "print(1)") "secret"],
     NetworkError "Read timed out.").
Proof.
  destruct (failures_before_response pool
              {| uuid4_hex := "3f2a9c0b7e1d4a5b8c6d0e1f2a3b4c5d";
                 now_created := ""; now_used := "";
                 token := inr "secret";
                 post := inl (RequestException true "Read timed out.");
                 polls := no_polls |}
              "print(1)" fresh_world "https://pool.example" eq_refl)
    as [_ Hpost].
  apply (Hpost "secret" true "Read timed out."); reflexivity.
Defined.

(** X7.  An answer with an HTTP status other than 200 and 202 ends the
    call with the execution-error report, which carries the status and
    the text of the answer. *)
Theorem unexpected_status (cfg : config) (e : env) (code : string)
  (w : world) (endpoint bearer : string) (response : http_response) :
  configured cfg = Some endpoint →
  token e = inr bearer →
  post e = inr response →
  status_code response ≠ 200%Z →
  status_code response ≠ 202%Z →
  let sid := pick_session (active_sessions w) e in
  execute cfg e code w
  = (track_tool sid w,
     [GetToken (SESSION_POOL_AUDIENCE cfg);
      HttpPost (endpoint +:+ "/execute?identifier=" +:+ sid)
        (execution_payload code) bearer],
     ExecutionError (status_code response) (text response))
  ∧ ∀ py_repr interp_msg,
      (execute_in_dynamic_session py_repr interp_msg cfg e code w).2
      = "❌ Execution Error: Session execution failed (HTTP "
        +:+ pretty (status_code response) +:+ "): " +:+ text response.
Proof.
  intros Hcfg Htoken Hpost H200 H202 sid.
  assert (execute cfg e code w
          = (track_tool sid w,
             [GetToken (SESSION_POOL_AUDIENCE cfg);
              HttpPost (endpoint +:+ "/execute?identifier=" +:+ sid)
                (execution_payload code) bearer],
             ExecutionError (status_code response) (text response)))
    as Hrun.
  { revert Hcfg. unfold configured, execute. fold sid.
    destruct (SESSION_POOL_ENDPOINT cfg) as [endpoint'|]; [|done].
    destruct (String.eqb endpoint' ""); [done|]. intros [= ->].
    rewrite Htoken, Hpost.
    destruct (Z.eqb_spec (status_code response) 200); [done|].
    by destruct (Z.eqb_spec (status_code response) 202). }
  split; [done|]. intros py_repr interp_msg.
  unfold execute_in_dynamic_session. by rewrite Hrun.
Qed.

Lemma unexpected_status_witness :
  (execute_in_dynamic_session (λ _, "") (λ _, "") pool
     (refusing 503 "Service Unavailable") "print(1)" two_sessions).2
  = "❌ Execution Error: Session execution failed (HTTP 503): Service Unavailable".
Proof.
  destruct (unexpected_status pool (refusing 503 "Service Unavailable")
              "print(1)" two_sessions "https://pool.example" "secret"
              {| status_code := 503; text := "Service Unavailable";
                 body_json := inl (OtherException "Expecting value");
                 location := None |}
              eq_refl eq_refl eq_refl ltac:(discriminate)
              ltac:(discriminate)) as [_ Htext].
  apply Htext.
Defined.

Lemma raising_step (e : env) (poll_url bearer : string) (n i : nat)
  (ex : exn) :
  poll_raises (polls e i) ex →
  poll_loop e poll_url bearer (S n) i
  = ([Sleep 1; HttpGet poll_url bearer], inl ex).
Proof.
  cbn [poll_loop].
  destruct (poll_loop e poll_url bearer n (S i)) as [evs' rep].
  intros [-> | (r & -> & -> & Hbody)]; [done|]. simpl.
  destruct Hbody as [-> | (result & -> & ->)]; done.
Qed.

Lemma poll_loop_raises (e : env) (poll_url bearer : string)
  (attempts i k : nat) (ex : exn) :
  k < attempts →
  (∀ j, i ≤ j < i + k → pending (polls e j)) →
  poll_raises (polls e (i + k)) ex →
  poll_loop e poll_url bearer attempts i
  = (poll_events poll_url bearer (S k), inl ex).
Proof.
  revert attempts i. induction k as [|k IH]; intros attempts i Hk Hpending Hex.
  - destruct attempts as [|n]; [lia|].
    rewrite Nat.add_0_r in Hex. by rewrite (raising_step _ _ _ _ _ ex).
  - destruct attempts as [|n]; [lia|].
    rewrite pending_step by (apply Hpending; lia).
    rewrite (IH n (S i)).
    + done.
    + lia.
    + intros j Hj. apply Hpending. lia.
    + by replace (S i + k) with (i + S k) by lia.
Qed.

(** ** Asynchronous execution *)

(** A poll either leaves the loop running, or completes, or raises. *)
Lemma poll_cases (p : exn + http_response) :
  pending p ∨ (∃ rep, completed_with p rep) ∨ (∃ ex, poll_raises p ex).
Proof.
  destruct p as [ex|r].
  { right. right. exists ex. by left. }
  destruct (decide (status_code r = 200%Z)) as [H200|Hne].
  2:{ left. exists r. split; [done | by left]. }
  destruct (body_json r) as [ex|result] eqn:Hbody.
  { right. right. exists ex. right. exists r. split_and!; try done. by left. }
  assert (∀ ex, poll_completed result = inl ex →
                ∃ ex, poll_raises (inr r) ex) as Hraises.
  { intros ex Hex. exists ex. right. exists r. split_and!; try done.
    right. by exists result. }
  destruct result as [| | | | |fields]; try (right; right; by eapply Hraises).
  destruct (dict_lookup "properties" fields) as [properties|] eqn:Hprops.
  2:{ left. exists r. split; [done|]. right. exists fields.
      split; [done | by left]. }
  destruct properties as [| | | | |props];
    try (right; right; eapply Hraises; unfold poll_completed; simpl;
         by rewrite Hprops).
  assert (dict_lookup "status" props = Some (JStr "Completed")
          ∨ dict_lookup "status" props ≠ Some (JStr "Completed"))
    as [Hdone|Hnot].
  { destruct (dict_lookup "status" props) as [[| | |status| |]|];
      try (by right).
    destruct (String.eqb_spec status "Completed") as [-> |]; [by left|].
    right. congruence. }
  - right. left. eexists. exists r, fields, props. by split_and!.
  - left. exists r. split; [done|]. right. exists fields. split; [done|].
    right. by exists props.
Qed.

(** C7 (amended).  On an HTTP 202 the tool leaves the session store as
    it was, whatever happens.  Without a polling URL it polls nothing and
    returns the no-polling-URL text.  With one, it polls that URL at most
    ten times, sleeping one second before each poll.  Each poll either
    answers without completion, or is answered with HTTP 200 and status
    "Completed", or raises.  If the first ten polls answer without
    completion, the tool returns the polling-timeout text after ten
    polls.  If the first poll that does otherwise is poll [k < 10] and is
    completed, the tool returns the success text with the result after
    [k + 1] polls; if it raises, the tool returns at once, after
    [k + 1] polls, the "Timeout Error" text for a [requests] timeout and
    the "System Error" text for any other exception. *)
Theorem accepted_then_polled (py_repr : json → string)
  (interp_msg : exn → string) (cfg : config) (e : env) (code : string)
  (w : world) (endpoint bearer : string) (response : http_response) :
  configured cfg = Some endpoint →
  token e = inr bearer →
  post e = inr response →
  status_code response = 202%Z →
  let sid := pick_session (active_sessions w) e in
  let first := [GetToken (SESSION_POOL_AUDIENCE cfg);
                HttpPost (endpoint +:+ "/execute?identifier=" +:+ sid)
                  (execution_payload code) bearer] in
  let answer :=
    (execute_in_dynamic_session py_repr interp_msg cfg e code w).2 in
  active_sessions (execute cfg e code w).1.1 = active_sessions w
  ∧ (location response = None ∨ location response = Some "" →
     execute cfg e code w = (track_tool sid w, first, NoPollingUrl)
     ∧ answer = "⏳ Code execution accepted but no polling URL provided.")
  ∧ (∀ poll_url,
       location response = Some poll_url → poll_url ≠ "" →
       (∃ k, k ≤ 10
             ∧ (execute cfg e code w).1.2
               = first ++ poll_events poll_url bearer k)
       ∧ (∀ i, pending (polls e i)
               ∨ (∃ rep, completed_with (polls e i) rep)
               ∨ (∃ ex, poll_raises (polls e i) ex))
       ∧ ((∀ i, i < 10 → pending (polls e i)) →
          execute cfg e code w
          = (track_tool sid w, first ++ poll_events poll_url bearer 10,
             PollTimedOut)
          ∧ answer
            = "⏳ Code execution initiated but timed out waiting for result. Check session pool status.")
       ∧ (∀ k rep,
            k < 10 →
            (∀ i, i < k → pending (polls e i)) →
            completed_with (polls e k) rep →
            execute cfg e code w
            = (track_tool sid w,
               first ++ poll_events poll_url bearer (S k), rep)
            ∧ answer
              = "✅ Code executed successfully:

" +:+ match rep with
                | AsyncCompleted v => py_str py_repr v
                | AsyncCompletedRaw body => py_repr body
                | _ => ""
                end)
       ∧ (∀ k ex,
            k < 10 →
            (∀ i, i < k → pending (polls e i)) →
            poll_raises (polls e k) ex →
            execute cfg e code w
            = (track_tool sid w,
               first ++ poll_events poll_url bearer (S k),
               match ex with
               | RequestException true _ => TimeoutError
               | _ => SystemError ex
               end)
            ∧ answer
              = match ex with
                | RequestException true _ =>
                    "⏰ Timeout Error: Session execution timed out after 30 seconds"
                | _ =>
                    "❌ System Error: Unexpected error during session execution: "
                    +:+ exn_str interp_msg ex
                end)).
Proof.
  intros Hcfg Htoken Hpost H202 sid first answer.
  assert (execute cfg e code w
          = match location response with
            | Some poll_url =>
                if String.eqb poll_url "" then
                  (track_tool sid w, first, NoPollingUrl)
                else
                  (track_tool sid w,
                   first ++ (poll_loop e poll_url bearer 10 0).1,
                   match (poll_loop e poll_url bearer 10 0).2 with
                   | inl ex => outer_except ex
                   | inr rep => rep
                   end)
            | None => (track_tool sid w, first, NoPollingUrl)
            end) as Hrun.
  { revert Hcfg. unfold configured, execute. fold sid.
    destruct (SESSION_POOL_ENDPOINT cfg) as [endpoint'|]; [|done].
    destruct (String.eqb endpoint' ""); [done|]. intros [= ->].
    rewrite Htoken, Hpost, H202. cbn -[poll_loop].
    destruct (location response) as [poll_url|]; [|done].
    destruct (String.eqb poll_url ""); [done|].
    by destruct (poll_loop e poll_url bearer 10 0). }
  subst answer. unfold execute_in_dynamic_session.
  rewrite Hrun. clear Hrun. split_and!.
  - destruct (location response) as [poll_url|];
      [destruct (String.eqb poll_url "")|];
      apply active_sessions_track_tool.
  - by intros [-> | ->].
  - intros poll_url -> Hurl.
    destruct (String.eqb_spec poll_url ""); [done|].
    cbn -[poll_loop]. split_and!.
    + destruct (poll_loop_bounded e poll_url bearer 10 0) as (k & Hk & ->).
      eauto.
    + intros i. apply poll_cases.
    + intros Hpending.
      rewrite (poll_loop_pending e poll_url bearer 10 0); [done|].
      intros j Hj. apply Hpending. lia.
    + intros k rep Hk Hpending Hv.
      rewrite (poll_loop_completed e poll_url bearer 10 0 k rep); try done.
      * destruct Hv as (r & fields & props & _ & _ & _ & _ & _ & ->).
        by destruct (dict_lookup "result" props).
      * intros j Hj. apply Hpending. lia.
    + intros k ex Hk Hpending Hex.
      rewrite (poll_loop_raises e poll_url bearer 10 0 k ex); try done.
      * by destruct ex as [| | |[]|].
      * intros j Hj. apply Hpending. lia.
Qed.

Lemma accepted_then_polled_witness :
  (execute_in_dynamic_session (λ _, "") (λ _, "") pool
     (accepted (λ _, still_running)) "while True: pass" fresh_world).2
  = "⏳ Code execution initiated but timed out waiting for result. Check session pool status."
  ∧ (execute_in_dynamic_session (λ _, "") (λ _, "") pool
       (accepted (λ i, if decide (i = 2) then completed_42 else still_running))
       "print(42)" fresh_world).2
    = "✅ Code executed successfully:

42".
Proof.
  assert (pending still_running) as Hrunning.
  { eexists. split; [reflexivity|]. right. eexists. split; [reflexivity|].
    right. eexists. split; [reflexivity|]. discriminate. }
  split.
  - destruct (accepted_then_polled (λ _, "") (λ _, "") pool
                (accepted (λ _, still_running))
                "while True: pass" fresh_world "https://pool.example"
                "secret"
                {| status_code := 202; text := ""; body_json := inr JNull;
                   location := Some "https://pool.example/operations/7" |}
                eq_refl eq_refl eq_refl eq_refl) as (_ & _ & Hpolled).
    destruct (Hpolled "https://pool.example/operations/7" eq_refl
                ltac:(discriminate)) as (_ & _ & Htimeout & _).
    apply Htimeout. intros i _. exact Hrunning.
  - destruct (accepted_then_polled (λ _, "") (λ _, "") pool
                (accepted (λ i, if decide (i = 2) then completed_42
                                else still_running))
                "print(42)" fresh_world "https://pool.example"
                "secret"
                {| status_code := 202; text := ""; body_json := inr JNull;
                   location := Some "https://pool.example/operations/7" |}
                eq_refl eq_refl eq_refl eq_refl) as (_ & _ & Hpolled).
    destruct (Hpolled "https://pool.example/operations/7" eq_refl
                ltac:(discriminate)) as (_ & _ & _ & Hdone & _).
    apply (Hdone 2 (AsyncCompleted (JStr "42"))).
    + lia.
    + intros i Hi. simpl. rewrite decide_False by lia. exact Hrunning.
    + do 3 eexists. split_and!; reflexivity.
Defined.

(** C7 as stated fails: when every poll fails to connect, no poll reports
    "Completed", yet the tool answers with the "System Error" report, not
    with the polling-timeout one. *)
Lemma accepted_then_polled_counterexample :
  ¬ (∀ cfg e code w endpoint bearer poll_url response,
       configured cfg = Some endpoint →
       token e = inr bearer →
       post e = inr response →
       status_code response = 202%Z →
       location response = Some poll_url →
       poll_url ≠ "" →
       (∀ i rep, ¬ completed_with (polls e i) rep) →
       (execute cfg e code w).2 = PollTimedOut).
Proof.
  intros H.
  specialize (H pool (accepted no_polls) "print(1)" fresh_world
                "https://pool.example" "secret"
                "https://pool.example/operations/7"
                {| status_code := 202; text := ""; body_json := inr JNull;
                   location := Some "https://pool.example/operations/7" |}
                eq_refl eq_refl eq_refl eq_refl eq_refl ltac:(discriminate)).
  assert (∀ i rep, ¬ completed_with (polls (accepted no_polls) i) rep)
    as Hnone.
  { by intros i rep (r & fields & props & Hr & _). }
  specialize (H Hnone). vm_compute in H. discriminate.
Qed.

(** X8.  While polling after an HTTP 202, the first poll at which
    anything raises ends the call at once: no further poll is made, the
    session store is as it was, and the report is the "Timeout Error" one
    for a [requests] timeout and the "System Error" one for any other
    exception, never the polling-timeout report. *)
Theorem poll_failure_ends_call (cfg : config) (e : env) (code : string)
  (w : world) (endpoint bearer poll_url : string) (response : http_response)
  (k : nat) (ex : exn) :
  configured cfg = Some endpoint →
  token e = inr bearer →
  post e = inr response →
  status_code response = 202%Z →
  location response = Some poll_url →
  poll_url ≠ "" →
  k < 10 →
  (∀ i, i < k → pending (polls e i)) →
  poll_raises (polls e k) ex →
  let sid := pick_session (active_sessions w) e in
  execute cfg e code w
  = (track_tool sid w,
     [GetToken (SESSION_POOL_AUDIENCE cfg);
      HttpPost (endpoint +:+ "/execute?identifier=" +:+ sid)
        (execution_payload code) bearer]
     ++ poll_events poll_url bearer (S k),
     match ex with
     | RequestException true _ => TimeoutError
     | _ => SystemError ex
     end).
Proof.
  intros Hcfg Htoken Hpost H202 Hloc Hurl Hk Hpending Hex sid.
  revert Hcfg. unfold configured, execute. fold sid.
  destruct (SESSION_POOL_ENDPOINT cfg) as [endpoint'|]; [|done].
  destruct (String.eqb endpoint' ""); [done|]. intros [= ->].
  rewrite Htoken, Hpost, H202, Hloc. cbn -[poll_loop].
  destruct (String.eqb_spec poll_url ""); [done|].
  rewrite (poll_loop_raises e poll_url bearer 10 0 k ex); try done.
  intros j Hj. apply Hpending. lia.
Qed.

Lemma poll_failure_ends_call_witness :
  execute pool
    (accepted (λ i, if decide (i = 1) then timing_out else still_running))
    "print(1)" two_sessions
  = (track_tool "bbbbbbbbbbbb" two_sessions,
     [GetToken "https://dynamicsessions.io/.default";
      HttpPost "https://pool.example/execute?identifier=bbbbbbbbbbbb"
        (execution_payload "print(1)") "secret"]
     ++ poll_events "https://pool.example/operations/7" "secret" 2,
     TimeoutError).
Proof.
  apply (poll_failure_ends_call pool
           (accepted (λ i, if decide (i = 1) then timing_out
                           else still_running))
           "print(1)" two_sessions "https://pool.example" "secret"
           "https://pool.example/operations/7"
           {| status_code := 202; text := ""; body_json := inr JNull;
              location := Some "https://pool.example/operations/7" |}
           1 (RequestException true "Read timed out.")).
  - reflexivity.
  - reflexivity.
  - reflexivity.
  - reflexivity.
  - reflexivity.
  - discriminate.
  - lia.
  - intros i Hi. simpl. rewrite decide_False by lia.
    eexists. split; [reflexivity|]. right. eexists. split; [reflexivity|].
    right. eexists. split; [reflexivity|]. discriminate.
  - left. reflexivity.
Defined.

(** X9.  An HTTP 202 without a [Location] header, or with an empty one,
    is answered with the no-polling-URL report: nothing is polled, no
    sleep is made and the session store is as it was. *)
Theorem accepted_without_location (cfg : config) (e : env) (code : string)
  (w : world) (endpoint bearer : string) (response : http_response) :
  configured cfg = Some endpoint →
  token e = inr bearer →
  post e = inr response →
  status_code response = 202%Z →
  location response = None ∨ location response = Some "" →
  let sid := pick_session (active_sessions w) e in
  execute cfg e code w
  = (track_tool sid w,
     [GetToken (SESSION_POOL_AUDIENCE cfg);
      HttpPost (endpoint +:+ "/execute?identifier=" +:+ sid)
        (execution_payload code) bearer],
     NoPollingUrl).
Proof.
  intros Hcfg Htoken Hpost H202 Hloc sid.
  revert Hcfg. unfold configured, execute. fold sid.
  destruct (SESSION_POOL_ENDPOINT cfg) as [endpoint'|]; [|done].
  destruct (String.eqb endpoint' ""); [done|]. intros [= ->].
  rewrite Htoken, Hpost, H202. cbn -[poll_loop].
  by destruct Hloc as [-> | ->].
Qed.

Lemma accepted_without_location_witness :
  (execute pool
     (answering {| status_code := 202; text := ""; body_json := inr JNull;
                   location := None |} (λ _, completed_42))
     "print(42)" fresh_world).2
  = NoPollingUrl.
Proof.
  rewrite (accepted_without_location pool
             (answering {| status_code := 202; text := "";
                           body_json := inr JNull; location := None |}
                (λ _, completed_42))
             "print(42)" fresh_world "https://pool.example" "secret"
             {| status_code := 202; text := ""; body_json := inr JNull;
                location := None |}
             eq_refl eq_refl eq_refl eq_refl (or_introl eq_refl)).
  reflexivity.
Defined.

(** ** Bodies that cannot be classified *)

(** X10.  In the wrapped shape the outputs are stored before stdout is
    scanned.  So when [stdout] is a value the scan cannot search (null, a
    boolean, a number) the call ends with the "System Error" report, the
    execution is counted, [last_stdout], [last_stderr] and
    [last_returnCode] hold the values of this answer, and [last_status]
    is still the one of the previous execution (absent for a new
    session). *)
Theorem unreadable_stdout_leaves_status (cfg : config) (e : env)
  (code : string) (w : world) (fields props : list (string * json))
  (stdout : json) :
  store_ok (active_sessions w) = true →
  body_of_200 cfg e = Some (JObj fields) →
  dict_lookup "properties" fields = Some (JObj props) →
  dict_lookup "stdout" props = Some stdout →
  not_iterable stdout = true →
  let sid := pick_session (active_sessions w) e in
  let w' := (execute cfg e code w).1.1 in
  (execute cfg e code w).2 = SystemError TypeError
  ∧ session_attr w' sid "execution_count"
    = Some (JInt (executions w sid + 1))
  ∧ session_attr w' sid "last_stdout" = Some stdout
  ∧ session_attr w' sid "last_stderr"
    = Some (default (JStr "") (dict_lookup "stderr" props))
  ∧ session_attr w' sid "last_returnCode"
    = Some (default JNull (dict_lookup "returnCode" props))
  ∧ session_attr w' sid "last_status" = session_attr w sid "last_status".
Proof.
  intros Hok H200 Hprops Hstdout Hscan sid w'. subst w'.
  destruct (execute_200 cfg e code w _ H200) as [-> ->]. fold sid.
  destruct (bookkeeping_explicit (B := report) sid e (active_sessions w) Hok)
    as (c & Hc & Hrun).
  pose proof (executions_default w sid e c Hc) as Hexec.
  set (s0 := default (new_session e) (store_get sid (active_sessions w)))
    in Hc, Hrun.
  assert (s0 !! "last_status" = session_attr w sid "last_status") as Hold.
  { subst s0. unfold session_attr.
    by destruct (store_get sid (active_sessions w)). }
  unfold handle_200. rewrite Hrun.
  unfold mbind at 1. unfold Py_bind at 1. unfold py_lift, py_contains.
  rewrite Hprops. rewrite bool_decide_true by eauto.
  unfold mbind at 1. unfold Py_bind at 1.
  unfold classify_wrapped, mbind, Py_bind, py_lift, py_getitem, py_get.
  rewrite Hprops, Hstdout. cbn [default from_option id].
  rewrite !setitem_put.
  assert (has_error_in_stdout stdout = inl TypeError) as ->.
  { by destruct stdout. }
  rewrite <- Hold, Hexec.
  unfold session_attr. simpl. rewrite store_get_put_eq. simpl.
  split_and!; by simplify_map_eq.
Qed.

Lemma unreadable_stdout_leaves_status_witness :
  let run := execute pool (ok_200 null_stdout) "print(1)" two_sessions in
  run.2 = SystemError TypeError
  ∧ session_attr run.1.1 "bbbbbbbbbbbb" "last_stderr" = Some (JStr "lost")
  ∧ session_attr run.1.1 "bbbbbbbbbbbb" "last_status"
    = Some (JStr "Success").
Proof.
  destruct (unreadable_stdout_leaves_status pool (ok_200 null_stdout)
              "print(1)" two_sessions
              [("properties",
                JObj [("stdout", JNull); ("stderr", JStr "lost");
                      ("status", JStr "Failed"); ("returnCode", JInt 2)])]
              [("stdout", JNull); ("stderr", JStr "lost");
               ("status", JStr "Failed"); ("returnCode", JInt 2)]
              JNull eq_refl eq_refl eq_refl eq_refl eq_refl)
    as (Hreport & _ & _ & Hstderr & _ & Hstatus).
  split_and!; [exact Hreport | exact Hstderr | exact Hstatus].
Defined.

(** ** Reports on classified answers *)

Lemma substring_in_here (x rest : string) :
  substring_in x (x +:+ rest) = true.
Proof. apply substring_in_spec. by exists "", rest. Qed.

Lemma substring_in_later (x before s : string) :
  substring_in x s = true → substring_in x (before +:+ s) = true.
Proof.
  intros (b & a & ->)%substring_in_spec. apply substring_in_spec.
  exists (before +:+ b), a.
  induction before as [|c before IH]; [done|].
  change (String c before +:+ b +:+ x +:+ a)
    with (String c (before +:+ b +:+ x +:+ a)).
  change ((String c before +:+ b) +:+ x +:+ a)
    with (String c ((before +:+ b) +:+ x +:+ a)).
  by rewrite IH.
Qed.

(** X11.  After an HTTP 200 whose body has either shape and whose
    members have their wire types (stdout, stderr and status strings, the
    return code an integer or null, the success flag a boolean, each
    possibly absent), the tool answers in the "Code Execution Successful"
    format only if the session is marked "Success" with an empty
    [last_stderr] and a stored return code of exactly zero; the output it
    shows is then the stored stdout, or "(no output)" when that is
    empty. *)
Theorem success_report_sound (cfg : config) (e : env) (code : string)
  (w : world) (result : json) (n : canonical) (sid' code' : string)
  (output : json) :
  store_ok (active_sessions w) = true →
  body_of_200 cfg e = Some result →
  normalize result = Some n →
  (execute cfg e code w).2 = ExecutionSuccessful sid' code' output →
  let sid := pick_session (active_sessions w) e in
  let w' := (execute cfg e code w).1.1 in
  sid' = sid ∧ code' = code
  ∧ session_attr w' sid "last_status" = Some (JStr "Success")
  ∧ session_attr w' sid "last_stderr" = Some (JStr "")
  ∧ session_attr w' sid "last_returnCode" = Some (JInt 0)
  ∧ session_attr w' sid "last_stdout" = Some (JStr (n_stdout n))
  ∧ output = JStr (if String.eqb (n_stdout n) "" then "(no output)"
                   else n_stdout n).
Proof.
  intros Hok H200 Hn Hreport sid w'.
  destruct (execute_200_summary cfg e code w result n Hok H200 Hn)
    as (Hstatus & Hout & Herr & Hrc & Hrep).
  fold sid w' in Hstatus, Hout, Herr, Hrc, Hrep.
  rewrite Hstatus, Hout, Herr, Hrc. rewrite Hrep in Hreport.
  unfold final_report in Hreport.
  destruct (failed n) eqn:Hfailed; [done|].
  destruct (py_ne_zero (final_return_code n)) eqn:Hzero; [done|].
  destruct (String.eqb_spec (final_stderr n) "") as [Hempty|]; [|done].
  simpl in Hreport. injection Hreport as <- <- <-.
  assert (final_return_code n = JInt 0) as Hcode.
  { revert Hzero. unfold final_return_code. rewrite Hfailed, andb_false_r.
    simpl. destruct (n_return_code n) as [[| |]|]; simpl; done. }
  assert (relocated n = false) as Hrel.
  { unfold relocated. revert Hfailed. unfold failed.
    destruct (has_error n); [|done]. by rewrite orb_true_r. }
  unfold final_status, final_stdout in *. rewrite Hfailed, Hrel, Hcode, Hempty.
  done.
Qed.

Lemma success_report_sound_witness :
  let w' := (execute pool (ok_200 clean_output) "print(2+2)"
               fresh_world).1.1 in
  session_attr w' "3f2a9c0b7e1d" "last_status" = Some (JStr "Success")
  ∧ session_attr w' "3f2a9c0b7e1d" "last_returnCode" = Some (JInt 0).
Proof.
  destruct (success_report_sound pool (ok_200 clean_output) "print(2+2)"
              fresh_world clean_output
              (Canonical Direct "4
" "" (Some 0%Z) None (Some true))
              "3f2a9c0b7e1d" "print(2+2)" (JStr "4
") eq_refl eq_refl eq_refl eq_refl)
    as (_ & _ & Hstatus & _ & Hrc & _).
  split; [exact Hstatus | exact Hrc].
Defined.

(** X12.  After an HTTP 200 whose body has either shape and whose
    members have their wire types (stdout, stderr and status strings, the
    return code an integer or null, the success flag a boolean, each
    possibly absent), the text returned to the agent contains the code
    that was submitted and the first twelve characters of the session id,
    in the successful and in the failed format alike. *)
Theorem report_shows_code_and_session (py_repr : json → string)
  (interp_msg : exn → string) (cfg : config) (e : env) (code : string)
  (w : world) (result : json) (n : canonical) :
  store_ok (active_sessions w) = true →
  body_of_200 cfg e = Some result →
  normalize result = Some n →
  let answer :=
    (execute_in_dynamic_session py_repr interp_msg cfg e code w).2 in
  substring_in code answer = true
  ∧ substring_in
      (py_prefix 12 (pick_session (active_sessions w) e)) answer
    = true.
Proof.
  intros Hok H200 Hn answer. subst answer.
  destruct (execute_200_summary cfg e code w result n Hok H200 Hn)
    as (_ & _ & _ & _ & Hrep).
  unfold execute_in_dynamic_session.
  destruct (execute cfg e code w) as [[w' evs] r]. simpl in *. subst r.
  unfold final_report.
  destruct (failed n || py_ne_zero (final_return_code n)
            || negb (String.eqb (final_stderr n) "")); cbn [render].
  - split.
    + do 5 apply substring_in_later. apply substring_in_here.
    + apply substring_in_later. apply substring_in_here.
  - split.
    + do 3 apply substring_in_later. apply substring_in_here.
    + apply substring_in_later. apply substring_in_here.
Qed.

Lemma report_shows_code_and_session_witness :
  substring_in "1/0"
    (execute_in_dynamic_session (λ _, "") (λ _, "") pool
       (ok_200 traceback_in_stdout) "1/0" two_sessions).2 = true
  ∧ substring_in "bbbbbbbbbbbb"
      (execute_in_dynamic_session (λ _, "") (λ _, "") pool
         (ok_200 traceback_in_stdout) "1/0" two_sessions).2 = true.
Proof.
  apply (report_shows_code_and_session (λ _, "") (λ _, "") pool
           (ok_200 traceback_in_stdout) "1/0" two_sessions
           traceback_in_stdout
           (Canonical Direct "Traceback (most recent call last):
ZeroDivisionError: division by zero
" "" (Some 1%Z) None (Some false))); reflexivity.
Defined.

(** ** Runs of several calls *)

Lemma call_tool_keys (cfg : config) (c : tool_call) (w : world) :
  let keys := store_keys (active_sessions w) in
  let keys' := store_keys (active_sessions (call_tool cfg c w).1) in
  (keys' = keys ∨ (keys = [] ∧ ∃ sid, keys' = [sid])).
Proof.
  intros keys keys'. subst keys'. destruct c as [|code e]; simpl.
  - by left.
  - destruct (execute_keys cfg e code w) as [Hsame | [Hnew Hkeys]];
      [by left|]. fold keys in Hnew, Hkeys.
    destruct (last keys) as [sid|] eqn:Hlast.
    + destruct Hnew. unfold keys in Hlast.
      rewrite (pick_session_last _ e sid Hlast).
      by apply last_Some_elem_of.
    + apply last_None in Hlast. right. split; [done|].
      rewrite Hkeys, Hlast. by eexists.
Qed.

(** X13.  Sessions are never removed or reordered, and the store never
    holds more than one session when the process starts with none: every
    call made after the first session exists reuses it. *)
Theorem single_session (cfg : config) (calls : list tool_call) (w : world) :
  let keys := store_keys (active_sessions w) in
  let keys' := store_keys (active_sessions (agent_run cfg calls w).1) in
  keys `prefix_of` keys'
  ∧ (keys ≠ [] → keys' = keys)
  ∧ (keys = [] → length keys' ≤ 1).
Proof.
  revert w. induction calls as [|c calls IH]; intros w; cbn zeta.
  { simpl. split_and!; [reflexivity|done|]. intros ->. simpl. lia. }
  cbn [agent_run].
  pose proof (call_tool_keys cfg c w) as Hcall. cbn zeta in Hcall.
  destruct (call_tool cfg c w) as [w1 evs1]. simpl in Hcall.
  specialize (IH w1). cbn zeta in IH.
  destruct (agent_run cfg calls w1) as [w2 evs2]. simpl in *.
  destruct IH as (Hprefix & Hsame & Hone).
  destruct Hcall as [Hkeys | (Hempty & sid & Hkeys)].
  - rewrite Hkeys in Hprefix, Hsame, Hone. by split_and!.
  - rewrite Hempty. split_and!; [apply prefix_nil | done |].
    intros _. rewrite Hsame by (by rewrite Hkeys). rewrite Hkeys. simpl. lia.
Qed.

Lemma call_tool_count (cfg : config) (c : tool_call) (w : world)
  (sid : string) :
  store_ok (active_sessions w) = true →
  last (store_keys (active_sessions w)) = Some sid →
  executions (call_tool cfg c w).1 sid
  = (executions w sid + if answered_200 cfg c then 1 else 0)%Z.
Proof.
  intros Hok Hlast. destruct c as [|code e]; simpl.
  { unfold executions, session_attr. simpl. lia. }
  destruct (body_of_200 cfg e) as [result|] eqn:H200.
  - rewrite bool_decide_true by eauto.
    destruct (execute_200 cfg e code w result H200) as [-> _].
    rewrite (pick_session_last _ e sid Hlast).
    destruct (handle_200_effect sid code e result (active_sessions w) Hok)
      as (_ & c & s' & Hc & Hget & Hcount & _).
    apply executions_default in Hc.
    unfold executions at 1. unfold session_attr. simpl.
    by rewrite Hget; simpl; rewrite Hcount, Hc.
  - rewrite bool_decide_false by (by intros [? ?]).
    destruct (execute_cases cfg e code w) as [-> | (result & ? & _)];
      [|congruence].
    unfold executions, session_attr. rewrite active_sessions_track_tool. lia.
Qed.

Lemma agent_run_count (cfg : config) (calls : list tool_call) (w : world)
  (sid : string) :
  store_ok (active_sessions w) = true →
  last (store_keys (active_sessions w)) = Some sid →
  executions (agent_run cfg calls w).1 sid
  = (executions w sid
     + Z.of_nat (length (filter (answered_200 cfg) calls)))%Z.
Proof.
  revert w. induction calls as [|c calls IH]; intros w Hok Hlast.
  { simpl. lia. }
  cbn [agent_run].
  pose proof (call_tool_count cfg c w sid Hok Hlast) as Hcount.
  pose proof (agent_run_keys cfg [c] w sid Hlast) as Hkeys.
  pose proof (store_ok_agent_run cfg [c] w Hok) as Hok1.
  cbn [agent_run] in Hkeys, Hok1.
  destruct (call_tool cfg c w) as [w1 evs1]. simpl in *.
  specialize (IH w1 Hok1). rewrite Hkeys in IH. specialize (IH Hlast).
  destruct (agent_run cfg calls w1) as [w2 evs2]. simpl in *.
  rewrite IH, Hcount, filter_cons.
  destruct (answered_200 cfg c); simpl; lia.
Qed.

Lemma executions_attr (w : world) (sid : string) :
  store_ok (active_sessions w) = true →
  sid ∈ store_keys (active_sessions w) →
  session_attr w sid "execution_count" = Some (JInt (executions w sid)).
Proof.
  intros Hok [s Hget]%store_get_elem_of.
  destruct (store_ok_get sid s _ Hok Hget) as [c Hc].
  unfold executions, session_attr. rewrite Hget. simpl. by rewrite Hc.
Qed.

Lemma refused_keeps_sessions (cfg : config) (c : tool_call) (w : world) :
  answered_200 cfg c = false →
  active_sessions (call_tool cfg c w).1 = active_sessions w.
Proof.
  destruct c as [|code e]; simpl; [done|].
  destruct (body_of_200 cfg e) as [result|] eqn:H200; simpl; [done|].
  intros _.
  destruct (execute_cases cfg e code w) as [-> | (result & ? & _)];
    [|congruence].
  by rewrite active_sessions_track_tool.
Qed.

(** X14.  The execution count of the session in use grows over a run by
    the number of calls that were answered with HTTP 200 and a JSON
    body; so in a process that starts with no session, the one session
    that exists after a run has counted exactly the answered calls, and
    no session exists if no call was answered. *)
Theorem executions_match_answers (cfg : config) (calls : list tool_call)
  (w : world) :
  let w' := (agent_run cfg calls w).1 in
  let answered := length (filter (answered_200 cfg) calls) in
  (∀ sid,
     store_ok (active_sessions w) = true →
     last (store_keys (active_sessions w)) = Some sid →
     session_attr w' sid "execution_count"
     = Some (JInt (executions w sid + Z.of_nat answered)))
  ∧ (active_sessions w = [] → answered = 0 → active_sessions w' = [])
  ∧ (active_sessions w = [] → 0 < answered →
     ∃ sid, store_keys (active_sessions w') = [sid]
            ∧ session_attr w' sid "execution_count"
              = Some (JInt (Z.of_nat answered))).
Proof.
  cbn zeta.
  assert (∀ calls w sid,
            store_ok (active_sessions w) = true →
            last (store_keys (active_sessions w)) = Some sid →
            store_keys (active_sessions (agent_run cfg calls w).1)
            = store_keys (active_sessions w)
            ∧ session_attr (agent_run cfg calls w).1 sid "execution_count"
              = Some (JInt (executions w sid
                            + Z.of_nat (length (filter (answered_200 cfg)
                                                  calls))))) as Hrun.
  { clear. intros calls w sid Hok Hlast.
    pose proof (agent_run_keys cfg calls w sid Hlast) as Hkeys.
    split; [done|].
    rewrite <- (agent_run_count cfg calls w sid Hok Hlast).
    apply executions_attr; [by apply store_ok_agent_run|].
    rewrite Hkeys. by apply last_Some_elem_of. }
  split_and!.
  - intros sid Hok Hlast. by apply Hrun.
  - revert w. induction calls as [|c calls IH]; intros w Hempty; [done|].
    rewrite filter_cons. cbn [agent_run].
    pose proof (refused_keeps_sessions cfg c w) as Hrefused.
    destruct (answered_200 cfg c); simpl; [done|].
    intros Hnone. rewrite Hempty in Hrefused. specialize (Hrefused eq_refl).
    destruct (call_tool cfg c w) as [w1 evs1]. simpl in *.
    specialize (IH w1 Hrefused Hnone).
    by destruct (agent_run cfg calls w1).
  - revert w. induction calls as [|c calls IH]; intros w Hempty.
    { simpl. lia. }
    rewrite filter_cons. cbn [agent_run].
    pose proof (refused_keeps_sessions cfg c w) as Hrefused.
    destruct (answered_200 cfg c) eqn:Hanswered; simpl.
    + intros _. destruct c as [|code e]; [done|]. simpl in *.
      apply bool_decide_eq_true in Hanswered as [result H200].
      set (sid := pick_session (active_sessions w) e).
      assert (store_ok (active_sessions w) = true) as Hok
        by (by rewrite Hempty).
      pose proof (store_ok_execute cfg e code w Hok) as Hok1.
      destruct (execute_200 cfg e code w result H200) as [Hw1 _].
      destruct (handle_200_effect sid code e result (active_sessions w) Hok)
        as (_ & c & s' & Hc & Hget & Hcount & _).
      pose proof (handle_200_keys sid code e result (active_sessions w))
        as Hkeys.
      rewrite Hempty in Hc. simpl in Hc.
      assert (c = 0%Z) as ->
        by (unfold new_session in Hc; by simplify_map_eq).
      assert (store_keys (handle_200 sid code e result (active_sessions w)).1
              = [sid]) as Hone.
      { rewrite Hkeys, Hempty. done. }
      clear Hkeys.
      destruct (execute cfg e code w) as [[w1 evs1] r]. simpl in *.
      subst w1. simpl in *.
      destruct (Hrun calls
                  (with_sessions (track_tool sid w)
                     (handle_200 sid code e result (active_sessions w)).1)
                  sid Hok1) as [Hkeys' Hattr].
      { simpl. by rewrite Hone. }
      destruct (agent_run cfg calls _) as [w2 evs2]. simpl in *.
      exists sid. split; [by rewrite Hkeys', Hone|].
      rewrite Hattr. unfold executions, session_attr. simpl.
      rewrite Hget. simpl. rewrite Hcount. do 2 f_equal. lia.
    + intros Hpos. rewrite Hempty in Hrefused. specialize (Hrefused eq_refl).
      destruct (call_tool cfg c w) as [w1 evs1]. simpl in *.
      specialize (IH w1 Hrefused Hpos).
      by destruct (agent_run cfg calls w1).
Qed.

Lemma executions_match_answers_witness :
  let w' := (agent_run pool mixed_calls fresh_world).1 in
  store_keys (active_sessions w') = ["0123456789ab"]
  ∧ session_attr w' "0123456789ab" "execution_count" = Some (JInt 2).
Proof.
  destruct (executions_match_answers pool mixed_calls fresh_world)
    as (_ & _ & Hcount).
  destruct (Hcount eq_refl) as (sid & Hkeys & Hattr).
  - vm_compute. lia.
  - assert (sid = "0123456789ab") as -> by (vm_compute in Hkeys; congruence).
    split; [exact Hkeys | exact Hattr].
Defined.

Lemma single_session_witness :
  length (store_keys
            (active_sessions (agent_run pool mixed_calls fresh_world).1)) ≤ 1
  ∧ store_keys
      (active_sessions (agent_run pool mixed_calls two_sessions).1)
    = ["aaaaaaaaaaaa"; "bbbbbbbbbbbb"].
Proof.
  split.
  - destruct (single_session pool mixed_calls fresh_world) as (_ & _ & Hone).
    apply Hone. reflexivity.
  - destruct (single_session pool mixed_calls two_sessions)
      as (_ & Hsame & _).
    apply Hsame. discriminate.
Defined.

(** ** More on the tracker *)

Lemma tracker_exact_reset (w : world) : tracker_exact (reset_tracking w).
Proof. intros sid. simpl. split; [by intros ?%elem_of_empty | done]. Qed.

Lemma tracker_exact_track_tool (sid : string) (w : world) :
  tracker_exact w → tracker_exact (track_tool sid w).
Proof.
  intros Hexact sid'. unfold track_tool.
  destruct (decide (sid ∈ current_request_sessions w)) as [Hseen|Hnew];
    [apply Hexact|]. simpl.
  destruct (Hexact sid') as [Hone Hnone].
  rewrite records_for_app. unfold records_for at 2 4.
  rewrite filter_cons, filter_nil. simpl.
  destruct (decide (Some sid = Some sid')) as [[= <-]|Hne].
  - rewrite (proj2 (Hexact sid) Hnew). split; [done|].
    intros Hnot. destruct Hnot. apply elem_of_union. left.
    by apply elem_of_singleton.
  - rewrite app_nil_r. split.
    + intros [Heq%elem_of_singleton | Hin]%elem_of_union; [congruence|].
      by apply Hone.
    + intros Hnot. apply Hnone. intros Hin. apply Hnot.
      apply elem_of_union. by right.
Qed.

Lemma tracker_exact_call (cfg : config) (c : tool_call) (w : world) :
  tracker_exact w → tracker_exact (call_tool cfg c w).1.
Proof.
  intros Hexact. destruct c as [|code e]; simpl.
  - intros sid. simpl. rewrite records_for_app. unfold records_for at 2 4.
    rewrite filter_cons_False, filter_nil by done.
    rewrite app_nil_r. apply Hexact.
  - destruct (execute_cases cfg e code w) as [-> | (result & _ & ->)];
      by apply tracker_exact_track_tool.
Qed.

Lemma tracker_exact_agent_run (cfg : config) (calls : list tool_call)
  (w : world) :
  tracker_exact w → tracker_exact (agent_run cfg calls w).1.
Proof.
  revert w. induction calls as [|c calls IH]; intros w Hexact; [done|].
  cbn [agent_run].
  pose proof (tracker_exact_call cfg c w Hexact) as Hcall.
  destruct (call_tool cfg c w) as [w1 evs1].
  specialize (IH w1 Hcall). by destruct (agent_run cfg calls w1).
Qed.

(** X15.  In the run of the agent that follows a reset, a session id
    is in the seen set exactly when the tools-used list holds a record
    for it, and then it holds exactly one. *)
Theorem seen_iff_recorded (cfg : config) (calls : list tool_call)
  (w : world) (sid : string) :
  let w' := (agent_run cfg calls (reset_tracking w)).1 in
  (sid ∈ current_request_sessions w'
   ↔ length (records_for sid (current_tools_used w')) = 1)
  ∧ ((sid ∉ current_request_sessions w')
     ↔ records_for sid (current_tools_used w') = []).
Proof.
  intros w'.
  destruct (tracker_exact_agent_run cfg calls (reset_tracking w)
              (tracker_exact_reset w) sid) as [Hone Hnone].
  fold w' in Hone, Hnone.
  destruct (decide (sid ∈ current_request_sessions w')) as [Hin|Hout].
  - specialize (Hone Hin). split; split; try done.
    intros Hnil. rewrite Hnil in Hone. discriminate.
  - specialize (Hnone Hout). split; split; try done.
    intros Hlen. rewrite Hnone in Hlen. discriminate.
Qed.

Lemma search_appends (cfg : config) (n : nat) (w : world) :
  agent_run cfg (replicate n CallSearch) w
  = ({| active_sessions := active_sessions w;
        current_tools_used :=
          current_tools_used w ++ replicate n search_record;
        current_request_sessions := current_request_sessions w |}, []).
Proof.
  revert w. induction n as [|n IH]; intros w.
  - simpl. rewrite app_nil_r. by destruct w.
  - cbn [replicate agent_run call_tool]. rewrite IH. simpl.
    by rewrite <- app_assoc.
Qed.

(** X16.  [search_tools_available] is not deduplicated: each of [n]
    calls in a row appends one record without a session id, so [n]
    records are added; the calls touch neither the session store nor the
    seen set, and make no network call. *)
Theorem search_not_deduplicated (cfg : config) (n : nat) (w : world) :
  let run := agent_run cfg (replicate n CallSearch) w in
  current_tools_used run.1 = current_tools_used w ++ replicate n search_record
  ∧ active_sessions run.1 = active_sessions w
  ∧ current_request_sessions run.1 = current_request_sessions w
  ∧ run.2 = []
  ∧ ∀ sid, records_for sid (current_tools_used run.1)
           = records_for sid (current_tools_used w).
Proof.
  intros run. subst run. rewrite search_appends. simpl.
  split_and!; try done.
  intros sid. rewrite records_for_app.
  assert (records_for sid (replicate n search_record) = []) as ->.
  { induction n as [|n IH]; [done|]. simpl. unfold records_for in *.
    by rewrite filter_cons_False. }
  by rewrite app_nil_r.
Qed.

Lemma call_tool_grows (cfg : config) (c : tool_call) (w : world) :
  current_tools_used w `prefix_of` current_tools_used (call_tool cfg c w).1
  ∧ current_request_sessions w
    ⊆ current_request_sessions (call_tool cfg c w).1
  ∧ length (current_tools_used (call_tool cfg c w).1)
    ≤ S (length (current_tools_used w)).
Proof.
  assert (∀ sid,
            current_tools_used w
              `prefix_of` current_tools_used (track_tool sid w)
            ∧ current_request_sessions w
              ⊆ current_request_sessions (track_tool sid w)
            ∧ length (current_tools_used (track_tool sid w))
              ≤ S (length (current_tools_used w))) as Htrack.
  { intros sid. unfold track_tool. case_decide; simpl.
    - split_and!; [done | done | lia].
    - split_and!.
      + by apply prefix_app_r.
      + apply union_subseteq_r.
      + rewrite length_app. simpl. lia. }
  destruct c as [|code e]; simpl.
  - split_and!; [by apply prefix_app_r | done | rewrite length_app; simpl; lia].
  - destruct (execute_cases cfg e code w) as [-> | (result & _ & ->)];
      apply Htrack.
Qed.

(** X17.  Within a run of the agent the tools-used list only grows at
    its end, by at most one record per tool call, and the seen set only
    grows: no record is removed, replaced or reordered. *)
Theorem tracker_only_grows (cfg : config) (calls : list tool_call)
  (w : world) :
  let w' := (agent_run cfg calls w).1 in
  current_tools_used w `prefix_of` current_tools_used w'
  ∧ current_request_sessions w ⊆ current_request_sessions w'
  ∧ length (current_tools_used w')
    ≤ length (current_tools_used w) + length calls.
Proof.
  revert w. induction calls as [|c calls IH]; intros w; cbn zeta.
  { simpl. split_and!; [done | done | lia]. }
  cbn [agent_run].
  destruct (call_tool_grows cfg c w) as (Hprefix & Hseen & Hlen).
  destruct (call_tool cfg c w) as [w1 evs1]. simpl in *.
  specialize (IH w1). cbn zeta in IH.
  destruct (agent_run cfg calls w1) as [w2 evs2]. simpl in *.
  destruct IH as (Hprefix' & Hseen' & Hlen'). split_and!.
  - by etrans.
  - by etrans.
  - lia.
Qed.

(** ** More on the session container's server *)

(** X18.  When the properties hold a non-empty string as shell command
    and a string, or nothing, as code, and the command or the code is not
    blank, the server runs the shell command, whatever the code says and
    whatever language is named: also when the command is only white space
    and the code is not.  The answer to such a request depends on the
    subprocess only through that one command, and is HTTP 200 with the
    shell form of shape A (no [executionResult]) when it exits. *)
Theorem shell_command_wins (interp_msg format_exc : exn → string)
  (run : command → json → proc_outcome) (req : request) (data : json)
  (props : list (string * json)) (cmd code : string) :
  method req = POST →
  get_json req = inr data → truthy data = true →
  extract_properties data = inr (JObj props) →
  dict_lookup "shellCommand" props = Some (JStr cmd) →
  as_text (dict_lookup "code" props) = Some code →
  cmd ≠ "" →
  whitespace_only cmd = false ∨ whitespace_only code = false →
  let timeout := default (JInt 30) (dict_lookup "timeoutInSeconds" props) in
  (∀ run',
     run' (Shell (JStr cmd)) timeout = run (Shell (JStr cmd)) timeout →
     execute_code interp_msg format_exc run' req
     = execute_code interp_msg format_exc run req)
  ∧ (∀ stdout stderr return_code,
       run (Shell (JStr cmd)) timeout = Exited stdout stderr return_code →
       execute_code interp_msg format_exc run req
       = Json 200 (shell_answer stdout stderr return_code)).
Proof.
  intros Hpost Hdata Htruthy Hprops Hcmd Hcode Hne Hcontent timeout.
  assert (∀ run0,
            execute_code interp_msg format_exc run0 req
            = match
                match run0 (Shell (JStr cmd)) timeout with
                | Exited stdout stderr return_code =>
                    Return (Json 200 (shell_answer stdout stderr return_code))
                | TimeoutExpired => RaiseTimeout timeout
                | Raised ex => Raise ex
                end
              with
              | Return r => r
              | RaiseTimeout timeout =>
                  match times_1000 timeout with
                  | inl ex => Unhandled ex
                  | inr ms =>
                      Json 408 (JObj [("properties", JObj [
                        ("status", JStr "Failed");
                        ("stderr", JStr "Execution timed out");
                        ("executionTimeInMilliseconds", ms)])])
                  end
              | Raise ex =>
                  Json 500 (JObj [("properties", JObj [
                    ("status", JStr "Failed");
                    ("stderr",
                     JStr ("Execution error: " +:+ exn_str interp_msg ex +:+ "
" +:+ format_exc ex));
                    ("executionTimeInMilliseconds", JInt 0)])])
              end) as Hrun.
  { intros run0. unfold execute_code.
    rewrite Hpost, Hdata, Htruthy, Hprops. cbn [negb].
    unfold run_properties. cbn [py_get mbind sum_bind mret sum_ret].
    rewrite Hcmd. fold timeout.
    assert (default (JStr "") (dict_lookup "code" props) = JStr code) as ->.
    { by apply as_text_get. }
    cbn [default from_option id].
    assert (truthy (JStr cmd) = true) as Htcmd.
    { simpl. by destruct (String.eqb_spec cmd ""). }
    rewrite !has_content_str. cbn [mbind sum_bind mret sum_ret].
    rewrite Htcmd.
    by destruct Hcontent as [-> | ->];
      [destruct (whitespace_only code) | destruct (whitespace_only cmd)]. }
  split.
  - intros run' Hagree. by rewrite !Hrun, Hagree.
  - intros stdout stderr return_code Hexit. by rewrite Hrun, Hexit.
Qed.

Lemma shell_command_wins_witness :
  execute_code (λ _, "") (λ _, "") (λ _ _, Exited "" "" 0)
    (Request POST (inr blank_command_with_code))
  = Json 200 (shell_answer "" "" 0).
Proof.
  destruct (shell_command_wins (λ _, "") (λ _, "") (λ _ _, Exited "" "" 0)
              (Request POST (inr blank_command_with_code))
              blank_command_with_code
              [("shellCommand", JStr " "); ("code", JStr "print(1)");
               ("language", JStr "ruby")]
              " " "print(1)"
              eq_refl eq_refl eq_refl eq_refl eq_refl eq_refl
              ltac:(discriminate) (or_intror eq_refl)) as [_ Hexit].
  apply (Hexit "" "" 0%Z). reflexivity.
Defined.

Lemma extract_properties_wrapped (props : list (string * json)) :
  extract_properties (JObj [("properties", JObj props)]) = inr (JObj props).
Proof. by destruct props. Qed.

(** X19.  The nested and the top-level request shapes agree: whatever
    properties the server reads out of a request, the request that holds
    just these under [properties] gets the same answer; and non-empty
    nested properties are read as they are, whatever stands beside them
    at the top level. *)
Theorem request_shapes_agree (interp_msg format_exc : exn → string)
  (run : command → json → proc_outcome) (data : json)
  (props : list (string * json)) :
  truthy data = true →
  extract_properties data = inr (JObj props) →
  execute_code interp_msg format_exc run
    (Request POST (inr (JObj [("properties", JObj props)])))
  = execute_code interp_msg format_exc run (Request POST (inr data))
  ∧ ∀ fields nested,
      data = JObj fields →
      dict_lookup "properties" fields = Some (JObj nested) →
      nested ≠ [] → props = nested.
Proof.
  intros Htruthy Hprops. split.
  - unfold execute_code. cbn [method get_json]. rewrite Htruthy.
    cbn [truthy negb]. by rewrite extract_properties_wrapped, Hprops.
  - intros fields nested -> Hnested Hne. revert Hprops.
    unfold extract_properties. cbn [py_get mbind sum_bind]. rewrite Hnested.
    cbn [default from_option id]. destruct nested; [done|].
    cbn [truthy negb]. by intros [= ->].
Qed.

Lemma request_shapes_agree_witness :
  execute_code (λ _, "") (λ _, "") (λ _ _, TimeoutExpired)
    (Request POST
       (inr (JObj [("properties",
                    JObj [("code", JStr "print(1)");
                          ("timeoutInSeconds", JInt 5)])])))
  = execute_code (λ _, "") (λ _, "") (λ _ _, TimeoutExpired)
      (Request POST (inr top_level_request)).
Proof.
  apply (request_shapes_agree (λ _, "") (λ _, "") (λ _ _, TimeoutExpired)
           top_level_request
           [("code", JStr "print(1)"); ("timeoutInSeconds", JInt 5)]
           eq_refl eq_refl).
Defined.

Lemma select_command_supported (language : string) (code : json) :
  is_Some (select_command language code) ↔ language ∈ supported_languages.
Proof.
  unfold select_command, supported_languages.
  rewrite !elem_of_cons, elem_of_nil.
  destruct (String.eqb_spec language "python"); [by split; eauto|].
  destruct (String.eqb_spec language "javascript"); [by split; eauto|].
  destruct (String.eqb_spec language "js"); [by split; eauto 6|].
  destruct (String.eqb_spec language "bash"); [by split; eauto 6|].
  destruct (String.eqb_spec language "sh"); [by split; eauto 7|].
  destruct (String.eqb_spec language "powershell"); [by split; eauto 8|].
  destruct (String.eqb_spec language "pwsh"); [by split; eauto 9|].
  simpl. split; [by intros [? ?]|]. intros H. exfalso. tauto.
Qed.

(** X20.  Code with no shell command is refused for its language exactly
    when the language, in lower case, is none of the seven known names;
    the refusal is HTTP 400 with the language as it was sent, and no
    subprocess is consulted for it. *)
Theorem unsupported_language (interp_msg format_exc : exn → string)
  (run : command → json → proc_outcome) (req : request) (data : json)
  (props : list (string * json)) (code language : string) :
  method req = POST →
  get_json req = inr data → truthy data = true →
  extract_properties data = inr (JObj props) →
  dict_lookup "code" props = Some (JStr code) →
  whitespace_only code = false →
  truthy (default (JStr "") (dict_lookup "shellCommand" props)) = false →
  dict_lookup "language" props = Some (JStr language) →
  execute_code interp_msg format_exc run req
  = Json 400 (JObj [("error", JStr ("Unsupported language: " +:+ language))])
  ↔ lower language ∉ supported_languages.
Proof.
  intros Hpost Hdata Htruthy Hprops Hcode Hblank Hshell Hlang.
  rewrite <- (select_command_supported (lower language) (JStr code)).
  unfold execute_code. rewrite Hpost, Hdata, Htruthy, Hprops. cbn [negb].
  unfold run_properties. cbn [py_get mbind sum_bind mret sum_ret].
  rewrite Hcode, Hlang. cbn [default from_option id].
  rewrite has_content_str, Hblank. cbn [mbind sum_bind mret sum_ret negb].
  unfold has_content at 1. rewrite Hshell.
  cbn [mbind sum_bind mret sum_ret negb andb]. rewrite Hshell.
  assert (truthy (JStr code) = true) as ->.
  { simpl. by destruct code. }
  cbn [py_lower].
  destruct (select_command (lower language) (JStr code)) as [cmd|].
  - split; [|by intros []; eauto].
    destruct (run cmd _) as [stdout stderr return_code| |ex];
      [by intros [=] | | by intros [=]].
    by destruct (times_1000 _); intros [=].
  - split; [by intros _ [? ?] | done].
Qed.

Lemma unsupported_language_witness :
  execute_code (λ _, "") (λ _, "") (λ _ _, Exited "1" "" 0)
    (Request POST (inr ruby_request))
  = Json 400 (JObj [("error", JStr "Unsupported language: Ruby")]).
Proof.
  apply (unsupported_language (λ _, "") (λ _, "") (λ _ _, Exited "1" "" 0)
           (Request POST (inr ruby_request)) ruby_request
           [("code", JStr "puts 1"); ("language", JStr "Ruby")]
           "puts 1" "Ruby"
           eq_refl eq_refl eq_refl eq_refl eq_refl eq_refl eq_refl eq_refl).
  vm_compute. intros H. by repeat (inversion H as [|? ? ? H']; clear H;
                                   rename H' into H; subst).
Defined.

(** X21.  A request whose JSON is something other than an object, or
    whose [properties] member is something other than an object ([null]
    included), is answered with HTTP 500 and the failure body, not with
    HTTP 400; no subprocess is consulted. *)
Theorem malformed_request_is_500 (interp_msg format_exc : exn → string)
  (run : command → json → proc_outcome) (req : request) (data : json) :
  method req = POST →
  get_json req = inr data → truthy data = true →
  malformed data →
  ∃ body,
    failure_body body = true
    ∧ ∀ run', execute_code interp_msg format_exc run' req = Json 500 body.
Proof.
  intros Hpost Hdata Htruthy Hbad.
  assert (∃ ex, extract_properties data = inl ex
                ∨ ∃ properties, extract_properties data = inr properties
                                ∧ is_object properties = false)
    as [ex Hex].
  { destruct Hbad as [Hobj | (fields & properties & -> & Hprops & Hobj)].
    - exists AttributeError. left. by destruct data.
    - unfold extract_properties. cbn [py_get mbind sum_bind].
      rewrite Hprops. cbn [default from_option id].
      destruct (truthy properties); cbn [negb].
      + exists AttributeError. right. by exists properties.
      + exists TypeError. left. by destruct properties. }
  unfold execute_code. rewrite Hpost, Hdata, Htruthy. cbn [negb].
  destruct Hex as [-> | (properties & -> & Hobj)].
  - eexists. split; [|reflexivity]. reflexivity.
  - assert (∀ run', run_properties run' properties = Raise AttributeError)
      as Hraise by (by destruct properties).
    eexists. split; [|intros run'; by rewrite Hraise]. reflexivity.
Qed.

Lemma malformed_request_is_500_witness :
  ∃ body,
    failure_body body = true
    ∧ ∀ run',
        execute_code (λ _, "") (λ _, "") run'
          (Request POST (inr null_properties))
        = Json 500 body.
Proof.
  apply (malformed_request_is_500 (λ _, "") (λ _, "")
           (λ _ _, TimeoutExpired) (Request POST (inr null_properties))
           null_properties eq_refl eq_refl eq_refl).
  right. exists [("properties", JNull); ("code", JStr "print(1)")], JNull.
  by split_and!.
Defined.

(** ** The tool in front of the server *)

Lemma server_on_payload (interp_msg format_exc : exn → string)
  (run : command → json → proc_outcome) (code : string) :
  execute_code interp_msg format_exc run
    (Request POST (inr (execution_payload code)))
  = if whitespace_only code
    then Json 400 (JObj [("error", JStr "No code or command provided")])
    else
      match run (Argv "python" (JStr code)) (JInt 60) with
      | Exited stdout stderr return_code =>
          Json 200 (code_answer stdout stderr return_code)
      | TimeoutExpired => Json 408 (timeout_answer (JInt 60000))
      | Raised ex =>
          Json 500 (JObj [("properties", JObj [
            ("status", JStr "Failed");
            ("stderr",
             JStr ("Execution error: " +:+ exn_str interp_msg ex +:+ "
" +:+ format_exc ex));
            ("executionTimeInMilliseconds", JInt 0)])])
      end.
Proof.
  unfold execute_code, execution_payload. cbn [method get_json truthy negb].
  cbn [extract_properties py_get mbind sum_bind dict_lookup String.eqb
       Ascii.eqb Bool.eqb default from_option id truthy negb].
  unfold run_properties.
  cbn [py_get mbind sum_bind mret sum_ret dict_lookup String.eqb
       Ascii.eqb Bool.eqb default from_option id].
  rewrite !has_content_str. cbn [mbind sum_bind mret sum_ret].
  destruct (whitespace_only code) eqn:Hblank; [done|].
  cbn [negb andb whitespace_only truthy String.eqb].
  assert (truthy (JStr code) = true) as Htruthy.
  { simpl. by destruct code. }
  cbn [truthy] in Htruthy. rewrite Htruthy.
  change (py_lower (JStr "python")) with (@inr exn string "python").
  cbv beta iota.
  change (select_command "python" (JStr code))
    with (Some (Argv "python" (JStr code))).
  cbv beta iota.
  by destruct (run (Argv "python" (JStr code)) (JInt 60)).
Qed.

Lemma execute_other_status (cfg : config) (e : env) (code : string)
  (w : world) (endpoint bearer : string) (response : http_response) :
  configured cfg = Some endpoint →
  token e = inr bearer →
  post e = inr response →
  status_code response ≠ 200%Z →
  status_code response ≠ 202%Z →
  (execute cfg e code w).1.1
  = track_tool (pick_session (active_sessions w) e) w
  ∧ (execute cfg e code w).2
    = ExecutionError (status_code response) (text response).
Proof.
  intros Hcfg Htoken Hpost H200 H202.
  revert Hcfg. unfold configured, execute.
  destruct (SESSION_POOL_ENDPOINT cfg) as [endpoint'|]; [|done].
  destruct (String.eqb endpoint' ""); [done|]. intros [= ->].
  rewrite Htoken, Hpost.
  destruct (Z.eqb_spec (status_code response) 200); [done|].
  by destruct (Z.eqb_spec (status_code response) 202).
Qed.

Lemma same_member_read (a b : option json) (absent : option Z) :
  same_member a b →
  as_text a = as_text b ∧ as_code absent a = as_code absent b
  ∧ as_flag a = as_flag b.
Proof.
  destruct a as [[]|], b as [[]|]; simpl; intros H; try done;
    by simplify_eq.
Qed.

(** Bodies that agree up to the order of their members read the same. *)
Lemma normalize_same_members (a b : json) :
  same_members a b → normalize a = normalize b.
Proof.
  destruct a as [| | | | |fields_a], b as [| | | | |fields_b];
    simpl; intros H; try done; try (by simplify_eq).
  pose proof (H "properties") as Hprops.
  destruct (dict_lookup "properties" fields_a) as [properties_a|],
    (dict_lookup "properties" fields_b) as [properties_b|].
  - destruct properties_a, properties_b; simpl in Hprops;
      try done; try (by simplify_eq).
    by rewrite !Hprops.
  - by destruct properties_a.
  - done.
  - destruct (same_member_read _ _ (Some 0%Z) (H "output")) as (-> & _ & _).
    destruct (same_member_read _ _ (Some 0%Z) (H "error")) as (-> & _ & _).
    destruct (same_member_read _ _ (Some 0%Z) (H "return_code"))
      as (_ & -> & _).
    by destruct (same_member_read _ _ (Some 0%Z) (H "success"))
      as (_ & _ & ->).
Qed.

(** X22.  The tool in front of the server.  When the session pool relays
    the tool's request to the session container's server and passes the
    server's status and JSON answer back, the members of the answer in
    whatever order, the server runs the tool's code as Python with a
    timeout of 60 seconds, and the tool's result follows the subprocess: on exit, the session records
    the return code and is "Success" exactly when the exit is clean
    (code zero, empty stderr, no error substring in stdout), the report
    being the success report with the stdout in that case and the
    failure report with the return code otherwise; on a timeout, a
    failure to run, or code of white space only, the tool reports an
    execution error with the server's status (408, 500, 400) and the
    session store stays as it was. *)
Theorem python_round_trip (interp_msg format_exc : exn → string)
  (run : command → json → proc_outcome) (cfg : config) (e : env)
  (code : string) (w : world) (endpoint bearer : string) :
  configured cfg = Some endpoint →
  token e = inr bearer →
  relays interp_msg format_exc run e code →
  store_ok (active_sessions w) = true →
  let sid := pick_session (active_sessions w) e in
  let w' := (execute cfg e code w).1.1 in
  let rep := (execute cfg e code w).2 in
  let unchanged (status : Z) :=
    active_sessions w' = active_sessions w
    ∧ ∃ detail, rep = ExecutionError status detail in
  if whitespace_only code then unchanged 400%Z
  else
    match run (Argv "python" (JStr code)) (JInt 60) with
    | Exited stdout stderr return_code =>
        session_attr w' sid "last_returnCode" = Some (JInt return_code)
        ∧ (session_attr w' sid "last_status" = Some (JStr "Success")
           ↔ clean_exit stdout stderr return_code)
        ∧ (session_attr w' sid "last_status" = Some (JStr "Failed")
           ↔ ¬ clean_exit stdout stderr return_code)
        ∧ (clean_exit stdout stderr return_code →
           rep = ExecutionSuccessful sid code
                   (JStr (if String.eqb stdout "" then "(no output)"
                          else stdout)))
        ∧ (¬ clean_exit stdout stderr return_code →
           ∃ shown, rep = ExecutionFailed sid (JInt return_code) code shown)
    | TimeoutExpired => unchanged 408%Z
    | Raised _ => unchanged 500%Z
    end.
Proof.
  intros Hcfg Htoken (r & body & answer & Hpost & Hbody & Hanswer & Hsame)
    Hok sid w' rep unchanged.
  rewrite server_on_payload in Hanswer.
  assert (∀ status, status_code r = status → status ≠ 200%Z →
            status ≠ 202%Z → unchanged status) as Hother.
  { intros status <- H200 H202.
    destruct (execute_other_status cfg e code w endpoint bearer r
                Hcfg Htoken Hpost H200 H202) as [Hw Hrep].
    subst unchanged w' rep. cbn beta. rewrite Hw, Hrep.
    split; [apply active_sessions_track_tool | by eexists]. }
  destruct (whitespace_only code).
  { injection Hanswer as Hstatus _. by apply Hother. }
  destruct (run (Argv "python" (JStr code)) (JInt 60))
    as [stdout stderr return_code| |ex].
  2:{ injection Hanswer as Hstatus _. by apply Hother. }
  2:{ injection Hanswer as Hstatus _. by apply Hother. }
  injection Hanswer as Hstatus <-.
  set (n := Canonical Wrapped stdout stderr (Some return_code)
              (Some (if (return_code =? 0)%Z then "Success" else "Failed"))
              None).
  assert (body_of_200 cfg e = Some body) as H200.
  { unfold body_of_200. by rewrite Hcfg, Htoken, Hpost, <- Hstatus, Hbody. }
  assert (normalize body = Some n) as Hn.
  { by rewrite <- (normalize_same_members _ _ Hsame). }
  destruct (execute_200_summary cfg e code w _ n Hok H200 Hn)
    as (Hstatus' & Hout & Herr & Hrc & Hrep).
  fold sid w' in Hstatus', Hout, Herr, Hrc. fold rep in Hrep.
  assert (failed n = false ↔ clean_exit stdout stderr return_code)
    as Hclean.
  { rewrite <- not_true_iff_false, failed_spec by done.
    unfold failure_signal, clean_exit. cbn [n n_stdout n_stderr n_status
      n_return_code n_success].
    split.
    - intros Hnone. split_and!.
      + destruct (decide (return_code = 0%Z)) as [|Hne]; [done|].
        destruct Hnone. right. right. right. left. by exists return_code.
      + destruct (decide (stderr = "")) as [|Hne]; [done|].
        destruct Hnone. by left.
      + intros Hm. destruct Hnone. right. by left.
    - intros (-> & -> & Hm) [H | [H | [H | [H | H]]]]; try done.
      by destruct H as (z & [= <-] & ?). }
  assert (final_return_code n = JInt return_code) as Hcode by done.
  rewrite Hcode in Hrc.
  split_and!.
  - done.
  - rewrite Hstatus', <- Hclean. unfold final_status.
    by destruct (failed n).
  - rewrite Hstatus', <- Hclean. unfold final_status.
    by destruct (failed n).
  - intros Hc. pose proof Hc as (-> & -> & Hm). apply Hclean in Hc.
    rewrite Hrep. unfold final_report. rewrite Hcode, Hc.
    assert (relocated n = false) as Hrel.
    { unfold relocated.
      assert (has_error n = false) as -> by (by apply has_error_false).
      done. }
    unfold final_stderr, final_stdout. by rewrite Hrel.
  - intros Hc. rewrite <- Hclean in Hc. apply not_false_iff_true in Hc.
    rewrite Hrep. unfold final_report. rewrite Hcode, Hc. by eexists.
Qed.

Lemma python_round_trip_witness :
  (execute pool (ok_200 sorted_answer) "print(2+2)" fresh_world).2
  = ExecutionSuccessful "3f2a9c0b7e1d" "print(2+2)" (JStr "4
").
Proof.
  assert (relays (λ _, "") (λ _, "") (λ _ _, Exited "4
" "" 0) (ok_200 sorted_answer) "print(2+2)") as Hrelays.
  { eexists _, sorted_answer, (code_answer "4
" "" 0). split_and!; try reflexivity.
    unfold same_members, code_answer, sorted_answer, status_of.
    intros k. cbn [dict_lookup].
    destruct (String.eqb "properties" k); [|done].
    intros k'. cbn [dict_lookup].
    repeat (match goal with
            | |- context [String.eqb ?a k'] =>
                destruct (String.eqb_spec a k') as [<- |]; [reflexivity|]
            end).
    done. }
  pose proof (python_round_trip (λ _, "") (λ _, "") (λ _ _, Exited "4
" "" 0) pool (ok_200 sorted_answer) "print(2+2)" fresh_world
                "https://pool.example" "secret"
                eq_refl eq_refl Hrelays eq_refl) as H.
  cbv zeta in H.
  change (whitespace_only "print(2+2)") with false in H. cbv iota in H.
  destruct H as (_ & _ & _ & Hclean & _).
  apply Hclean. split_and!; [done|done|].
  intros Hm%mentions_error_spec. vm_compute in Hm. discriminate.
Defined.

(** ** The streaming chat endpoint *)

Lemma call_tool_seen (cfg : config) (c : tool_call) (w : world)
  (sid : string) :
  sid ∈ current_request_sessions w →
  records_for sid (current_tools_used (call_tool cfg c w).1)
  = records_for sid (current_tools_used w).
Proof.
  intros Hseen.
  assert (∀ sid', records_for sid (current_tools_used (track_tool sid' w))
                  = records_for sid (current_tools_used w)) as Htrack.
  { intros sid'. unfold track_tool. case_decide as Hin; [done|]. simpl.
    rewrite records_for_app. unfold records_for at 2.
    rewrite filter_cons_False, filter_nil.
    - by rewrite app_nil_r.
    - simpl. intros [= ->]. done. }
  destruct c as [|code e]; simpl.
  - rewrite records_for_app. unfold records_for at 2.
    rewrite filter_cons_False, filter_nil by done. by rewrite app_nil_r.
  - destruct (execute_cases cfg e code w) as [-> | (result & _ & ->)];
      apply Htrack.
Qed.

Lemma agent_run_seen (cfg : config) (calls : list tool_call) (w : world)
  (sid : string) :
  sid ∈ current_request_sessions w →
  records_for sid (current_tools_used (agent_run cfg calls w).1)
  = records_for sid (current_tools_used w).
Proof.
  revert w. induction calls as [|c calls IH]; intros w Hseen; [done|].
  cbn [agent_run].
  pose proof (call_tool_seen cfg c w sid Hseen) as Hcall.
  destruct (call_tool_grows cfg c w) as (_ & Hgrows & _).
  destruct (call_tool cfg c w) as [w1 evs1]. simpl in *.
  specialize (IH w1 (Hgrows _ Hseen)).
  destruct (agent_run cfg calls w1) as [w2 evs2]. simpl in *.
  by rewrite IH.
Qed.

Lemma agent_run_grows (cfg : config) (calls : list tool_call) (w : world) :
  current_tools_used w `prefix_of` current_tools_used (agent_run cfg calls w).1
  ∧ current_request_sessions w
    ⊆ current_request_sessions (agent_run cfg calls w).1.
Proof.
  revert w. induction calls as [|c calls IH]; intros w; [done|].
  cbn [agent_run].
  destruct (call_tool_grows cfg c w) as (Hprefix & Hseen & _).
  destruct (call_tool cfg c w) as [w1 evs1]. simpl in *.
  specialize (IH w1).
  destruct (agent_run cfg calls w1) as [w2 evs2]. simpl in *.
  destruct IH as (Hprefix' & Hseen'). split; by etrans.
Qed.

(** X23.  [ChatStream.post] does not reset the tracking: whatever the
    request, the records and the seen set left by earlier requests stay,
    the list keeping them at its front, and an execution in a session
    that an earlier request has recorded adds no record for it. *)
Theorem stream_keeps_tracking (interp_msg : exn → string) (cfg : config)
  (agent : bool) (prompt : string) (a : stream_behaviour) (w : world) :
  let w' := (chat_stream_post interp_msg cfg agent prompt a w).1.1 in
  current_tools_used w `prefix_of` current_tools_used w'
  ∧ current_request_sessions w ⊆ current_request_sessions w'
  ∧ ∀ sid, sid ∈ current_request_sessions w →
           records_for sid (current_tools_used w')
           = records_for sid (current_tools_used w).
Proof.
  intros w'. subst w'. unfold chat_stream_post.
  destruct (String.eqb prompt ""); [done|].
  destruct agent; [|done]. cbn [negb].
  destruct (stream_new_thread a); [done|].
  pose proof (agent_run_grows cfg (stream_calls a) w) as [Hprefix Hseen].
  pose proof (agent_run_seen cfg (stream_calls a) w) as Hrecords.
  destruct (agent_run cfg (stream_calls a) w) as [w1 evs].
  by destruct (stream_outcome a).
Qed.

Lemma stream_keeps_tracking_witness :
  records_for "3f2a9c0b7e1d"
    (current_tools_used
       (chat_stream_post (λ _, "") pool true "and again?" streams_4
          after_chat).1.1)
  = records_for "3f2a9c0b7e1d" (current_tools_used after_chat).
Proof.
  destruct (stream_keeps_tracking (λ _, "") pool true "and again?"
              streams_4 after_chat) as (_ & _ & Hrecords).
  apply Hrecords.
  apply (bool_decide_unpack
           ("3f2a9c0b7e1d" ∈ current_request_sessions after_chat)).
  vm_compute. exact I.
Defined.

Lemma collect_stream_cons (chunk : option string)
  (chunks : list (option string)) :
  collect_stream (chunk :: chunks)
  = match chunk with
    | Some text =>
        if String.eqb text "" then collect_stream chunks
        else text :: collect_stream chunks
    | None => collect_stream chunks
    end.
Proof.
  unfold collect_stream. destruct chunk as [text|]; [|done]. simpl.
  by destruct (String.eqb text "").
Qed.

Lemma concat_cons (s : string) (l : list string) :
  String.concat "" (s :: l) = s +:+ String.concat "" l.
Proof.
  destruct l as [|s' l]; simpl; [|done].
  induction s as [|c s IH]; [done|].
  change (String c s = String c (s +:+ "")). by rewrite <- IH.
Qed.

Lemma collect_stream_concat (chunks : list (option string)) :
  String.concat "" (collect_stream chunks)
  = String.concat "" (map (default "") chunks).
Proof.
  induction chunks as [|[text|] chunks IH]; [done|..];
    rewrite collect_stream_cons; cbn [map default from_option id];
    rewrite (concat_cons _ (map _ _)), <- IH.
  - destruct (String.eqb_spec text "") as [-> |]; [done|].
    by rewrite concat_cons.
  - done.
Qed.

Lemma collect_stream_count (chunks : list (option string)) :
  length (collect_stream chunks) = length (List.filter has_text chunks).
Proof.
  induction chunks as [|[text|] chunks IH]; [done|..];
    rewrite collect_stream_cons; simpl; [|done].
  destruct (String.eqb text ""); simpl; by rewrite IH.
Qed.

Lemma collect_stream_empty (chunks : list (option string)) :
  length (collect_stream chunks) = 0
  ↔ String.concat "" (collect_stream chunks) = "".
Proof.
  induction chunks as [|[text|] chunks IH]; [done|..];
    rewrite collect_stream_cons; [|done].
  destruct (String.eqb_spec text "") as [-> | Hne]; [done|].
  rewrite concat_cons. by destruct text.
Qed.

(** X24.  A streaming request that has a prompt, an agent and a
    conversation thread, and whose stream ends without an exception, is
    answered with the chunk texts joined in order, a chunk without text
    counting as empty, and with [chunks_received] equal to the number of
    chunks that have a non-empty text; that number is zero exactly when
    the answer is empty. *)
Theorem stream_response_joined (interp_msg : exn → string) (cfg : config)
  (prompt : string) (a : stream_behaviour) (w : world)
  (chunks : list (option string)) :
  prompt ≠ "" →
  stream_new_thread a = None →
  stream_outcome a = inr chunks →
  let response := String.concat "" (map (default "") chunks) in
  let chunks_received := length (List.filter has_text chunks) in
  (chat_stream_post interp_msg cfg true prompt a w).2
  = StreamOk response chunks_received
  ∧ (chunks_received = 0 ↔ response = "").
Proof.
  intros Hprompt Hthread Hchunks response chunks_received.
  subst response chunks_received.
  rewrite <- collect_stream_count, <- collect_stream_concat.
  split; [|apply collect_stream_empty].
  unfold chat_stream_post.
  destruct (String.eqb_spec prompt ""); [done|]. cbn [negb].
  rewrite Hthread, Hchunks.
  by destruct (agent_run cfg (stream_calls a) w).
Qed.

Lemma stream_response_joined_witness :
  (chat_stream_post (λ _, "") pool true "what is 2+2?" streams_4
     fresh_world).2
  = StreamOk "The answer is 4" 2.
Proof.
  destruct (stream_response_joined (λ _, "") pool "what is 2+2?" streams_4
              fresh_world [Some "The answer "; Some ""; None; Some "is 4"]
              ltac:(discriminate) eq_refl eq_refl) as [Hanswer _].
  exact Hanswer.
Defined.

(** ** The payload test endpoint *)

Lemma code_not_refused (interp_msg format_exc : exn → string)
  (run : command → json → proc_outcome) (data : json)
  (props : list (string * json)) (code : string) :
  truthy data = true →
  extract_properties data = inr (JObj props) →
  dict_lookup "code" props = Some (JStr code) →
  whitespace_only code = false →
  execute_code interp_msg format_exc run (Request POST (inr data))
  ≠ Json 400 (JObj [("error", JStr "No code or command provided")]).
Proof.
  intros Htruthy Hprops Hcode Hblank.
  unfold execute_code. cbn [method get_json]. rewrite Htruthy, Hprops.
  cbn [negb]. unfold run_properties.
  cbn [py_get mbind sum_bind mret sum_ret]. rewrite Hcode.
  cbn [default from_option id]. rewrite has_content_str, Hblank.
  cbn [mbind sum_bind mret sum_ret negb].
  destruct (has_content (default (JStr "") (dict_lookup "shellCommand" props)))
    as [ex|has_shell]; [by intros [=]|].
  cbn [mbind sum_bind mret sum_ret negb andb].
  destruct (truthy (default (JStr "") (dict_lookup "shellCommand" props))).
  { destruct (run _ _) as [stdout stderr return_code| |ex];
      [by intros [=] | | by intros [=]].
    by destruct (times_1000 _); intros [=]. }
  assert (truthy (JStr code) = true) as ->.
  { simpl. by destruct code. }
  destruct (default (JStr "python") (dict_lookup "language" props))
    as [| | |l| |]; try (by intros [=]).
  cbn [py_lower].
  destruct (select_command (lower l) (JStr code)) as [cmd|].
  - destruct (run cmd _) as [stdout stderr return_code| |ex];
      [by intros [=] | | by intros [=]].
    by destruct (times_1000 _); intros [=].
  - by intros [=].
Qed.

(** X25.  The test endpoint reads the code from the [properties] member
    only.  When that member is a non-empty object with a string for code
    (or no code) and no shell command, the test endpoint and the server
    agree: the test endpoint answers HTTP 400 "No code provided" when the
    code is white space only, which is when the server answers HTTP 400
    without running anything, and otherwise echoes the code with its
    length.  When that member is missing or an empty object, the test
    endpoint answers HTTP 400 "No code provided" whatever the top-level
    members hold, whereas the server does not refuse a top-level code
    that is not blank. *)
Theorem test_payload_matches_server (interp_msg format_exc : exn → string)
  (run : command → json → proc_outcome) (fields : list (string * json)) :
  (∀ props code,
     dict_lookup "properties" fields = Some (JObj props) →
     props ≠ [] →
     as_text (dict_lookup "code" props) = Some code →
     dict_lookup "shellCommand" props = None →
     test_session_payload interp_msg (inr (JObj fields))
     = (if whitespace_only code
        then (400%Z, JObj [("error", JStr "No code provided")])
        else (200%Z, JObj [("success", JBool true);
                           ("code_received", JStr code);
                           ("length", JInt (Z.of_nat (code_points code)))]))
     ∧ (execute_code interp_msg format_exc run
          (Request POST (inr (JObj fields)))
        = Json 400 (JObj [("error", JStr "No code or command provided")])
        ↔ whitespace_only code = true))
  ∧ (fields ≠ [] →
     dict_lookup "properties" fields = None
     ∨ dict_lookup "properties" fields = Some (JObj []) →
     test_session_payload interp_msg (inr (JObj fields))
     = (400%Z, JObj [("error", JStr "No code provided")])
     ∧ ∀ code,
         dict_lookup "code" fields = Some (JStr code) →
         whitespace_only code = false →
         execute_code interp_msg format_exc run
           (Request POST (inr (JObj fields)))
         ≠ Json 400 (JObj [("error", JStr "No code or command provided")])).
Proof.
  split.
  - intros props code Hprops Hne Hcode Hshell.
    assert (default (JStr "") (dict_lookup "code" props) = JStr code)
      as Hget.
    { by apply as_text_get. }
    assert (truthy (JObj fields) = true) as Hfields.
    { by destruct fields. }
    assert (extract_properties (JObj fields) = inr (JObj props)) as Hextract.
    { unfold extract_properties. cbn [py_get mbind sum_bind].
      rewrite Hprops. cbn [default from_option id]. by destruct props. }
    split.
    + unfold test_session_payload. cbn [mbind sum_bind]. rewrite Hfields.
      cbn [negb py_get mbind sum_bind mret sum_ret]. rewrite Hprops.
      cbn [default from_option id py_get mbind sum_bind]. rewrite Hget.
      cbn [py_len mbind sum_bind]. rewrite has_content_str.
      cbn [mbind sum_bind mret sum_ret]. by destruct (whitespace_only code).
    + destruct (whitespace_only code) eqn:Hblank.
      * split; [done|]. intros _.
        unfold execute_code. cbn [method get_json].
        rewrite Hfields, Hextract. cbn [negb]. unfold run_properties.
        cbn [py_get mbind sum_bind mret sum_ret]. rewrite Hget, Hshell.
        cbn [default from_option id]. rewrite !has_content_str, Hblank.
        done.
      * split; [|done]. intros Hrefused.
        destruct (dict_lookup "code" props) as [[| | |code'| |]|] eqn:Hc;
          try done.
        -- injection Hcode as ->.
           by destruct (code_not_refused interp_msg format_exc run
                          (JObj fields) props code Hfields Hextract Hc Hblank).
        -- injection Hcode as <-. done.
  - intros Hne Hprops.
    assert (default (JObj []) (dict_lookup "properties" fields) = JObj [])
      as Hempty.
    { by destruct Hprops as [-> | ->]. }
    assert (truthy (JObj fields) = true) as Hfields.
    { by destruct fields. }
    split.
    + unfold test_session_payload. cbn [mbind sum_bind]. rewrite Hfields.
      cbn [negb py_get mbind sum_bind mret sum_ret]. by rewrite Hempty.
    + intros code Hcode Hblank.
      assert (∃ rest, extract_properties (JObj fields)
                      = inr (JObj (("code", JStr code) :: rest)))
        as [rest Hextract].
      { unfold extract_properties. cbn [py_get mbind sum_bind].
        rewrite Hempty, Hcode. cbn. eexists. reflexivity. }
      apply (code_not_refused interp_msg format_exc run (JObj fields)
               _ code Hfields Hextract); [|done].
      cbn [dict_lookup]. by rewrite String.eqb_refl.
Qed.

Lemma test_payload_matches_server_witness :
  test_session_payload (λ _, "") (inr (execution_payload "print('é')"))
  = (200%Z, JObj [("success", JBool true);
                  ("code_received", JStr "print('é')");
                  ("length", JInt 10)]).
Proof.
  destruct (test_payload_matches_server (λ _, "") (λ _, "")
              (λ _ _, TimeoutExpired)
              [("properties",
                JObj [("codeInputType", JStr "inline");
                      ("executionType", JStr "synchronous");
                      ("timeoutInSeconds", JInt 60);
                      ("code", JStr "print('é')")]);
               ("code", JStr "print('é')");
               ("language", JStr "python")])
    as [Hnested _].
  destruct (Hnested
              [("codeInputType", JStr "inline");
               ("executionType", JStr "synchronous");
               ("timeoutInSeconds", JInt 60);
               ("code", JStr "print('é')")]
              "print('é')" eq_refl ltac:(discriminate) eq_refl eq_refl)
    as [Htest _].
  apply Htest.
Defined.

(** X26.  Code that has no length ([null], a boolean, a number) makes the
    test endpoint answer HTTP 500, the length being taken before the code
    is tested; the server answers the same request, when the value is
    falsy and no shell command comes with it, with HTTP 400. *)
Theorem test_payload_without_length (interp_msg format_exc : exn → string)
  (run : command → json → proc_outcome) (fields props : list (string * json))
  (code : json) :
  dict_lookup "properties" fields = Some (JObj props) →
  props ≠ [] →
  dict_lookup "code" props = Some code →
  no_length code = true →
  test_session_payload interp_msg (inr (JObj fields))
  = (500%Z, JObj [("error", JStr (interp_msg TypeError))])
  ∧ (truthy code = false →
     dict_lookup "shellCommand" props = None →
     execute_code interp_msg format_exc run
       (Request POST (inr (JObj fields)))
     = Json 400 (JObj [("error", JStr "No code or command provided")])).
Proof.
  intros Hprops Hne Hcode Hlen.
  assert (truthy (JObj fields) = true) as Hfields.
  { by destruct fields. }
  split.
  - unfold test_session_payload. cbn [mbind sum_bind]. rewrite Hfields.
    cbn [negb py_get mbind sum_bind mret sum_ret]. rewrite Hprops.
    cbn [default from_option id py_get mbind sum_bind]. rewrite Hcode.
    cbn [default from_option id]. by destruct code.
  - intros Hfalsy Hshell.
    unfold execute_code. cbn [method get_json]. rewrite Hfields.
    cbn [negb]. unfold extract_properties.
    cbn [py_get mbind sum_bind]. rewrite Hprops.
    cbn [default from_option id].
    assert (truthy (JObj props) = true) as -> by (by destruct props).
    cbn [negb]. unfold run_properties.
    cbn [py_get mbind sum_bind mret sum_ret]. rewrite Hcode, Hshell.
    cbn [default from_option id].
    assert (has_content code = inr false) as ->.
    { unfold has_content. by rewrite Hfalsy. }
    done.
Qed.

Lemma test_payload_without_length_witness :
  test_session_payload (λ _, "len() of NoneType")
    (inr (JObj [("properties",
                 JObj [("code", JNull); ("language", JStr "python")])]))
  = (500%Z, JObj [("error", JStr "len() of NoneType")]).
Proof.
  destruct (test_payload_without_length (λ _, "len() of NoneType")
              (λ _, "") (λ _ _, TimeoutExpired)
              [("properties",
                JObj [("code", JNull); ("language", JStr "python")])]
              [("code", JNull); ("language", JStr "python")]
              JNull eq_refl ltac:(discriminate) eq_refl eq_refl)
    as [Htest _].
  apply Htest.
Defined.
